(** * Smart Job Portal (React client): session manager and request pipeline

    A shallow embedding of the client-side authentication and API-access
    layer:

    - [utils]            : [storage], [dateUtils.isExpired]
    - [services/api.ts]  : [ApiError], [HttpClient], [authApi], [transformJob],
                           [jobsApi.getAll], [applicationsApi], [handleApiError]
    - [hooks/useApplications.ts] : [useApplicationMutations.createApplication]
    - [contexts/AuthContext.tsx] : [initializeAuth], [clearAuthData], [login],
                           [logout], [isAuthenticated]

    JavaScript values are a small inductive type, exceptions are an explicit
    result type, and the mutable world (localStorage, the React state cells,
    the requests handed to [fetch]) is threaded through a state-and-exception
    monad.  The functions of the JavaScript host that the code calls
    ([JSON.parse], [JSON.stringify], [atob], the network behind [fetch], ...)
    are fields of a record [Host]; every theorem holds for every host.

    Conventions of the model:
    - an [async] function is the computation of how its promise settles; an
      [await] of a rejected promise is a [throw];
    - a React state setter writes its cell at once;
    - [Date.now()] is an argument [now] of the functions that read the clock;
    - the calls of [console.error] are left out;
    - numbers are integers, strings are sequences of bytes. *)

From Stdlib Require Import Ascii String.
From stdpp Require Import base numbers strings list gmap pretty.

Set Warnings "-register-all".

Local Open Scope string_scope.
Local Open Scope Z_scope.
Local Open Scope list_scope.

(** ** JavaScript values *)

(** Numbers are modelled by integers; [NaN] only arises from a conversion and
    is the [None] of [ToNumber] below. *)
Inductive JsVal : Type :=
  | JUndefined
  | JNull
  | JBool (b : bool)
  | JNum (n : Z)
  | JStr (s : string)
  | JArr (items : list JsVal)
  | JObj (fields : list (string * JsVal)).

(** [!!v] *)
Definition truthy (v : JsVal) : bool :=
  match v with
  | JUndefined | JNull => false
  | JBool b => b
  | JNum n => negb (n =? 0)
  | JStr s => negb (String.eqb s "")
  | JArr _ | JObj _ => true
  end.

(** [a || b] *)
Definition js_or (a b : JsVal) : JsVal := if truthy a then a else b.

(** [String(v)], also the conversion of a template literal [`${v}`]. *)
Fixpoint js_String (v : JsVal) : string :=
  match v with
  | JUndefined => "undefined"
  | JNull => "null"
  | JBool true => "true"
  | JBool false => "false"
  | JNum n => pretty n
  | JStr s => s
  | JArr items =>
      let elem x :=
        match x with JUndefined | JNull => "" | _ => js_String x end in
      (fix join (l : list JsVal) : string :=
         match l with
         | [] => ""
         | x :: rest =>
             match rest with
             | [] => elem x
             | _ :: _ => elem x +:+ "," +:+ join rest
             end
         end) items
  | JObj _ => "[object Object]"
  end.

(** Own property [k] of an object literal (keys of an object are unique). *)
Fixpoint obj_lookup (fields : list (string * JsVal)) (k : string) : JsVal :=
  match fields with
  | [] => JUndefined
  | (k', v) :: rest => if String.eqb k' k then v else obj_lookup rest k
  end.

(** [Array.isArray(v)] *)
Definition Array_isArray (v : JsVal) : bool :=
  match v with JArr _ => true | _ => false end.

(** ** Exceptions *)

Module ApiError.
(** [class ApiError extends Error]; [data] is [JUndefined] when the optional
    constructor argument is left out. *)
Record t : Type := mk {
  status : Z;
  statusText : string;
  message : string;
  data : JsVal
}.
End ApiError.

(** What a [throw] (or a rejected promise) carries. *)
Inductive JsError : Type :=
  | EApi (e : ApiError.t)               (* [instanceof ApiError] *)
  | EError (name message : string)      (* any other [instanceof Error] *)
  | EValue (v : JsVal).                 (* a thrown value that is no [Error] *)

Inductive Result (A : Type) : Type :=
  | Ok (a : A)
  | Throw (e : JsError).
Arguments Ok {A} a.
Arguments Throw {A} e.

#[global] Instance Result_ret : MRet Result := λ A a, Ok a.
#[global] Instance Result_bind : MBind Result := λ A B f r,
  match r with Ok a => f a | Throw e => Throw e end.

Definition is_ApiError (e : JsError) : bool :=
  match e with EApi _ => true | _ => false end.

(** ** Requests and responses *)

Module File.
Record t : Type := mk { name : string; content : string }.
End File.

(** A value appended to a [FormData]. *)
Inductive FormValue : Type :=
  | FText (s : string)
  | FFile (f : File.t).

(** The [body] of a [RequestInit]. *)
Inductive Body : Type :=
  | BodyNone                                          (* [undefined] *)
  | BodyText (s : string)                             (* a string, here JSON text *)
  | BodyURLSearchParams (ps : list (string * string)) (* URL-encoded form *)
  | BodyFormData (parts : list (string * FormValue)). (* multipart *)

Definition is_FormData (b : Body) : bool :=
  match b with BodyFormData _ => true | _ => false end.

Module RequestInit.
(** [headers] is the empty object when the option is left out. *)
Record t : Type := mk {
  method : string;
  headers : gmap string string;
  body : Body
}.
End RequestInit.

(** One call of [fetch(url, config)]. *)
Record Request : Type := mkRequest {
  url : string;
  config : RequestInit.t
}.

Module Response.
(** [contentType] is [headers.get("content-type")], [body] the raw body. *)
Record t : Type := mk {
  status : Z;
  statusText : string;
  contentType : option string;
  body : string
}.
(** [response.ok] *)
Definition ok (r : t) : bool := (200 <=? status r) && (status r <=? 299).
End Response.

(** How the network would settle a call of [fetch] that is left alone. *)
Inductive FetchOutcome : Type :=
  | Responded (r : Response.t)
  | Rejected (e : JsError).

(** ** The host *)

Record Host : Type := mkHost {
  (** [JSON.parse]; [None] is a [SyntaxError]. *)
  JSON_parse : string → option JsVal;
  (** [JSON.stringify]; [None] is the result [undefined]. *)
  JSON_stringify : JsVal → option string;
  (** [atob]; [None] is an [InvalidCharacterError]. *)
  atob : string → option string;
  (** [ToNumber] on strings; [None] is [NaN]. *)
  StringToNumber : string → option Z;
  (** The message the engine gives an error of the named class. *)
  engine_message : string → string;
  (** [new Date(ms).toISOString()] *)
  Date_toISOString : Z → string;
  (** [ENV.API_BASE_URL] *)
  API_BASE_URL : string;
  (** The network and the backend: for the call [fetch(url, config)], given
      the calls made before it, the time in milliseconds until the response
      (its status line and headers) or the failure arrives, and what
      arrives. *)
  network : list Request → Request → Z * FetchOutcome
}.

(** ** A reference host

    Executable versions of the host functions, used to run the code on
    concrete inputs.  They agree with a browser on ASCII texts, JSON without
    [\u] escapes and integer numbers; the theorems do not depend on them. *)

Module RefHost.

Definition dquote : ascii := "034"%char.
Definition code (c : ascii) : Z := Z.of_N (N_of_ascii c).
Definition chr (n : Z) : ascii := ascii_of_N (Z.to_N n).

Definition is_ws (c : ascii) : bool :=
  let n := code c in
  (n =? 9) || (n =? 10) || (n =? 12) || (n =? 13) || (n =? 32).

Definition is_digit (c : ascii) : bool := (48 <=? code c) && (code c <=? 57).

Fixpoint chars (s : string) : list ascii :=
  match s with EmptyString => [] | String c r => c :: chars r end.

(** *** [atob]: forgiving base64 decoding *)

Definition b64_value (c : ascii) : option Z :=
  let n := code c in
  if (65 <=? n) && (n <=? 90) then Some (n - 65)
  else if (97 <=? n) && (n <=? 122) then Some (n - 71)
  else if (48 <=? n) && (n <=? 57) then Some (n + 4)
  else if n =? 43 then Some 62
  else if n =? 47 then Some 63
  else None.

Fixpoint b64_values (l : list ascii) : option (list Z) :=
  match l with
  | [] => Some []
  | c :: r =>
      match b64_value c, b64_values r with
      | Some v, Some vs => Some (v :: vs)
      | _, _ => None
      end
  end.

Fixpoint b64_bytes (l : list Z) : string :=
  match l with
  | a :: b :: c :: d :: rest =>
      let n := a * 262144 + b * 4096 + c * 64 + d in
      String (chr (n / 65536))
        (String (chr (n / 256 mod 256))
           (String (chr (n mod 256)) (b64_bytes rest)))
  | [a; b; c] =>
      let n := a * 4096 + b * 64 + c in
      String (chr (n / 1024)) (String (chr (n / 4 mod 256)) EmptyString)
  | [a; b] => String (chr ((a * 64 + b) / 16)) EmptyString
  | _ => EmptyString
  end.

Definition strip_padding (l : list ascii) : list ascii :=
  if (Z.of_nat (length l) mod 4 =? 0) then
    match reverse l with
    | "="%char :: "="%char :: r => reverse r
    | "="%char :: r => reverse r
    | _ => l
    end
  else l.

Definition atob (s : string) : option string :=
  let l := strip_padding (filter (λ c, is_ws c = false) (chars s)) in
  if Z.of_nat (length l) mod 4 =? 1 then None
  else b64_bytes <$> b64_values l.

(** *** [JSON.parse] *)

Fixpoint skip_ws (s : string) : string :=
  match s with
  | String c r => if is_ws c then skip_ws r else s
  | EmptyString => s
  end.

Definition unescape (c : ascii) : option ascii :=
  let n := code c in
  if n =? 34 then Some c            (* escaped quote *)
  else if n =? 92 then Some c       (* escaped backslash *)
  else if n =? 47 then Some c       (* escaped slash *)
  else if n =? 98 then Some (chr 8)
  else if n =? 102 then Some (chr 12)
  else if n =? 110 then Some (chr 10)
  else if n =? 114 then Some (chr 13)
  else if n =? 116 then Some (chr 9)
  else None.

(** The rest of a string literal, after its opening quote. *)
Fixpoint parse_string (s : string) : option (string * string) :=
  match s with
  | EmptyString => None
  | String c r =>
      if code c =? 34 then Some (EmptyString, r)
      else if code c =? 92 then
        match r with
        | String e r' =>
            match unescape e, parse_string r' with
            | Some ch, Some (str, rest) => Some (String ch str, rest)
            | _, _ => None
            end
        | EmptyString => None
        end
      else if code c <? 32 then None
      else
        match parse_string r with
        | Some (str, rest) => Some (String c str, rest)
        | None => None
        end
  end.

Fixpoint parse_digits (s : string) (acc : Z) : Z * string :=
  match s with
  | String c r =>
      if is_digit c then parse_digits r (acc * 10 + (code c - 48)) else (acc, s)
  | EmptyString => (acc, s)
  end.

(** An integer literal; a fraction or an exponent is refused. *)
Definition parse_number (s : string) : option (JsVal * string) :=
  let '(neg, s1) :=
    match s with
    | String "-"%char r => (true, r)
    | _ => (false, s)
    end in
  match s1 with
  | String c r =>
      if is_digit c then
        let '(n, rest) := parse_digits s1 0 in
        let leading_zero :=
          (code c =? 48) &&
          match r with String c' _ => is_digit c' | EmptyString => false end in
        let continued :=
          match rest with
          | String c' _ => (code c' =? 46) || (code c' =? 101) || (code c' =? 69)
          | EmptyString => false
          end in
        if leading_zero || continued then None
        else Some (JNum (if neg then - n else n), rest)
      else None
  | EmptyString => None
  end.

Fixpoint obj_set (fields : list (string * JsVal)) (k : string) (v : JsVal)
  : list (string * JsVal) :=
  match fields with
  | [] => [(k, v)]
  | (k', v') :: rest =>
      if String.eqb k' k then (k, v) :: rest else (k', v') :: obj_set rest k v
  end.

Definition strip_prefix (p s : string) : option string :=
  if String.prefix p s
  then Some (String.substring (String.length p) (String.length s - String.length p) s)
  else None.

Fixpoint parse_value (fuel : nat) (s : string) {struct fuel}
  : option (JsVal * string) :=
  match fuel with
  | O => None
  | S fuel' =>
      match skip_ws s with
      | EmptyString => None
      | String c r as s' =>
          if code c =? 34 then
            match parse_string r with
            | Some (str, rest) => Some (JStr str, rest)
            | None => None
            end
          else if code c =? 91 then
            match skip_ws r with
            | String "]"%char rest => Some (JArr [], rest)
            | _ => parse_elements fuel' r []
            end
          else if code c =? 123 then
            match skip_ws r with
            | String "}"%char rest => Some (JObj [], rest)
            | _ => parse_members fuel' r []
            end
          else
            match strip_prefix "null" s', strip_prefix "true" s',
                  strip_prefix "false" s' with
            | Some rest, _, _ => Some (JNull, rest)
            | _, Some rest, _ => Some (JBool true, rest)
            | _, _, Some rest => Some (JBool false, rest)
            | _, _, _ => parse_number s'
            end
      end
  end
with parse_elements (fuel : nat) (s : string) (acc : list JsVal) {struct fuel}
  : option (JsVal * string) :=
  match fuel with
  | O => None
  | S fuel' =>
      match parse_value fuel' s with
      | Some (v, rest) =>
          match skip_ws rest with
          | String ","%char rest' => parse_elements fuel' rest' (acc ++ [v])
          | String "]"%char rest' => Some (JArr (acc ++ [v]), rest')
          | _ => None
          end
      | None => None
      end
  end
with parse_members (fuel : nat) (s : string) (acc : list (string * JsVal))
       {struct fuel} : option (JsVal * string) :=
  match fuel with
  | O => None
  | S fuel' =>
      match skip_ws s with
      | String c r =>
          if code c =? 34 then
            match parse_string r with
            | Some (k, rest) =>
                match skip_ws rest with
                | String ":"%char rest1 =>
                    match parse_value fuel' rest1 with
                    | Some (v, rest2) =>
                        match skip_ws rest2 with
                        | String ","%char rest3 =>
                            parse_members fuel' rest3 (obj_set acc k v)
                        | String "}"%char rest3 =>
                            Some (JObj (obj_set acc k v), rest3)
                        | _ => None
                        end
                    | None => None
                    end
                | _ => None
                end
            | None => None
            end
          else None
      | EmptyString => None
      end
  end.

Definition JSON_parse (s : string) : option JsVal :=
  match parse_value (S (String.length s)) s with
  | Some (v, rest) =>
      match skip_ws rest with EmptyString => Some v | _ => None end
  | None => None
  end.

(** *** [JSON.stringify] *)

Definition hex_digit (n : Z) : ascii :=
  if n <? 10 then chr (48 + n) else chr (87 + n).

Definition escape_char (c : ascii) : string :=
  let n := code c in
  if n =? 34 then String "\"%char (String c EmptyString)
  else if n =? 92 then "\\"
  else if n =? 8 then "\b"
  else if n =? 12 then "\f"
  else if n =? 10 then "\n"
  else if n =? 13 then "\r"
  else if n =? 9 then "\t"
  else if n <? 32 then
    "\u00" +:+ String (hex_digit (n / 16)) (String (hex_digit (n mod 16)) EmptyString)
  else String c EmptyString.

Fixpoint escape (s : string) : string :=
  match s with
  | EmptyString => EmptyString
  | String c r => escape_char c +:+ escape r
  end.

Definition quote (s : string) : string :=
  String dquote (escape s +:+ String dquote EmptyString).

Fixpoint join (sep : string) (l : list string) : string :=
  match l with
  | [] => ""
  | x :: rest =>
      match rest with [] => x | _ :: _ => x +:+ sep +:+ join sep rest end
  end.

(** The text of a value other than [undefined]. *)
Fixpoint stringify (v : JsVal) : string :=
  match v with
  | JUndefined | JNull => "null"
  | JBool true => "true"
  | JBool false => "false"
  | JNum n => pretty n
  | JStr s => quote s
  | JArr items =>
      "[" +:+
      join "," ((fix each (l : list JsVal) : list string :=
                   match l with
                   | [] => []
                   | x :: rest => stringify x :: each rest
                   end) items) +:+ "]"
  | JObj fields =>
      "{" +:+
      join "," ((fix each (l : list (string * JsVal)) : list string :=
                   match l with
                   | [] => []
                   | (_, JUndefined) :: rest => each rest
                   | (k, x) :: rest =>
                       (quote k +:+ ":" +:+ stringify x) :: each rest
                   end) fields) +:+ "}"
  end.

Definition JSON_stringify (v : JsVal) : option string :=
  match v with JUndefined => None | _ => Some (stringify v) end.

(** *** [ToNumber] on strings: decimal integers, the empty string is 0 *)

Fixpoint all_digits (s : string) : bool :=
  match s with
  | EmptyString => true
  | String c r => is_digit c && all_digits r
  end.

Definition trim (s : string) : string :=
  let rev_chars l := fold_left (λ acc c, String c acc) l EmptyString in
  let dropped := skip_ws s in
  let back := skip_ws (rev_chars (chars dropped)) in
  rev_chars (chars back).

Definition StringToNumber (s : string) : option Z :=
  match trim s with
  | EmptyString => Some 0
  | String c r as t =>
      let '(neg, body) :=
        if code c =? 45 then (true, r)
        else if code c =? 43 then (false, r)
        else (false, t) in
      match body with
      | EmptyString => None
      | String _ _ =>
          if all_digits body then
            let n := fst (parse_digits body 0) in
            Some (if neg then - n else n)
          else None
      end
  end.

Definition engine_message (name : string) : string :=
  if String.eqb name "SyntaxError" then "Unexpected token in JSON"
  else if String.eqb name "TypeError" then "Cannot read properties of undefined"
  else if String.eqb name "InvalidCharacterError"
  then "The string to be decoded is not correctly encoded."
  else if String.eqb name "AbortError" then "The user aborted a request."
  else name.

(** *** [Date.prototype.toISOString], for the years 0000 to 9999 *)

Definition pad (width : nat) (n : Z) : string :=
  let s := pretty n in
  String.concat "" (replicate (width - String.length s)%nat "0") +:+ s.

(** Day number since 1970-01-01 to (year, month, day). *)
Definition civil_from_days (z0 : Z) : Z * Z * Z :=
  let z := z0 + 719468 in
  let era := z / 146097 in
  let doe := z - era * 146097 in
  let yoe := (doe - doe / 1460 + doe / 36524 - doe / 146096) / 365 in
  let y := yoe + era * 400 in
  let doy := doe - (365 * yoe + yoe / 4 - yoe / 100) in
  let mp := (5 * doy + 2) / 153 in
  let d := doy - (153 * mp + 2) / 5 + 1 in
  let m := if mp <? 10 then mp + 3 else mp - 9 in
  (if m <=? 2 then y + 1 else y, m, d).

Definition Date_toISOString (ms : Z) : string :=
  let '(y, m, d) := civil_from_days (ms / 86400000) in
  let t := ms mod 86400000 in
  pad 4 y +:+ "-" +:+ pad 2 m +:+ "-" +:+ pad 2 d +:+ "T" +:+
  pad 2 (t / 3600000) +:+ ":" +:+ pad 2 (t / 60000 mod 60) +:+ ":" +:+
  pad 2 (t / 1000 mod 60) +:+ "." +:+ pad 3 (t mod 1000) +:+ "Z".

Definition API_BASE_URL : string := "https://job-portal-api-nest.onrender.com".

(** The reference host in front of a given backend. *)
Definition host (net : list Request → Request → Z * FetchOutcome) : Host :=
  mkHost JSON_parse JSON_stringify atob StringToNumber engine_message
    Date_toISOString API_BASE_URL net.
End RefHost.

(** ** [URLSearchParams]

    A list of name/value pairs; [toString] is the
    [application/x-www-form-urlencoded] serializer (strings are taken as
    sequences of UTF-8 bytes). *)

Module URLSearchParams.
Definition code (c : ascii) : Z := Z.of_N (N_of_ascii c).

Definition hex_digit (n : Z) : ascii :=
  ascii_of_N (Z.to_N (if n <? 10 then 48 + n else 55 + n)).

(** Bytes left as they are: ASCII letters and digits, and [* - . _]. *)
Definition unreserved (c : ascii) : bool :=
  let n := code c in
  ((48 <=? n) && (n <=? 57)) || ((65 <=? n) && (n <=? 90)) ||
  ((97 <=? n) && (n <=? 122)) ||
  (n =? 42) || (n =? 45) || (n =? 46) || (n =? 95).

Definition encode_byte (c : ascii) : string :=
  if unreserved c then String c EmptyString
  else if code c =? 32 then "+"
  else String "%"%char
         (String (hex_digit (code c / 16))
            (String (hex_digit (code c mod 16)) EmptyString)).

Fixpoint encode (s : string) : string :=
  match s with
  | EmptyString => EmptyString
  | String c r => encode_byte c +:+ encode r
  end.

Fixpoint toString (ps : list (string * string)) : string :=
  match ps with
  | [] => ""
  | (k, v) :: rest =>
      let pair := encode k +:+ "=" +:+ encode v in
      match rest with
      | [] => pair
      | _ :: _ => pair +:+ "&" +:+ toString rest
      end
  end.
End URLSearchParams.

(** [obj[key] = value] on an object with string values. *)
Fixpoint str_set (obj : list (string * string)) (key value : string)
  : list (string * string) :=
  match obj with
  | [] => [(key, value)]
  | (k, v) :: rest =>
      if String.eqb k key then (k, value) :: rest
      else (k, v) :: str_set rest key value
  end.

(** [s.split(".")] *)
Fixpoint split_dot (s : string) : list string :=
  match s with
  | EmptyString => [EmptyString]
  | String c r =>
      if Ascii.eqb c "."%char then EmptyString :: split_dot r
      else
        match split_dot r with
        | seg :: segs => String c seg :: segs
        | [] => [String c EmptyString]
        end
  end.

(** [hay.includes(needle)] *)
Definition includes (needle hay : string) : bool :=
  match String.index 0 needle hay with Some _ => true | None => false end.

(** ** The mutable world and its monad *)

Module AuthUser.
(** [interface AuthUser]; the fields hold whatever the token payload has. *)
Record t : Type := mk { id : JsVal; role : JsVal; exp : JsVal }.
End AuthUser.

Record State : Type := mkState {
  localStorage : gmap string string;   (* the browser's [localStorage] *)
  sent : list Request;                 (* the calls of [fetch] so far *)
  user : option AuthUser.t;            (* AuthProvider: [useState(null)] *)
  isLoading : bool;                    (* AuthProvider: [useState(true)] *)
  loading : bool                       (* useApplicationMutations: [useState(false)] *)
}.

Definition with_localStorage (ls : gmap string string) (s : State) : State :=
  mkState ls (sent s) (user s) (isLoading s) (loading s).
Definition with_sent (l : list Request) (s : State) : State :=
  mkState (localStorage s) l (user s) (isLoading s) (loading s).
Definition with_user (u : option AuthUser.t) (s : State) : State :=
  mkState (localStorage s) (sent s) u (isLoading s) (loading s).
Definition with_isLoading (b : bool) (s : State) : State :=
  mkState (localStorage s) (sent s) (user s) b (loading s).
Definition with_loading (b : bool) (s : State) : State :=
  mkState (localStorage s) (sent s) (user s) (isLoading s) b.

(** A computation: from a state to a result or a thrown error, and the state
    it leaves.  Effects done before a [throw] stay done. *)
Definition M (A : Type) : Type := State → Result A * State.

#[global] Instance M_ret : MRet M := λ A a s, (Ok a, s).
#[global] Instance M_bind : MBind M := λ A B f m s,
  match m s with
  | (Ok a, s') => f a s'
  | (Throw e, s') => (Throw e, s')
  end.

Definition throw {A} (e : JsError) : M A := λ s, (Throw e, s).

(** [await p] for an already settled promise [p]. *)
Definition await {A} (p : Result A) : M A := λ s, (p, s).

(** [try { body } catch (error) { handler }] *)
Definition try_catch {A} (body : M A) (handler : JsError → M A) : M A := λ s,
  match body s with
  | (Ok a, s') => (Ok a, s')
  | (Throw e, s') => handler e s'
  end.

(** [try { body } finally { final }] *)
Definition try_finally {A} (body : M A) (final : M unit) : M A := λ s,
  match body s with
  | (r, s') =>
      match final s' with
      | (Ok _, s'') => (r, s'')
      | (Throw e, s'') => (Throw e, s'')
      end
  end.

Definition setUser (u : option AuthUser.t) : M unit := λ s, (Ok (), with_user u s).
Definition setIsLoading (b : bool) : M unit := λ s, (Ok (), with_isLoading b s).
Definition setLoading (b : bool) : M unit := λ s, (Ok (), with_loading b s).

(** Results handed to the user interface. *)
Module ActionResult.
(** [{ success: boolean; message?: string }] *)
Record t : Type := mk { success : bool; message : string }.
End ActionResult.

Module MutationResult.
(** [{ success; message?; application? }]; a key left out is [JUndefined]. *)
Record t : Type := mk { success : bool; message : string; application : JsVal }.
End MutationResult.

Module Job.
(** [interface Job]; the fields hold whatever the backend sent. *)
Record t : Type := mk {
  id : JsVal;
  title : JsVal;
  description : JsVal;
  salary : JsVal;
  status : JsVal;
  jobLocation : JsVal;
  employerId : JsVal;
  employerName : JsVal;
  createdAt : JsVal;
  updatedAt : JsVal;
  _count : JsVal
}.
End Job.

Module ApiResponse.
(** [interface ApiResponse<T>] *)
Record t (T : Type) : Type := mk {
  status : JsVal;
  message : JsVal;
  data : T;
  hasPrev : JsVal;
  hasNext : JsVal;
  totalPages : JsVal
}.
Arguments mk {T}.
Arguments status {T}.
Arguments message {T}.
Arguments data {T}.
Arguments hasPrev {T}.
Arguments hasNext {T}.
Arguments totalPages {T}.
End ApiResponse.

Module LoginCredentials.
Record t : Type := mk { email : string; password : string }.
End LoginCredentials.

Module CreateApplicationData.
(** [resume?: File] *)
Record t : Type := mk { description : string; resume : option File.t }.
End CreateApplicationData.

(** The [data] argument of [post], [put] and [patch], as the callers in the
    repository pass it: nothing, an object literal, a [FormData] or a
    [URLSearchParams]. *)
Inductive Payload : Type :=
  | PUndefined
  | PRecord (fields : list (string * JsVal))
  | PFormData (parts : list (string * FormValue))
  | PURLSearchParams (ps : list (string * string)).

(** [STORAGE_KEYS] *)
Definition TOKEN : string := "job_portal_token".
Definition USER : string := "job_portal_user".

(** [API_CONFIG] *)
Definition API_CONFIG_timeout : Z := 10000.
Definition API_CONFIG_headers : gmap string string :=
  {[ "Content-Type" := "application/json" ]}.

(** [e1 || e2] on strings *)
Definition str_or (a b : string) : string := if String.eqb a "" then b else a.

(** [value !== undefined && value !== null] *)
Definition defined (value : JsVal) : bool :=
  match value with JUndefined | JNull => false | _ => true end.

(** ** The program *)

Section Program.
Context (H : Host).

(** *** Host operations as they are called *)

Definition TypeError : JsError := EError "TypeError" (engine_message H "TypeError").

(** [JSON.parse(text)] *)
Definition js_JSON_parse (text : string) : Result JsVal :=
  match JSON_parse H text with
  | Some v => Ok v
  | None => Throw (EError "SyntaxError" (engine_message H "SyntaxError"))
  end.

(** [atob(v)]; the argument is converted to a string first. *)
Definition js_atob (v : JsVal) : Result string :=
  match atob H (js_String v) with
  | Some s => Ok s
  | None =>
      Throw (EError "InvalidCharacterError" (engine_message H "InvalidCharacterError"))
  end.

(** [v.k], for a data property [k]: reading from [null] or [undefined]
    throws; properties inherited from a prototype are not modelled. *)
Definition get_prop (v : JsVal) (k : string) : Result JsVal :=
  match v with
  | JUndefined | JNull => Throw TypeError
  | JObj fields => Ok (obj_lookup fields k)
  | _ => Ok JUndefined
  end.

(** [ToNumber(v)]; [None] is [NaN]. *)
Definition ToNumber (v : JsVal) : option Z :=
  match v with
  | JUndefined => None
  | JNull => Some 0
  | JBool b => Some (if b then 1 else 0)
  | JNum n => Some n
  | JStr s => StringToNumber H s
  | JArr _ | JObj _ => StringToNumber H (js_String v)
  end.

(** [localStorage.getItem], [setItem] and [removeItem] *)
Definition localStorage_getItem (key : string) : M (option string) := λ s,
  (Ok (localStorage s !! key), s).
Definition localStorage_setItem (key value : string) : M unit := λ s,
  (Ok (), with_localStorage (<[key := value]> (localStorage s)) s).
Definition localStorage_removeItem (key : string) : M unit := λ s,
  (Ok (), with_localStorage (delete key (localStorage s)) s).

(** What the caller of [fetch] sees when the signal passed to it is aborted
    [abortAfter] milliseconds after the call: if nothing has arrived by then,
    the call is rejected with an [Error] named [AbortError].  (When both fall
    on the same millisecond the timer is taken to come first; no statement
    below depends on that case.) *)
Definition settled (abortAfter : Z) (reply : Z * FetchOutcome) : FetchOutcome :=
  if abortAfter <=? reply.1
  then Rejected (EError "AbortError" (engine_message H "AbortError"))
  else reply.2.

(** [fetch(url, { ...config, signal })] with [signal] aborted by
    [setTimeout(() => controller.abort(), abortAfter)]: the call is recorded
    and settles. *)
Definition fetch (url : string) (config : RequestInit.t) (abortAfter : Z)
  : M Response.t := λ s,
  let req := mkRequest url config in
  let s' := with_sent (sent s ++ [req]) s in
  match settled abortAfter (network H (sent s) req) with
  | Responded r => (Ok r, s')
  | Rejected e => (Throw e, s')
  end.

(** *** utils: [storage] and [dateUtils] *)

Definition storage_get (key : string) : M JsVal :=
  try_catch
    (item ← localStorage_getItem key;
     match item with
     | Some text =>
         if negb (String.eqb text "") then await (js_JSON_parse text)
         else mret JNull
     | None => mret JNull
     end)
    (λ _, mret JNull).

Definition storage_set (key : string) (value : JsVal) : M unit :=
  try_catch
    (localStorage_setItem key
       (match JSON_stringify H value with
        | Some text => text
        | None => "undefined"
        end))
    (λ _, mret ()).

Definition storage_remove (key : string) : M unit :=
  try_catch (localStorage_removeItem key) (λ _, mret ()).

(** [Date.now() >= expirationTime * 1000], with [now] the value of
    [Date.now()]; a comparison with [NaN] is false. *)
Definition isExpired (now : Z) (expirationTime : JsVal) : bool :=
  match ToNumber expirationTime with
  | Some e => now >=? e * 1000
  | None => false
  end.

(** *** services/api.ts: [class ApiError] and [class HttpClient] *)

(** [new ApiError(status, statusText, message, data)]: [super(message)]
    converts a message other than [undefined] to a string. *)
Definition new_ApiError (status : Z) (statusText : string) (message : JsVal)
    (data : JsVal) : ApiError.t :=
  ApiError.mk status statusText
    (match message with JUndefined => "" | _ => js_String message end) data.

Definition getAuthHeaders : M (gmap string string) :=
  token ← storage_get TOKEN;
  mret (if truthy token
        then {[ "Authorization" := "Bearer " +:+ js_String token ]}
        else ∅).

(** [response.json()] and [response.text()] *)
Definition Response_json (response : Response.t) : Result JsVal :=
  js_JSON_parse (Response.body response).
Definition Response_text (response : Response.t) : Result JsVal :=
  Ok (JStr (Response.body response)).

Definition handleResponse (response : Response.t) : Result JsVal :=
  if negb (Response.ok response) then
    let errorData :=
      match Response_json response with
      | Ok v => v
      | Throw _ => JObj []
      end in
    message ← get_prop errorData "message";
    Throw (EApi (new_ApiError (Response.status response)
                   (Response.statusText response)
                   (js_or message (JStr (Response.statusText response)))
                   errorData))
  else
    match Response.contentType response with
    | Some contentType =>
        if negb (String.eqb contentType "") && includes "application/json" contentType
        then Response_json response
        else Response_text response
    | None => Response_text response
    end.

(** The [catch] block of [request]: each of its paths ends in a [throw];
    this is the error it throws. *)
Definition request_catch (error : JsError) : JsError :=
  match error with
  | EApi e => EApi e
  | EError name message =>
      if String.eqb name "AbortError"
      then EApi (new_ApiError 408 "Request Timeout" (JStr "Request timed out") JUndefined)
      else EApi (new_ApiError 0 "Network Error" (JStr message) JUndefined)
  | EValue _ =>
      EApi (new_ApiError 0 "Unknown Error" (JStr "An unknown error occurred") JUndefined)
  end.

(** [request]: the abort timer is set to [API_CONFIG.timeout] and is cleared
    once the response of [fetch] is there.  Inside [try], the response of
    [fetch] is awaited, but the promise of [handleResponse] is returned
    without [await]; the [catch] block therefore sees the rejections of
    [fetch] only, and the caller receives the promise of [handleResponse] as
    it settles. *)
Definition request (endpoint : string) (options : RequestInit.t) : M JsVal :=
  let url := API_BASE_URL H +:+ endpoint in
  auth ← getAuthHeaders;
  let headers := RequestInit.headers options ∪ auth ∪ API_CONFIG_headers in
  let config :=
    RequestInit.mk (RequestInit.method options)
      (if is_FormData (RequestInit.body options)
       then delete "Content-Type" headers
       else headers)
      (RequestInit.body options) in
  returned ←
    try_catch
      (response ← fetch url config API_CONFIG_timeout;
       mret (handleResponse response))
      (λ error, throw (request_catch error));
  await returned.

(** [HttpClient.get]: the entries of [params] are given in the order of
    [Object.entries]. *)
Definition httpClient_get (endpoint : string) (params : option (list (string * JsVal)))
  : M JsVal :=
  match params with
  | Some entries =>
      let stringParams :=
        fold_left
          (λ acc '(key, value),
             if defined value then str_set acc key (js_String value) else acc)
          entries [] in
      let url := endpoint +:+ "?" +:+ URLSearchParams.toString stringParams in
      request url (RequestInit.mk "GET" ∅ BodyNone)
  | None => request endpoint (RequestInit.mk "GET" ∅ BodyNone)
  end.

(** [JSON.stringify(data)] as a request body *)
Definition json_body (data : Payload) : Body :=
  match data with
  | PUndefined => BodyNone
  | PRecord fields =>
      match JSON_stringify H (JObj fields) with
      | Some text => BodyText text
      | None => BodyNone
      end
  | PFormData _ | PURLSearchParams _ => BodyText "{}"
  end.

(** [data instanceof URLSearchParams ? data : new URLSearchParams(data)] *)
Definition form_body (data : Payload) : Body :=
  match data with
  | PURLSearchParams ps => BodyURLSearchParams ps
  | PRecord fields =>
      BodyURLSearchParams (map (λ '(k, v), (k, js_String v)) fields)
  | PUndefined | PFormData _ => BodyURLSearchParams []
  end.

(** The options [post] and [patch] build. *)
Definition body_options (method : string) (data : Payload)
    (contentType : option string) : RequestInit.t :=
  match data with
  | PFormData parts => RequestInit.mk method ∅ (BodyFormData parts)
  | _ =>
      match contentType with
      | Some ct =>
          if String.eqb ct "application/x-www-form-urlencoded"
          then RequestInit.mk method {[ "Content-Type" := ct ]} (form_body data)
          else RequestInit.mk method ∅ (json_body data)
      | None => RequestInit.mk method ∅ (json_body data)
      end
  end.

Definition httpClient_post (endpoint : string) (data : Payload) (contentType : option string)
  : M JsVal :=
  request endpoint (body_options "POST" data contentType).

Definition httpClient_put (endpoint : string) (data : Payload) : M JsVal :=
  request endpoint (RequestInit.mk "PUT" ∅ (json_body data)).

Definition httpClient_patch (endpoint : string) (data : Payload) (contentType : option string)
  : M JsVal :=
  request endpoint (body_options "PATCH" data contentType).

Definition httpClient_delete (endpoint : string) : M JsVal :=
  request endpoint (RequestInit.mk "DELETE" ∅ BodyNone).

(** *** services/api.ts: the domain modules *)

Definition authApi_login (credentials : LoginCredentials.t) : M JsVal :=
  httpClient_post "/auth/login"
    (PRecord [("email", JStr (LoginCredentials.email credentials));
              ("password", JStr (LoginCredentials.password credentials))])
    (Some "application/x-www-form-urlencoded").

(** [transformJob]; [now] is the time of [new Date()]. *)
Definition transformJob (now : Z) (rawJob : JsVal) : Result Job.t :=
  id ← get_prop rawJob "id";
  title ← get_prop rawJob "title";
  description ← get_prop rawJob "description";
  salary ← get_prop rawJob "salary";
  status ← get_prop rawJob "status";
  jobLocation ← get_prop rawJob "jobLocation";
  location ← get_prop rawJob "location";
  userId ← get_prop rawJob "userId";
  employerName ← get_prop rawJob "employerName";
  createdAt ← get_prop rawJob "createdAt";
  updatedAt ← get_prop rawJob "updatedAt";
  _count ← get_prop rawJob "_count";
  mret (Job.mk id title description salary status
          (js_or jobLocation (js_or location JNull))
          userId
          (js_or employerName (JStr "Unknown Employer"))
          (js_or createdAt (JStr (Date_toISOString H now)))
          (js_or updatedAt (JStr (Date_toISOString H now)))
          _count).

(** [v.map(f)]: only an array has [map]. *)
Definition js_map {A} (f : JsVal → Result A) (v : JsVal) : Result (list A) :=
  match v with
  | JArr items => mapM f items
  | _ => Throw TypeError
  end.

Definition jobsApi_getAll (now : Z) (filters : option (list (string * JsVal)))
  : M (ApiResponse.t (list Job.t)) :=
  response ← httpClient_get "/jobs" filters;
  await (status ← get_prop response "status";
         message ← get_prop response "message";
         data ← get_prop response "data";
         jobs ← js_map (transformJob now) (js_or data (JArr []));
         hasPrev ← get_prop response "hasPrev";
         hasNext ← get_prop response "hasNext";
         totalPages ← get_prop response "totalPages";
         mret (ApiResponse.mk (js_or status (JStr "success"))
                 (js_or message (JStr "")) jobs hasPrev hasNext totalPages)).

Definition applicationsApi_getAll : M JsVal :=
  response ← httpClient_get "/applications" None;
  if Array_isArray response then mret response
  else
    await (data ← get_prop response "data";
           mret (js_or data (js_or response (JArr [])))).

Definition applicationsApi_create (jobId : Z) (data : CreateApplicationData.t)
  : M (ApiResponse.t JsVal) :=
  let formData := [("description", FText (CreateApplicationData.description data))] in
  let formData :=
    match CreateApplicationData.resume data with
    | Some file => formData ++ [("resume", FFile file)]
    | None => formData
    end in
  response ← httpClient_post ("/applications/jobs/" +:+ js_String (JNum jobId))
               (PFormData formData) None;
  await (status ← get_prop response "status";
         message ← get_prop response "message";
         data ← get_prop response "data";
         hasPrev ← get_prop response "hasPrev";
         hasNext ← get_prop response "hasNext";
         totalPages ← get_prop response "totalPages";
         mret (ApiResponse.mk (js_or status (JStr "success"))
                 (js_or message (JStr "")) data hasPrev hasNext totalPages)).

(** [handleApiError]; the [switch] compares the status with each case in
    turn. *)
Definition handleApiError (error : JsError) : M string :=
  match error with
  | EApi e =>
      let status := ApiError.status e in
      if status =? 401 then
        storage_remove TOKEN;;
        storage_remove USER;;
        mret "Your session has expired. Please log in again."
      else if status =? 403 then
        mret "You do not have permission to perform this action."
      else if status =? 404 then
        mret "The requested resource was not found."
      else if status =? 409 then
        mret (str_or (ApiError.message e)
                "A conflict occurred. This item may already exist.")
      else if status =? 422 then
        mret (str_or (ApiError.message e) "Please check your input and try again.")
      else if status =? 429 then
        mret "Too many requests. Please try again later."
      else if status =? 500 then
        mret "A server error occurred. Please try again later."
      else
        mret (str_or (ApiError.message e) "An unexpected error occurred.")
  | EError _ message => mret message
  | EValue _ => mret "An unexpected error occurred. Please try again."
  end.

(** *** hooks/useApplications.ts: [useApplicationMutations] *)

Definition createApplication (jobId : Z) (data : CreateApplicationData.t)
  : M MutationResult.t :=
  try_finally
    (try_catch
       (setLoading true;;
        response ← applicationsApi_create jobId data;
        mret (MutationResult.mk true "Application submitted successfully!"
                (ApiResponse.data response)))
       (λ error,
          errorMessage ← handleApiError error;
          mret (MutationResult.mk false errorMessage JUndefined)))
    (setLoading false).

(** *** contexts/AuthContext.tsx: [AuthProvider] *)

(** [!!user && !dateUtils.isExpired(user.exp)] *)
Definition isAuthenticated (now : Z) (s : State) : bool :=
  match user s with
  | Some u => negb (isExpired now (AuthUser.exp u))
  | None => false
  end.

(** [token.split(".")[1]]: only a string has [split]. *)
Definition payload_segment (token : JsVal) : Result JsVal :=
  match token with
  | JStr s =>
      Ok (match split_dot s !! 1%nat with
          | Some segment => JStr segment
          | None => JUndefined
          end)
  | _ => Throw TypeError
  end.

(** [JSON.parse(atob(token.split(".")[1]))] *)
Definition decodePayload (token : JsVal) : Result JsVal :=
  segment ← payload_segment token;
  decoded ← js_atob segment;
  js_JSON_parse decoded.

(** The block both [initializeAuth] and [login] run on a token: the payload
    is decoded and read into the object literal
    [{ id: payload.sub, role: payload.role, exp: payload.exp }]. *)
Definition parseToken (token : JsVal) : Result AuthUser.t :=
  payload ← decodePayload token;
  sub ← get_prop payload "sub";
  role ← get_prop payload "role";
  exp ← get_prop payload "exp";
  mret (AuthUser.mk sub role exp).

Definition clearAuthData : M unit :=
  storage_remove TOKEN;;
  storage_remove USER;;
  setUser None.

Definition initializeAuth (now : Z) : M unit :=
  try_finally
    (try_catch
       (token ← storage_get TOKEN;
        if negb (truthy token) then setIsLoading false
        else
          try_catch
            (authUser ← await (parseToken token);
             if isExpired now (AuthUser.exp authUser) then clearAuthData
             else setUser (Some authUser))
            (λ _, clearAuthData))
       (λ _, mret ()))
    (setIsLoading false).

Definition login (credentials : LoginCredentials.t) : M ActionResult.t :=
  try_finally
    (try_catch
       (setIsLoading true;;
        response ← authApi_login credentials;
        accessToken ← await (get_prop response "accessToken");
        if truthy accessToken then
          storage_set TOKEN accessToken;;
          try_catch
            (authUser ← await (parseToken accessToken);
             setUser (Some authUser);;
             responseUser ← await (get_prop response "user");
             (if truthy responseUser then storage_set USER responseUser
              else mret ());;
             mret (ActionResult.mk true "Login successful!"))
            (λ _, mret (ActionResult.mk false "Invalid token received"))
        else mret (ActionResult.mk false "No access token received"))
       (λ error,
          message ← handleApiError error;
          mret (ActionResult.mk false message)))
    (setIsLoading false).

Definition logout : M unit := clearAuthData.

End Program.

(** A call of one of the public methods of [HttpClient]. *)
Inductive Call : Type :=
  | CallGet (endpoint : string) (params : option (list (string * JsVal)))
  | CallPost (endpoint : string) (data : Payload) (contentType : option string)
  | CallPut (endpoint : string) (data : Payload)
  | CallPatch (endpoint : string) (data : Payload) (contentType : option string)
  | CallDelete (endpoint : string).

Definition perform (H : Host) (c : Call) : M JsVal :=
  match c with
  | CallGet endpoint params => httpClient_get H endpoint params
  | CallPost endpoint data contentType => httpClient_post H endpoint data contentType
  | CallPut endpoint data => httpClient_put H endpoint data
  | CallPatch endpoint data contentType => httpClient_patch H endpoint data contentType
  | CallDelete endpoint => httpClient_delete H endpoint
  end.

(** ** More of the program

    The rest of the domain modules of services/api.ts, of [AuthProvider] and
    of the hooks of hooks/useApplications.ts, the URL helper of
    constants/env.ts and some of the utilities. *)

Module MessageResult.
(** [{ success: boolean; message?: string }] where the message is taken from
    a response as it came. *)
Record t : Type := mk { success : bool; message : JsVal }.
End MessageResult.

Module RegisterData.
Record t : Type := mk {
  firstName : string;
  lastName : string;
  email : string;
  password : string;
  role : string
}.
End RegisterData.

Module CreateJobData.
(** [salary?], [city?], [street?], [alley?]: [None] is a key left out. *)
Record t : Type := mk {
  title : string;
  description : string;
  salary : option Z;
  city : option string;
  street : option string;
  alley : option string
}.
End CreateJobData.

Module UpdateJobData.
Record t : Type := mk {
  title : option string;
  description : option string;
  salary : option Z;
  status : option string;
  city : option string;
  street : option string;
  alley : option string
}.
End UpdateJobData.

Module AsyncState.
(** [interface AsyncState<T>]; [error] is [null] or a message. *)
Record t : Type := mk { data : JsVal; loading : bool; error : option string }.
End AsyncState.

Module JobState.
(** [AsyncState<Job>] *)
Record t : Type := mk { data : option Job.t; loading : bool; error : option string }.
End JobState.

Module ApplicationStatusCells.
(** The three state cells of [useApplicationStatus]. *)
Record t : Type := mk { hasApplied : bool; applicationId : JsVal; loading : bool }.
End ApplicationStatusCells.

(** [!!s] for an optional string *)
Definition given (o : option string) : bool :=
  match o with Some s => negb (String.eqb s "") | None => false end.

(** [{ ...(s && { key: s }) }]: the entry when the optional string is truthy. *)
Definition entry_if_given (key : string) (o : option string) : list (string * JsVal) :=
  match o with
  | Some s => if negb (String.eqb s "") then [(key, JStr s)] else []
  | None => []
  end.

(** The [location] part of a job request: present when one of the three
    fields is truthy, and then holding the truthy ones. *)
Definition location_entries (city street alley : option string)
  : list (string * JsVal) :=
  if given city || given street || given alley
  then [("location",
         JObj (entry_if_given "city" city ++ entry_if_given "street" street
               ++ entry_if_given "alley" alley))]
  else [].

(** [jobsApi.create]: the object [requestData]. *)
Definition create_requestData (data : CreateJobData.t) : list (string * JsVal) :=
  [("title", JStr (CreateJobData.title data));
   ("description", JStr (CreateJobData.description data))]
  ++ match CreateJobData.salary data with
     | Some n => [("salary", JNum n)]
     | None => []
     end
  ++ location_entries (CreateJobData.city data) (CreateJobData.street data)
       (CreateJobData.alley data).

(** [jobsApi.update]: the object [requestData]. *)
Definition update_requestData (data : UpdateJobData.t) : list (string * JsVal) :=
  entry_if_given "title" (UpdateJobData.title data)
  ++ entry_if_given "description" (UpdateJobData.description data)
  ++ match UpdateJobData.salary data with
     | Some n => [("salary", JNum n)]
     | None => []
     end
  ++ entry_if_given "status" (UpdateJobData.status data)
  ++ location_entries (UpdateJobData.city data) (UpdateJobData.street data)
       (UpdateJobData.alley data).

(** [v?.k] *)
Definition opt_chain (v : JsVal) (k : string) : JsVal :=
  match v with
  | JObj fields => obj_lookup fields k
  | _ => JUndefined
  end.

(** [v === n] for a number [n] *)
Definition strict_eq_num (v : JsVal) (n : Z) : bool :=
  match v with JNum m => m =? n | _ => false end.

(** [s.replace(/\/+$/, "")] and [s.replace(/^\/+/, "")] *)
Fixpoint strip_leading_slashes (s : string) : string :=
  match s with
  | String c r => if Ascii.eqb c "/"%char then strip_leading_slashes r else s
  | EmptyString => s
  end.

Fixpoint strip_trailing_slashes (s : string) : string :=
  match s with
  | EmptyString => EmptyString
  | String c r =>
      match strip_trailing_slashes r with
      | EmptyString => if Ascii.eqb c "/"%char then EmptyString else String c EmptyString
      | r' => String c r'
      end
  end.


(** utils: [dateUtils.formatRelative], for a date with time value [t]
    ([None] is an invalid date) read at the time [now]. *)
Definition formatRelative (now : Z) (t : option Z) : string :=
  match t with
  | None => "Invalid date"
  | Some t =>
      let diffInMinutes := (now - t) / (1000 * 60) in
      if diffInMinutes <? 1 then "just now"
      else if diffInMinutes <? 60 then pretty diffInMinutes +:+ " minutes ago"
      else if diffInMinutes <? 1440 then pretty (diffInMinutes / 60) +:+ " hours ago"
      else
        let diffInDays := diffInMinutes / 1440 in
        if diffInDays <? 30 then pretty diffInDays +:+ " days ago"
        else if diffInDays <? 365 then pretty (diffInDays / 30) +:+ " months ago"
        else pretty (diffInDays / 365) +:+ " years ago"
  end.

(** utils: [uniqueBy]; [seen] is the set of keys met so far. *)
Fixpoint uniqueBy_from {T K : Type} `{EqDecision K} (getKey : T → K)
    (seen : list K) (array : list T) : list T :=
  match array with
  | [] => []
  | item :: rest =>
      if bool_decide (getKey item ∈ seen) then uniqueBy_from getKey seen rest
      else item :: uniqueBy_from getKey (getKey item :: seen) rest
  end.

Definition uniqueBy {T K : Type} `{EqDecision K} (array : list T) (getKey : T → K)
  : list T :=
  uniqueBy_from getKey [] array.

Section MoreProgram.
Context (H : Host).

(** The text [storage.set] writes for a value. *)
Definition stored_text (value : JsVal) : string :=
  match JSON_stringify H value with
  | Some text => text
  | None => "undefined"
  end.

(** *** constants/env.ts *)

Definition getApiUrl (endpoint : string) : string :=
  let baseUrl := strip_trailing_slashes (API_BASE_URL H) in
  let cleanEndpoint := strip_leading_slashes endpoint in
  baseUrl +:+ "/" +:+ cleanEndpoint.

(** *** utils: [storage.clear] *)

Definition storage_clear : M unit :=
  try_catch (λ s, (Ok (), with_localStorage ∅ s)) (λ _, mret ()).

(** *** services/api.ts: the other domain functions *)

(** The object literal the domain functions return:
    [{ status: response.status || "success", message: response.message || "",
       data: ..., hasPrev: response.hasPrev, hasNext: response.hasNext,
       totalPages: response.totalPages }],
    with [data] computed from [response.data]. *)
Definition apiResponse {T} (response : JsVal) (data : JsVal → Result T)
  : Result (ApiResponse.t T) :=
  status ← get_prop H response "status";
  message ← get_prop H response "message";
  raw ← get_prop H response "data";
  d ← data raw;
  hasPrev ← get_prop H response "hasPrev";
  hasNext ← get_prop H response "hasNext";
  totalPages ← get_prop H response "totalPages";
  mret (ApiResponse.mk (js_or status (JStr "success")) (js_or message (JStr ""))
          d hasPrev hasNext totalPages).

Definition urlencoded : option string := Some "application/x-www-form-urlencoded".

Definition authApi_register (data : RegisterData.t) : M JsVal :=
  httpClient_post H "/auth/register"
    (PRecord [("firstName", JStr (RegisterData.firstName data));
              ("lastName", JStr (RegisterData.lastName data));
              ("email", JStr (RegisterData.email data));
              ("password", JStr (RegisterData.password data));
              ("role", JStr (RegisterData.role data))])
    urlencoded.

Definition authApi_forgotPassword (email : string) : M JsVal :=
  httpClient_post H "/auth/forget-password" (PRecord [("email", JStr email)]) urlencoded.

Definition authApi_resetPassword (token newPassword : string) : M JsVal :=
  httpClient_patch H "/auth/reset-password"
    (PRecord [("token", JStr token); ("newPassword", JStr newPassword)]) urlencoded.

Definition authApi_resendVerificationEmail (email : string) : M JsVal :=
  httpClient_post H "/auth/resend-verification-email"
    (PRecord [("email", JStr email)]) urlencoded.

Definition authApi_verifyEmail (token : string) : M JsVal :=
  httpClient_get H ("/auth/verify-email?token=" +:+ token) None.

Definition authApi_getGoogleSeekerUrl : string := getApiUrl "/auth/google/seeker".
Definition authApi_getGoogleEmployerUrl : string := getApiUrl "/auth/google/employer".

(** [(response.data || []).map(transformJob)] *)
Definition jobs_of (now : Z) (data : JsVal) : Result (list Job.t) :=
  js_map H (transformJob H now) (js_or data (JArr [])).

Definition jobsApi_getById (now : Z) (id : Z) : M (ApiResponse.t Job.t) :=
  response ← httpClient_get H ("/jobs/" +:+ js_String (JNum id)) None;
  await (apiResponse response (transformJob H now)).

Definition jobsApi_getUserJobs (now : Z) : M (ApiResponse.t (list Job.t)) :=
  response ← httpClient_get H "/jobs/my-jobs" None;
  await (apiResponse response (jobs_of now)).

Definition jobsApi_create (now : Z) (data : CreateJobData.t)
  : M (ApiResponse.t Job.t) :=
  response ← httpClient_post H "/jobs" (PRecord (create_requestData data)) None;
  await (apiResponse response (transformJob H now)).

Definition jobsApi_update (now : Z) (id : Z) (data : UpdateJobData.t)
  : M (ApiResponse.t Job.t) :=
  response ← httpClient_patch H ("/jobs/" +:+ js_String (JNum id))
               (PRecord (update_requestData data)) None;
  await (apiResponse response (transformJob H now)).

Definition jobsApi_delete (id : Z) : M JsVal :=
  httpClient_delete H ("/jobs/" +:+ js_String (JNum id)).

Definition jobsApi_getAllAdmin (now : Z) (filters : option (list (string * JsVal)))
  : M (ApiResponse.t (list Job.t)) :=
  response ← httpClient_get H "/admin/jobs" filters;
  await (apiResponse response (jobs_of now)).

Definition jobsApi_updateAdmin (now : Z) (id : Z) (status : string)
  : M (ApiResponse.t Job.t) :=
  response ← httpClient_patch H ("/admin/jobs/" +:+ js_String (JNum id))
               (PRecord [("status", JStr status)]) urlencoded;
  await (apiResponse response (transformJob H now)).

(** [response.data || []] *)
Definition data_or_empty (data : JsVal) : Result JsVal := Ok (js_or data (JArr [])).

Definition applicationsApi_getForJob (jobId : Z) : M (ApiResponse.t JsVal) :=
  response ← httpClient_get H ("/applications/jobs/" +:+ js_String (JNum jobId)) None;
  await (apiResponse response data_or_empty).

Definition applicationsApi_getById (id : Z) : M (ApiResponse.t JsVal) :=
  response ← httpClient_get H ("/applications/" +:+ js_String (JNum id)) None;
  await (apiResponse response Ok).

Definition applicationsApi_getUserApplications : M (ApiResponse.t JsVal) :=
  response ← httpClient_get H "/applications/my-applications" None;
  await (apiResponse response data_or_empty).

Definition applicationsApi_update (id : Z) (status : string) : M (ApiResponse.t JsVal) :=
  response ← httpClient_patch H ("/applications/" +:+ js_String (JNum id))
               (PRecord [("status", JStr status)]) urlencoded;
  await (apiResponse response Ok).

Definition applicationsApi_getEmployerApplications
    (filters : option (list (string * JsVal))) : M (ApiResponse.t JsVal) :=
  response ← httpClient_get H "/applications/employer" filters;
  await (status ← get_prop H response "status";
         message ← get_prop H response "message";
         data ← get_prop H response "data";
         pagination ← get_prop H response "pagination";
         mret (ApiResponse.mk (js_or status (JStr "success"))
                 (js_or message (JStr "")) (js_or data (JArr []))
                 (js_or (opt_chain pagination "hasPrev") (JBool false))
                 (js_or (opt_chain pagination "hasNext") (JBool false))
                 (js_or (opt_chain pagination "totalPages") (JNum 0)))).

(** *** hooks/useApplications.ts *)

(** [useAllApplications]: [fetchAllApplications]; the result is the state
    cell it leaves (its first [setState], which only marks the cell as
    loading, is overwritten by the last one). *)
Definition fetchAllApplications : M AsyncState.t :=
  try_catch
    (response ← applicationsApi_getAll H;
     mret (AsyncState.mk (js_or response (JArr [])) false None))
    (λ error,
       errorMessage ← handleApiError error;
       mret (AsyncState.mk JNull false (Some errorMessage))).

(** [useUserApplications]: [fetchUserApplications] *)
Definition fetchUserApplications : M AsyncState.t :=
  try_catch
    (response ← applicationsApi_getUserApplications;
     mret (AsyncState.mk (js_or (ApiResponse.data response) (JArr [])) false None))
    (λ error,
       errorMessage ← handleApiError error;
       mret (AsyncState.mk JNull false (Some errorMessage))).

(** [useApplicationMutations]: [updateApplication] and
    [updateApplicationStatus] *)
Definition updateApplication (id : Z) (status : string) : M MutationResult.t :=
  try_finally
    (try_catch
       (setLoading true;;
        response ← applicationsApi_update id status;
        mret (MutationResult.mk true "Application status updated successfully!"
                (ApiResponse.data response)))
       (λ error,
          errorMessage ← handleApiError error;
          mret (MutationResult.mk false errorMessage JUndefined)))
    (setLoading false).

Definition updateApplicationStatus (id : Z) (status : string) : M MutationResult.t :=
  updateApplication id status.

(** [userApplications.find((app) => app.jobId === currentJobId)]: only an
    array has [find]; reading [jobId] from [null] throws. *)
Fixpoint find_application (items : list JsVal) (currentJobId : Z) : Result JsVal :=
  match items with
  | [] => Ok JUndefined
  | app :: rest =>
      jobId ← get_prop H app "jobId";
      if strict_eq_num jobId currentJobId then Ok app
      else find_application rest currentJobId
  end.

Definition js_find_application (v : JsVal) (currentJobId : Z) : Result JsVal :=
  match v with
  | JArr items => find_application items currentJobId
  | _ => Throw (TypeError H)
  end.

(** [useApplicationStatus]: [checkApplicationStatus]; the result is the
    state cells it leaves ([loading] is set before the call and reset in
    [finally]). *)
Definition checkApplicationStatus (currentJobId : Z) : M ApplicationStatusCells.t :=
  cells ←
    try_catch
      (response ← applicationsApi_getUserApplications;
       let userApplications := js_or (ApiResponse.data response) (JArr []) in
       existingApplication ← await (js_find_application userApplications currentJobId);
       mret (ApplicationStatusCells.mk (truthy existingApplication)
               (js_or (opt_chain existingApplication "id") JNull) true))
      (λ _, mret (ApplicationStatusCells.mk false JNull true));
  mret (ApplicationStatusCells.mk (ApplicationStatusCells.hasApplied cells)
          (ApplicationStatusCells.applicationId cells) false).

(** *** contexts/AuthContext.tsx: the other operations *)

Definition register (data : RegisterData.t) : M MessageResult.t :=
  try_finally
    (try_catch
       (setIsLoading true;;
        response ← authApi_register data;
        message ← await (get_prop H response "message");
        mret (MessageResult.mk true
                (js_or message
                   (JStr "Registration successful! Please check your email to verify your account."))))
       (λ error,
          message ← handleApiError error;
          mret (MessageResult.mk false (JStr message))))
    (setIsLoading false).

Definition forgotPassword (email : string) : M MessageResult.t :=
  try_finally
    (try_catch
       (setIsLoading true;;
        response ← authApi_forgotPassword email;
        message ← await (get_prop H response "message");
        mret (MessageResult.mk true
                (js_or message (JStr "Password reset email sent successfully!"))))
       (λ error,
          message ← handleApiError error;
          mret (MessageResult.mk false (JStr message))))
    (setIsLoading false).

Definition resendVerificationEmail (email : string) : M MessageResult.t :=
  try_finally
    (try_catch
       (setIsLoading true;;
        response ← authApi_resendVerificationEmail email;
        message ← await (get_prop H response "message");
        mret (MessageResult.mk true
                (js_or message (JStr "Verification email sent successfully!"))))
       (λ error,
          message ← handleApiError error;
          mret (MessageResult.mk false (JStr message))))
    (setIsLoading false).

Definition checkTokenExpiry (now : Z) (s : State) : bool :=
  match user s with
  | None => false
  | Some u => negb (isExpired H now (AuthUser.exp u))
  end.

Definition refreshAuth (now : Z) : M unit := initializeAuth H now.

(** A reload of the page.  [localStorage] and what the backend has seen stay;
    the components are mounted anew, so every state cell starts from the
    initial value of its [useState] ([user = null], [isLoading = true],
    [loading = false]); then the mount effect of [AuthProvider],
    [useEffect(() => { initializeAuth(); }, [])], runs. *)
Definition reload_state (s : State) : State :=
  mkState (localStorage s) (sent s) None true false.

Definition reload (now : Z) : M unit := λ s, initializeAuth H now (reload_state s).

(** The body of both expiry effects (the one run when [user] changes and the
    one run every minute): [if (user && isExpired(user.exp)) logout()]. *)
Definition expiryCheck (now : Z) : M unit := λ s,
  match user s with
  | Some u => if isExpired H now (AuthUser.exp u) then logout s else (Ok (), s)
  | None => (Ok (), s)
  end.

(** *** hooks/useJobs.ts *)

(** [useJob]: [fetchJob]; the result is the state cell it leaves. *)
Definition fetchJob (now : Z) (jobId : Z) : M JobState.t :=
  try_catch
    (response ← jobsApi_getById now jobId;
     mret (JobState.mk (Some (ApiResponse.data response)) false None))
    (λ error,
       errorMessage ← handleApiError error;
       mret (JobState.mk None false (Some errorMessage))).

(** [useJobMutations]: [deleteJob]; [loading] is the cell of the mutation
    hook in use. *)
Definition deleteJob (id : Z) : M MessageResult.t :=
  try_finally
    (try_catch
       (setLoading true;;
        _ ← jobsApi_delete id;
        mret (MessageResult.mk true (JStr "Job deleted successfully!")))
       (λ error,
          errorMessage ← handleApiError error;
          mret (MessageResult.mk false (JStr errorMessage))))
    (setLoading false).

End MoreProgram.

(** The state in which the application starts: nothing stored, no request
    made, [user = null], [isLoading = true], [loading = false]. *)
Definition initial_state : State := mkState ∅ [] None true false.

(** A token whose payload is the base64 text of the JSON object with [sub] 7,
    [role] SEEKER and [exp] 2000000000, and the state of a browser that holds
    it, as [storage.set] writes it, with no request made yet. *)
Definition example_token : string :=
  "h.eyJzdWIiOjcsInJvbGUiOiJTRUVLRVIiLCJleHAiOjIwMDAwMDAwMDB9.s".

Definition example_session : State :=
  mkState {[ TOKEN := RefHost.quote example_token ]} [] None true false.

(** The state of a browser that holds a token without a payload segment. *)
Definition broken_session : State :=
  mkState {[ TOKEN := RefHost.quote "not-a-jwt"; USER := "{}" ]} [] None true false.

(** A network that is down: every call of [fetch] is rejected at once. *)
Definition offline : list Request → Request → Z * FetchOutcome :=
  λ _ _, (3, Rejected (EError "TypeError" "Failed to fetch")).

(** A backend that gives every call the same response, after the given
    time. *)
Definition answering (elapsed : Z) (r : Response.t)
  : list Request → Request → Z * FetchOutcome :=
  λ _ _, (elapsed, Responded r).

(** For the proofs: the headers [request] computes for the given options
    when [storage.get] finds [token]. *)
Definition sent_headers (options : RequestInit.t) (token : JsVal)
  : gmap string string :=
  let headers :=
    RequestInit.headers options
    ∪ (if truthy token
       then {[ "Authorization" := "Bearer " +:+ js_String token ]}
       else ∅)
    ∪ API_CONFIG_headers in
  if is_FormData (RequestInit.body options)
  then delete "Content-Type" headers
  else headers.

(** For the proofs: the call of [fetch] that [request] makes. *)
Definition sent_request (H : Host) (endpoint : string) (options : RequestInit.t)
    (token : JsVal) : Request :=
  mkRequest (API_BASE_URL H +:+ endpoint)
    (RequestInit.mk (RequestInit.method options) (sent_headers options token)
       (RequestInit.body options)).

(** A 409 response whose JSON body has the message
    [Application already exists], and a 409 response with an HTML body. *)
Definition conflict_response : Response.t :=
  Response.mk 409 "Conflict" (Some "application/json")
    ("{" +:+ RefHost.quote "message" +:+ ":" +:+
     RefHost.quote "Application already exists" +:+ "}").



(** Specification of the multipart body of an application: the description,
    then the resume when a file is given. *)
Definition application_parts_spec (data : CreateApplicationData.t)
  : list (string * FormValue) :=
  ("description", FText (CreateApplicationData.description data))
  :: match CreateApplicationData.resume data with
     | Some file => [("resume", FFile file)]
     | None => []
     end.

(** A login response whose access token has no payload segment. *)
Definition bad_token_response : Response.t :=
  Response.mk 200 "OK" (Some "application/json")
    ("{" +:+ RefHost.quote "accessToken" +:+ ":" +:+
     RefHost.quote "not-a-jwt" +:+ "}").

(** Filters as a page passes them: a search text, no status, a page number
    and no employer. *)
Definition example_filters : list (string * JsVal) :=
  [("search", JStr "dev ops"); ("status", JUndefined); ("page", JNum 2);
   ("employerId", JNull)].

(** Specification of the query of [HttpClient.get]: the entries whose value
    is neither [undefined] nor [null], in their order, each value converted
    by [String]. *)
Definition query_entries_spec (entries : list (string * JsVal)) : list (string * string) :=
  map (λ entry, (entry.1, js_String entry.2))
    (List.filter (λ entry, defined entry.2) entries).

(** A raw job that carries its owner under [employerId] and has no location,
    and one that carries it under [userId]. *)
Definition raw_job_employerId : JsVal :=
  JObj [("id", JNum 1); ("title", JStr "Developer"); ("employerId", JNum 42)].

Definition raw_job_userId : JsVal :=
  JObj [("id", JNum 1); ("title", JStr "Developer"); ("userId", JNum 42)].

(** A reply to [GET /applications] that is the array itself. *)
Definition bare_applications_response : Response.t :=
  Response.mk 200 "OK" (Some "application/json; charset=utf-8")
    ("[{" +:+ RefHost.quote "id" +:+ ":1}]").

(** A reply to [GET /applications] that wraps the array in an object. *)
Definition wrapped_applications_response : Response.t :=
  Response.mk 200 "OK" (Some "application/json; charset=utf-8")
    ("{" +:+ RefHost.quote "data" +:+ ":[{" +:+ RefHost.quote "id" +:+ ":1}]}").

(** A login response with the example token and a user object. *)
Definition login_response : Response.t :=
  Response.mk 200 "OK" (Some "application/json")
    ("{" +:+ RefHost.quote "accessToken" +:+ ":" +:+ RefHost.quote example_token
     +:+ "," +:+ RefHost.quote "user" +:+ ":{" +:+ RefHost.quote "id" +:+ ":7}}").

Definition example_credentials : LoginCredentials.t :=
  LoginCredentials.mk "seeker@example.com" "Secret123".

Definition example_user : AuthUser.t :=
  AuthUser.mk (JNum 7) (JStr "SEEKER") (JNum 2000000000).

(** A signed-in user whose token key holds a text that is not JSON, and one
    whose token key is gone. *)
Definition stale_session : State :=
  mkState {[ TOKEN := "not json" ]} [] (Some example_user) false false.

Definition tokenless_session : State :=
  mkState ∅ [] (Some example_user) false false.

(** A token whose payload is the base64 text of the JSON object with [sub] 7
    and [role] SEEKER and without [exp], and a browser that holds it. *)
Definition token_without_exp : string := "h.eyJzdWIiOjcsInJvbGUiOiJTRUVLRVIifQ==.s".

Definition session_without_exp : State :=
  mkState {[ TOKEN := RefHost.quote token_without_exp ]} [] None true false.

(** A 401 response with a JSON error body, and a 500 response with an HTML
    one. *)
Definition unauthorized_response : Response.t :=
  Response.mk 401 "Unauthorized" (Some "application/json")
    ("{" +:+ RefHost.quote "message" +:+ ":" +:+ RefHost.quote "jwt expired" +:+ "}").

Definition server_error_response : Response.t :=
  Response.mk 500 "Internal Server Error" (Some "text/html") "<html>".

(** A signed-in browser: the example token is stored and decoded. *)
Definition signed_in_session : State :=
  mkState {[ TOKEN := RefHost.quote example_token ]} [] (Some example_user) false false.

(** The [Content-Type] header and the body that [post] and [patch] are to
    send for their arguments. *)
Definition contentType_spec (data : Payload) (contentType : option string)
  : option string :=
  match data with
  | PFormData _ => None
  | _ =>
      if bool_decide (contentType = Some "application/x-www-form-urlencoded")
      then Some "application/x-www-form-urlencoded"
      else Some "application/json"
  end.

(** A value that says something: not [undefined], not [null], not the empty
    string, and for an object, fields that all say something. *)
Fixpoint informative (v : JsVal) : bool :=
  match v with
  | JUndefined | JNull => false
  | JStr s => negb (String.eqb s "")
  | JObj fields =>
      (fix all (l : list (string * JsVal)) : bool :=
         match l with
         | [] => true
         | (_, x) :: rest => informative x && all rest
         end) fields
  | _ => true
  end.

(** Job data that ask for a salary of 0 in Isfahan, and job data that change
    nothing. *)
Definition example_job : CreateJobData.t :=
  CreateJobData.mk "Developer" "Builds the portal" (Some 0) (Some "Isfahan")
    (Some "") None.

Definition empty_update : UpdateJobData.t :=
  UpdateJobData.mk (Some "") None None None (Some "") None None.

(** A reply to [GET /applications/my-applications] with two applications,
    for the jobs 4 and 9; the second has the id 0. *)
Definition my_applications_response : Response.t :=
  Response.mk 200 "OK" (Some "application/json")
    ("{" +:+ RefHost.quote "data" +:+ ":[{" +:+ RefHost.quote "id" +:+ ":31,"
     +:+ RefHost.quote "jobId" +:+ ":4},{" +:+ RefHost.quote "id" +:+ ":0,"
     +:+ RefHost.quote "jobId" +:+ ":9}]}").

(** A reply that is an object without [data]. *)
Definition message_only_response : Response.t :=
  Response.mk 200 "OK" (Some "application/json")
    ("{" +:+ RefHost.quote "message" +:+ ":" +:+ RefHost.quote "ok" +:+ "}").

(** [items.find(...)] as a specification: the first application of the job. *)
Definition first_application_spec (items : list JsVal) (currentJobId : Z)
  : option JsVal :=
  List.find (λ app, strict_eq_num (opt_chain app "jobId") currentJobId) items.

Definition body_spec (H : Host) (data : Payload) (contentType : option string)
  : Body :=
  match data with
  | PFormData parts => BodyFormData parts
  | _ =>
      if bool_decide (contentType = Some "application/x-www-form-urlencoded")
      then form_body data
      else json_body H data
  end.

(** A reply to [GET /applications/employer] that carries [hasNext] at the
    top and has no [pagination], and a reply whose body is [null]. *)
Definition unpaged_response : Response.t :=
  Response.mk 200 "OK" (Some "application/json")
    ("{" +:+ RefHost.quote "data" +:+ ":[]," +:+ RefHost.quote "hasNext" +:+ ":true}").

Definition null_response : Response.t :=
  Response.mk 200 "OK" (Some "application/json") "null".

(** An error reply whose body is the JSON [null]. *)
Definition null_error_response : Response.t :=
  Response.mk 502 "Bad Gateway" (Some "application/json") "null".

(** A 404 and an empty 204 reply. *)
Definition not_found_response : Response.t :=
  Response.mk 404 "Not Found" (Some "application/json")
    ("{" +:+ RefHost.quote "message" +:+ ":" +:+ RefHost.quote "Job not found" +:+ "}").

Definition no_content_response : Response.t := Response.mk 204 "No Content" None "".

(** Whether a call ended in an [ApiError] of status 401, the one case in
    which [handleApiError] touches storage. *)
Definition unauthorized {A} (r : Result A) : bool :=
  match r with
  | Throw (EApi e) => ApiError.status e =? 401
  | _ => false
  end.

(** [n] slashes, and whether a text begins or ends with a slash. *)
Fixpoint slashes (n : nat) : string :=
  match n with O => "" | S n => String "/"%char (slashes n) end.

Definition starts_with_slash (s : string) : bool :=
  match s with String c _ => Ascii.eqb c "/"%char | EmptyString => false end.

Fixpoint ends_with_slash (s : string) : bool :=
  match s with
  | EmptyString => false
  | String c EmptyString => Ascii.eqb c "/"%char
  | String _ r => ends_with_slash r
  end.

(** A week-old time value, read at [Date.now() = 1700000000000]. *)
Definition example_now : Z := 1700000000000.

(** * Properties *)

Ltac unfold_M :=
  unfold try_finally, try_catch, await, throw, setUser, setIsLoading, setLoading,
    localStorage_getItem, localStorage_setItem, localStorage_removeItem,
    mbind, mret, M_bind, M_ret, Result_bind, Result_ret in *.

(** ** [storage] *)

Lemma storage_get_run (H : Host) (key : string) (s : State) :
  ∃ v, storage_get H key s = (Ok v, s).
Proof.
  unfold storage_get; unfold_M.
  destruct (localStorage s !! key) as [text|]; [|eauto].
  destruct (String.eqb text ""); simpl; [eauto|].
  unfold js_JSON_parse. destruct (JSON_parse H text); eauto.
Qed.

Lemma storage_get_fst (H : Host) (key : string) (s : State) (v : JsVal) :
  (storage_get H key s).1 = Ok v → storage_get H key s = (Ok v, s).
Proof.
  destruct (storage_get_run H key s) as [v' E]. rewrite E. simpl. congruence.
Qed.

Lemma storage_get_absent (H : Host) (key : string) (s : State) :
  localStorage s !! key = None → storage_get H key s = (Ok JNull, s).
Proof. intros E. unfold storage_get; unfold_M. by rewrite E. Qed.

Lemma storage_get_frame (H : Host) (key : string) (s t : State) :
  localStorage s = localStorage t →
  (storage_get H key s).1 = (storage_get H key t).1.
Proof.
  intros E. unfold storage_get; unfold_M. rewrite E.
  destruct (localStorage t !! key) as [text|]; [|done].
  destruct (String.eqb text ""); simpl; [done|].
  by destruct (js_JSON_parse H text).
Qed.

Lemma storage_remove_run (key : string) (s : State) :
  storage_remove key s
  = (Ok (), with_localStorage (delete key (localStorage s)) s).
Proof. reflexivity. Qed.

Lemma storage_set_run (H : Host) (key : string) (value : JsVal) (s : State) :
  storage_set H key value s
  = (Ok (), with_localStorage
              (<[key := match JSON_stringify H value with
                        | Some text => text
                        | None => "undefined"
                        end]> (localStorage s)) s).
Proof. reflexivity. Qed.

Lemma clearAuthData_run (s : State) :
  clearAuthData s
  = (Ok (), mkState (delete USER (delete TOKEN (localStorage s))) (sent s)
              None (isLoading s) (loading s)).
Proof. reflexivity. Qed.

Lemma str_or_nonempty (a b : string) : b ≠ "" → str_or a b ≠ "".
Proof.
  intros Hb. unfold str_or. destruct (String.eqb_spec a ""); congruence.
Qed.

(** ** [handleApiError] *)

(** [handleApiError] always returns, and changes at most localStorage. *)
Lemma handleApiError_run (error : JsError) (s : State) :
  ∃ (message : string) (ls : gmap string string),
    handleApiError error s = (Ok message, with_localStorage ls s).
Proof.
  destruct error as [e|name m|v]; simpl;
    [|eexists _, (localStorage s); by destruct s ..].
  repeat
    (match goal with
     | |- context [ApiError.status e =? ?n] => destruct (ApiError.status e =? n)
     end;
     [first [ by eexists _, _
            | eexists _, (localStorage s); by destruct s ] |]).
  eexists _, (localStorage s); by destruct s.
Qed.

(** C10, as the code has it.  [handleApiError] returns a message for every
    thrown value and never throws.  The message is non-empty for every
    [ApiError] and for every value that is no [Error]; for a plain [Error] it
    is that error's own message, whatever it is.  Storage is touched for an
    [ApiError] of status 401 only, where the token key and the cached user key
    are removed; in every other case the whole state is left as it was. *)
Theorem handleApiError_total_and_frame (error : JsError) (s : State) :
  ∃ (message : string) (s' : State),
    handleApiError error s = (Ok message, s') ∧
    match error with
    | EError _ m => message = m
    | _ => message ≠ ""
    end ∧
    match error with
    | EApi e =>
        if ApiError.status e =? 401
        then s' = with_localStorage (delete USER (delete TOKEN (localStorage s))) s
        else s' = s
    | _ => s' = s
    end.
Proof.
  destruct error as [e|name m|v]; simpl.
  - repeat
      (match goal with
       | |- context [ApiError.status e =? ?n] =>
           destruct (ApiError.status e =? n) eqn:?
       end;
       [eexists _, _; split; [reflexivity|]; split;
          [first [apply str_or_nonempty|idtac]; by eauto | by destruct s] |]).
    eexists _, _; split; [reflexivity|]. split; [|done].
    by apply str_or_nonempty.
  - eexists _, _; by split.
  - eexists _, _; by split.
Qed.

(** C10 as stated fails: a plain [Error] with an empty message, as
    [new Error()] makes it, gets the empty string back. *)
Lemma handleApiError_empty_message_counterexample :
  handleApiError (EError "Error" "") initial_state = (Ok "", initial_state).
Proof. reflexivity. Qed.

(** ** [logout] *)

(** C5.  [logout] done twice leaves the same state as [logout] done once, and
    from every state [logout] followed by [initializeAuth] ends with no user,
    not authenticated, and no stored token. *)
Theorem logout_idempotent_then_anonymous (s : State) :
  (logout;; logout) s = logout s ∧
  ∀ (H : Host) (now : Z),
    ∃ s', (logout;; initializeAuth H now) s = (Ok (), s') ∧
          user s' = None ∧
          isAuthenticated H now s' = false ∧
          localStorage s' !! TOKEN = None.
Proof.
  split.
  - unfold logout, mbind, M_bind. rewrite !clearAuthData_run. simpl.
    do 2 f_equal.
    apply map_eq. intros k.
    rewrite !lookup_delete.
    repeat case_decide; done.
  - intros H now. unfold logout, mbind at 1, M_bind at 1.
    rewrite clearAuthData_run.
    set (s1 := mkState _ _ _ _ _).
    assert (Hnone : localStorage s1 !! TOKEN = None).
    { subst s1; simpl. rewrite lookup_delete_ne by done. apply lookup_delete_eq. }
    unfold initializeAuth. unfold try_finally, try_catch at 1, mbind, M_bind.
    rewrite (storage_get_absent H TOKEN s1 Hnone). simpl.
    eexists; split; [reflexivity|].
    split; [done|]. split; [done|]. exact Hnone.
Qed.

(** ** [initializeAuth] *)

Lemma isExpired_seconds (H : Host) (now : Z) (v : JsVal) (e : Z) :
  ToNumber H v = Some e →
  isExpired H now v = bool_decide (e ≤ now / 1000).
Proof.
  intros E. unfold isExpired. rewrite E.
  destruct (Z.geb_spec now (e * 1000)) as [Hge|Hlt].
  - rewrite bool_decide_eq_true_2; [done|].
    apply Z.div_le_lower_bound; lia.
  - rewrite bool_decide_eq_false_2; [done|].
    apply Z.lt_nge. apply Z.div_lt_upper_bound; lia.
Qed.

Lemma parseToken_decode_failure (H : Host) (token : JsVal) (err : JsError) :
  decodePayload H token = Throw err → parseToken H token = Throw err.
Proof. intros E. unfold parseToken. by rewrite E. Qed.

Lemma parseToken_object (H : Host) (token : JsVal) (fields : list (string * JsVal)) :
  decodePayload H token = Ok (JObj fields) →
  parseToken H token
  = Ok (AuthUser.mk (obj_lookup fields "sub") (obj_lookup fields "role")
          (obj_lookup fields "exp")).
Proof. intros E. unfold parseToken. by rewrite E. Qed.

(** What [initializeAuth] does when [storage.get] finds no token, and when
    it finds one. *)
Lemma initializeAuth_no_token (H : Host) (now : Z) (s : State) (token : JsVal) :
  (storage_get H TOKEN s).1 = Ok token → truthy token = false →
  initializeAuth H now s = (Ok (), with_isLoading false s).
Proof.
  intros Hget Hfalsy. apply storage_get_fst in Hget.
  unfold initializeAuth, try_finally, try_catch at 1, mbind, M_bind.
  rewrite Hget, Hfalsy. by destruct s.
Qed.

Lemma initializeAuth_token (H : Host) (now : Z) (s : State) (token : JsVal) :
  (storage_get H TOKEN s).1 = Ok token → truthy token = true →
  initializeAuth H now s
  = (Ok (),
     with_isLoading false
       match parseToken H token with
       | Ok authUser =>
           if isExpired H now (AuthUser.exp authUser)
           then (clearAuthData s).2
           else with_user (Some authUser) s
       | Throw _ => (clearAuthData s).2
       end).
Proof.
  intros Hget Htruthy. apply storage_get_fst in Hget.
  unfold initializeAuth, try_finally, try_catch at 1, mbind at 1, M_bind at 1.
  rewrite Hget, Htruthy. simpl. unfold_M.
  destruct (parseToken H token) as [authUser|err]; [|done].
  by destruct (isExpired H now (AuthUser.exp authUser)).
Qed.

(** C1.  [initializeAuth] never throws, whatever the state.  When
    [storage.get] finds a token (a truthy value, the test of the code):
    - if its decoded payload has an expiry [e] with the current time, in
      seconds, before [e], the user is set to the payload's [sub], [role] and
      [exp], the session is authenticated and storage is untouched;
    - if the expiry is not after the current time, the user is cleared and
      the token (and the cached user) are removed from storage;
    - if the decoding block throws (the payload segment is missing, is not
      base64 or is not JSON), the same clearing happens. *)
Theorem initializeAuth_correct (H : Host) (now : Z) (s : State) :
  (∃ s', initializeAuth H now s = (Ok (), s')) ∧
  ∀ token : JsVal,
    (storage_get H TOKEN s).1 = Ok token → truthy token = true →
    (∀ (fields : list (string * JsVal)) (e : Z),
       decodePayload H token = Ok (JObj fields) →
       ToNumber H (obj_lookup fields "exp") = Some e →
       now / 1000 < e →
       ∃ s', initializeAuth H now s = (Ok (), s') ∧
             user s' = Some (AuthUser.mk (obj_lookup fields "sub")
                               (obj_lookup fields "role")
                               (obj_lookup fields "exp")) ∧
             isAuthenticated H now s' = true ∧
             localStorage s' = localStorage s) ∧
    (∀ (fields : list (string * JsVal)) (e : Z),
       decodePayload H token = Ok (JObj fields) →
       ToNumber H (obj_lookup fields "exp") = Some e →
       e ≤ now / 1000 →
       ∃ s', initializeAuth H now s = (Ok (), s') ∧
             user s' = None ∧
             isAuthenticated H now s' = false ∧
             localStorage s' = delete USER (delete TOKEN (localStorage s)) ∧
             localStorage s' !! TOKEN = None) ∧
    (∀ err : JsError,
       parseToken H token = Throw err →
       ∃ s', initializeAuth H now s = (Ok (), s') ∧
             user s' = None ∧
             isAuthenticated H now s' = false ∧
             localStorage s' = delete USER (delete TOKEN (localStorage s)) ∧
             localStorage s' !! TOKEN = None).
Proof.
  assert (Herased : delete USER (delete TOKEN (localStorage s)) !! TOKEN = None).
  { rewrite lookup_delete_ne by done. apply lookup_delete_eq. }
  split.
  - destruct (storage_get_run H TOKEN s) as [token Hget].
    assert (Hfst : (storage_get H TOKEN s).1 = Ok token) by by rewrite Hget.
    destruct (truthy token) eqn:Htruthy.
    + rewrite (initializeAuth_token H now s token Hfst Htruthy). eauto.
    + rewrite (initializeAuth_no_token H now s token Hfst Htruthy). eauto.
  - intros token Hget Htruthy.
    rewrite (initializeAuth_token H now s token Hget Htruthy).
    split; [|split].
    + intros fields e Hdec Hnum Hfuture.
      rewrite (parseToken_object H token fields Hdec). simpl.
      rewrite (isExpired_seconds H now _ e Hnum).
      rewrite bool_decide_eq_false_2 by lia.
      eexists; split; [reflexivity|]. simpl.
      unfold isAuthenticated; simpl.
      rewrite (isExpired_seconds H now _ e Hnum).
      rewrite bool_decide_eq_false_2 by lia. done.
    + intros fields e Hdec Hnum Hpast.
      rewrite (parseToken_object H token fields Hdec). simpl.
      rewrite (isExpired_seconds H now _ e Hnum).
      rewrite bool_decide_eq_true_2 by lia.
      eexists; split; [reflexivity|]. done.
    + intros err Hthrow. rewrite Hthrow.
      eexists; split; [reflexivity|]. done.
Qed.

Lemma initializeAuth_correct_witness :
  (∃ s', initializeAuth (RefHost.host offline) 1700000000000 example_session
         = (Ok (), s') ∧
         user s' = Some (AuthUser.mk (JNum 7) (JStr "SEEKER") (JNum 2000000000)) ∧
         isAuthenticated (RefHost.host offline) 1700000000000 s' = true ∧
         localStorage s' = localStorage example_session) ∧
  (∃ s', initializeAuth (RefHost.host offline) 2000000000000 example_session
         = (Ok (), s') ∧
         user s' = None ∧
         isAuthenticated (RefHost.host offline) 2000000000000 s' = false ∧
         localStorage s' = delete USER (delete TOKEN (localStorage example_session)) ∧
         localStorage s' !! TOKEN = None) ∧
  (∃ s', initializeAuth (RefHost.host offline) 1700000000000 broken_session
         = (Ok (), s') ∧
         user s' = None ∧
         isAuthenticated (RefHost.host offline) 1700000000000 s' = false ∧
         localStorage s' = delete USER (delete TOKEN (localStorage broken_session)) ∧
         localStorage s' !! TOKEN = None).
Proof.
  pose (payload := [("sub", JNum 7); ("role", JStr "SEEKER");
                    ("exp", JNum 2000000000)]).
  split; [|split].
  - exact (proj1 (proj2 (initializeAuth_correct (RefHost.host offline)
                           1700000000000 example_session)
                    (JStr example_token) eq_refl eq_refl)
             payload 2000000000 eq_refl eq_refl eq_refl).
  - refine (proj1 (proj2 (proj2 (initializeAuth_correct (RefHost.host offline)
                                   2000000000000 example_session)
                            (JStr example_token) eq_refl eq_refl))
              payload 2000000000 eq_refl eq_refl _).
    discriminate.
  - exact (proj2 (proj2 (proj2 (initializeAuth_correct (RefHost.host offline)
                                  1700000000000 broken_session)
                           (JStr "not-a-jwt") eq_refl eq_refl))
             (EError "InvalidCharacterError"
                "The string to be decoded is not correctly encoded.")
             eq_refl).
Defined.

(** ** [HttpClient] *)

(** One run of [request]: one call of [fetch], whose rejection goes through
    the [catch] block and whose response goes to [handleResponse]. *)
Lemma request_run (H : Host) (endpoint : string) (options : RequestInit.t)
    (s : State) (token : JsVal) :
  (storage_get H TOKEN s).1 = Ok token →
  request H endpoint options s
  = (match settled H API_CONFIG_timeout
             (network H (sent s) (sent_request H endpoint options token)) with
     | Responded response => handleResponse H response
     | Rejected error => Throw (request_catch error)
     end,
     with_sent (sent s ++ [sent_request H endpoint options token]) s).
Proof.
  intros Hget. apply storage_get_fst in Hget.
  unfold request, getAuthHeaders, fetch, sent_request, sent_headers.
  unfold_M. rewrite Hget.
  destruct (settled H API_CONFIG_timeout _) as [response|error]; [|done].
  by destruct (handleResponse H response).
Qed.

(** Each public method is one [request] whose options carry no
    [Authorization] header of their own. *)
Lemma perform_request (H : Host) (c : Call) :
  ∃ (endpoint : string) (options : RequestInit.t),
    perform H c = request H endpoint options ∧
    RequestInit.headers options !! "Authorization" = None.
Proof.
  destruct c as [endpoint [entries|]|endpoint data ct|endpoint data
                |endpoint data ct|endpoint]; simpl;
    try (eexists _, _; split; [reflexivity|done]).
  - unfold httpClient_post, body_options.
    destruct data; try destruct ct as [ct|]; try destruct (String.eqb ct _);
      eexists _, _; (split; [reflexivity|done]).
  - unfold httpClient_patch, body_options.
    destruct data; try destruct ct as [ct|]; try destruct (String.eqb ct _);
      eexists _, _; (split; [reflexivity|done]).
Qed.

Lemma sent_headers_Authorization (options : RequestInit.t) (token : JsVal) :
  RequestInit.headers options !! "Authorization" = None →
  sent_headers options token !! "Authorization"
  = if truthy token then Some ("Bearer " +:+ js_String token) else None.
Proof.
  intros Hnone. unfold sent_headers, API_CONFIG_headers.
  assert (Hlook :
    (RequestInit.headers options
     ∪ (if truthy token
        then {[ "Authorization" := "Bearer " +:+ js_String token ]}
        else ∅)
     ∪ ({[ "Content-Type" := "application/json" ]} : gmap string string))
    !! "Authorization"
    = if truthy token then Some ("Bearer " +:+ js_String token) else None).
  { destruct (truthy token).
    - apply lookup_union_Some_l. rewrite lookup_union_r by done.
      apply lookup_singleton_eq.
    - apply lookup_union_None. split; [|by rewrite lookup_singleton_ne].
      apply lookup_union_None. by split. }
  destruct (is_FormData _); [|done].
  by rewrite lookup_delete_ne.
Qed.

(** C4.  Every call of a public method of [HttpClient] hands exactly one
    request to [fetch].  When [storage.get] finds a token (a truthy value,
    the test of the code), the request carries
    [Authorization: Bearer <token>]; when it finds none, and in particular
    when nothing is stored under the token key, the request has no
    [Authorization] header at all. *)
Theorem request_authorization_header (H : Host) (c : Call) (s : State) :
  ∃ req : Request,
    sent (perform H c s).2 = sent s ++ [req] ∧
    (∀ token : JsVal,
       (storage_get H TOKEN s).1 = Ok token → truthy token = true →
       RequestInit.headers (config req) !! "Authorization"
       = Some ("Bearer " +:+ js_String token)) ∧
    (∀ token : JsVal,
       (storage_get H TOKEN s).1 = Ok token → truthy token = false →
       RequestInit.headers (config req) !! "Authorization" = None) ∧
    (localStorage s !! TOKEN = None →
     RequestInit.headers (config req) !! "Authorization" = None).
Proof.
  destruct (perform_request H c) as (endpoint & options & -> & Hnone).
  destruct (storage_get_run H TOKEN s) as [token Hget].
  assert (Hfst : (storage_get H TOKEN s).1 = Ok token) by by rewrite Hget.
  rewrite (request_run H endpoint options s token Hfst).
  eexists; split; [reflexivity|]. simpl.
  rewrite (sent_headers_Authorization options token Hnone).
  split; [|split].
  - intros token' Hget' Htruthy. rewrite Hfst in Hget'.
    injection Hget' as ->. by rewrite Htruthy.
  - intros token' Hget' Hfalsy. rewrite Hfst in Hget'.
    injection Hget' as ->. by rewrite Hfalsy.
  - intros Habsent. rewrite (storage_get_absent H TOKEN s Habsent) in Hget.
    by injection Hget as <-.
Qed.

Lemma request_authorization_header_witness :
  ∃ req : Request,
    sent (perform (RefHost.host offline) (CallGet "/jobs" None) example_session).2
    = [req] ∧
    RequestInit.headers (config req) !! "Authorization"
    = Some ("Bearer " +:+ example_token) ∧
    sent (perform (RefHost.host offline) (CallGet "/jobs" None) initial_state).2
    = [mkRequest (RefHost.API_BASE_URL +:+ "/jobs")
         (RequestInit.mk "GET" API_CONFIG_headers BodyNone)].
Proof.
  destruct (request_authorization_header (RefHost.host offline)
              (CallGet "/jobs" None) example_session)
    as (req & Hsent & Hpresent & _).
  exists req. split; [exact Hsent|]. split.
  - exact (Hpresent (JStr example_token) eq_refl eq_refl).
  - reflexivity.
Defined.

Lemma new_ApiError_message (status : Z) (statusText : string) (m data : JsVal) :
  new_ApiError status statusText (js_or m (JStr statusText)) data
  = ApiError.mk status statusText (js_String (js_or m (JStr statusText))) data.
Proof.
  unfold new_ApiError, js_or. destruct (truthy m) eqn:E; [|done].
  by destruct m.
Qed.

Lemma settled_in_time (H : Host) (abortAfter elapsed : Z) (outcome : FetchOutcome) :
  elapsed < abortAfter → settled H abortAfter (elapsed, outcome) = outcome.
Proof.
  intros Hlt. unfold settled. simpl.
  by destruct (Z.leb_spec abortAfter elapsed); [lia|].
Qed.

Lemma settled_late (H : Host) (abortAfter : Z) (reply : Z * FetchOutcome) :
  abortAfter < reply.1 →
  settled H abortAfter reply
  = Rejected (EError "AbortError" (engine_message H "AbortError")).
Proof.
  intros Hlt. unfold settled.
  by destruct (Z.leb_spec abortAfter reply.1); [|lia].
Qed.

Lemma API_CONFIG_timeout_seconds : API_CONFIG_timeout = 10 * 1000.
Proof. reflexivity. Qed.

(** A request for which nothing arrives within the ten seconds of
    [API_CONFIG.timeout] is raised as an [ApiError] of status 408. *)
Lemma request_timeout_408 (H : Host) (endpoint : string) (options : RequestInit.t)
    (s : State) :
  (∀ req, API_CONFIG_timeout < (network H (sent s) req).1) →
  (request H endpoint options s).1
  = Throw (EApi (ApiError.mk 408 "Request Timeout" "Request timed out" JUndefined)).
Proof.
  intros Hnet. destruct (storage_get_run H TOKEN s) as [token Hget].
  rewrite (request_run H endpoint options s token) by by rewrite Hget.
  by rewrite settled_late.
Qed.

Example request_timeout_slow_backend :
  (request
     (RefHost.host (answering 15000 (Response.mk 200 "OK" (Some "application/json") "[]")))
     "/jobs" (RequestInit.mk "GET" ∅ BodyNone) initial_state).1
  = Throw (EApi (ApiError.mk 408 "Request Timeout" "Request timed out" JUndefined)).
Proof. reflexivity. Qed.

(** A call of [fetch] that fails without a response is raised as an
    [ApiError] of status 0. *)
Lemma request_network_failure_0 (H : Host) (endpoint : string)
    (options : RequestInit.t) (s : State) (elapsed : Z) (error : JsError) :
  (∀ req, network H (sent s) req = (elapsed, Rejected error)) →
  elapsed < API_CONFIG_timeout →
  match error with
  | EApi _ => False
  | EError name _ => name ≠ "AbortError"
  | EValue _ => True
  end →
  ∃ e : ApiError.t,
    (request H endpoint options s).1 = Throw (EApi e) ∧
    ApiError.status e = 0 ∧
    ApiError.data e = JUndefined ∧
    match error with
    | EError _ m => ApiError.statusText e = "Network Error" ∧ ApiError.message e = m
    | _ => ApiError.statusText e = "Unknown Error" ∧
           ApiError.message e = "An unknown error occurred"
    end.
Proof.
  intros Hnet Htime Hkind. destruct (storage_get_run H TOKEN s) as [token Hget].
  rewrite (request_run H endpoint options s token) by by rewrite Hget.
  rewrite Hnet, settled_in_time by done.
  destruct error as [e|name m|v]; [done| |]; simpl.
  - apply String.eqb_neq in Hkind. rewrite Hkind. by eexists.
  - by eexists.
Qed.

Lemma handleResponse_error (H : Host) (response : Response.t) (errorData m : JsVal) :
  Response.ok response = false →
  errorData = match JSON_parse H (Response.body response) with
              | Some v => v
              | None => JObj []
              end →
  get_prop H errorData "message" = Ok m →
  handleResponse H response
  = Throw (EApi (ApiError.mk (Response.status response)
                   (Response.statusText response)
                   (js_String (js_or m (JStr (Response.statusText response))))
                   errorData)).
Proof.
  intros Hok HerrorData Hm.
  unfold handleResponse, Response_json, js_JSON_parse. rewrite Hok. simpl.
  destruct (JSON_parse H (Response.body response)) as [v|];
    subst errorData; rewrite Hm; simpl; by rewrite new_ApiError_message.
Qed.

(** A response with a non-success status is raised as an [ApiError] with the
    status and status text of the response, the parsed error body as data
    (the empty object when the body is no JSON) and, as message, the
    [message] of the error body when it is truthy and the status text
    otherwise.  (An error body that is the JSON [null] is not covered: reading
    its [message] throws.) *)
Lemma request_error_status (H : Host) (endpoint : string) (options : RequestInit.t)
    (s : State) (elapsed : Z) (response : Response.t) (errorData m : JsVal) :
  (∀ req, network H (sent s) req = (elapsed, Responded response)) →
  elapsed < API_CONFIG_timeout →
  Response.ok response = false →
  errorData = match JSON_parse H (Response.body response) with
              | Some v => v
              | None => JObj []
              end →
  get_prop H errorData "message" = Ok m →
  (request H endpoint options s).1
  = Throw (EApi (ApiError.mk (Response.status response)
                   (Response.statusText response)
                   (js_String (js_or m (JStr (Response.statusText response))))
                   errorData)) ∧
  (JSON_parse H (Response.body response) = None →
   js_String (js_or m (JStr (Response.statusText response)))
   = Response.statusText response).
Proof.
  intros Hnet Htime Hok HerrorData Hm.
  destruct (storage_get_run H TOKEN s) as [token Hget].
  rewrite (request_run H endpoint options s token) by by rewrite Hget.
  rewrite Hnet, settled_in_time by done. split.
  - by apply handleResponse_error.
  - intros Hnone. rewrite Hnone in HerrorData. subst errorData.
    simpl in Hm. by injection Hm as <-.
Qed.

(** An error body that is the JSON [null] makes [handleResponse] fail on
    [errorData.message]; that [TypeError] reaches the caller as it is, for
    the same reason as in the theorem below. *)
Lemma request_error_body_null (H : Host) (endpoint : string) (options : RequestInit.t)
    (s : State) (elapsed : Z) (response : Response.t) :
  (∀ req, network H (sent s) req = (elapsed, Responded response)) →
  elapsed < API_CONFIG_timeout →
  Response.ok response = false →
  JSON_parse H (Response.body response) = Some JNull →
  (request H endpoint options s).1 = Throw (TypeError H).
Proof.
  intros Hnet Htime Hok Hparse.
  destruct (storage_get_run H TOKEN s) as [token Hget].
  rewrite (request_run H endpoint options s token) by by rewrite Hget.
  rewrite Hnet, settled_in_time by done.
  unfold handleResponse, Response_json, js_JSON_parse.
  by rewrite Hok, Hparse.
Qed.

Lemma includes_nonempty (needle hay : string) :
  needle ≠ "" → includes needle hay = true → String.eqb hay "" = false.
Proof.
  intros Hne Hinc. destruct hay; [|done].
  destruct needle; [done|]. discriminate Hinc.
Qed.

(** C3, where the code departs from it.  A response with a success status
    and a JSON content type whose body is no JSON makes [request] fail with
    the [SyntaxError] of [response.json()], not with an [ApiError]: the
    promise of [handleResponse] is returned from the [try] block without
    [await], so the [catch] block that classifies errors never sees it. *)
Theorem request_success_body_unparseable (H : Host) (endpoint : string)
    (options : RequestInit.t) (s : State) (elapsed : Z) (response : Response.t)
    (contentType : string) :
  (∀ req, network H (sent s) req = (elapsed, Responded response)) →
  elapsed < API_CONFIG_timeout →
  Response.ok response = true →
  Response.contentType response = Some contentType →
  includes "application/json" contentType = true →
  JSON_parse H (Response.body response) = None →
  ∃ error : JsError,
    (request H endpoint options s).1 = Throw error ∧
    error = EError "SyntaxError" (engine_message H "SyntaxError") ∧
    is_ApiError error = false.
Proof.
  intros Hnet Htime Hok Hct Hjson Hparse.
  destruct (storage_get_run H TOKEN s) as [token Hget].
  rewrite (request_run H endpoint options s token) by by rewrite Hget.
  rewrite Hnet, settled_in_time by done.
  unfold handleResponse, Response_json, js_JSON_parse.
  rewrite Hok, Hct, Hjson, Hparse.
  rewrite (includes_nonempty "application/json" contentType) by done.
  simpl. by eexists.
Qed.

Lemma request_success_body_unparseable_witness :
  (request
     (RefHost.host (answering 120 (Response.mk 200 "OK" (Some "application/json") "<html>")))
     "/jobs" (RequestInit.mk "GET" ∅ BodyNone) initial_state).1
  = Throw (EError "SyntaxError" "Unexpected token in JSON").
Proof.
  destruct (request_success_body_unparseable
              (RefHost.host (answering 120 (Response.mk 200 "OK" (Some "application/json") "<html>")))
              "/jobs" (RequestInit.mk "GET" ∅ BodyNone) initial_state 120
              (Response.mk 200 "OK" (Some "application/json") "<html>")
              "application/json" (λ _, eq_refl) eq_refl eq_refl eq_refl eq_refl
              eq_refl)
    as (error & Hrun & -> & _).
  exact Hrun.
Defined.

(** ** [createApplication] *)

Lemma applicationsApi_create_run (H : Host) (jobId : Z)
    (data : CreateApplicationData.t) (s : State) (token : JsVal) :
  (storage_get H TOKEN s).1 = Ok token →
  let req :=
    sent_request H ("/applications/jobs/" +:+ js_String (JNum jobId))
      (RequestInit.mk "POST" ∅ (BodyFormData (application_parts_spec data))) token in
  ∃ r : Result (ApiResponse.t JsVal),
    applicationsApi_create H jobId data s = (r, with_sent (sent s ++ [req]) s) ∧
    ∀ (elapsed : Z) (response : Response.t) (error : JsError),
      network H (sent s) req = (elapsed, Responded response) →
      elapsed < API_CONFIG_timeout →
      handleResponse H response = Throw error →
      r = Throw error.
Proof.
  intros Hget req.
  unfold applicationsApi_create, httpClient_post, body_options.
  unfold mbind at 1, M_bind at 1.
  assert (Hparts :
    match CreateApplicationData.resume data with
    | Some file =>
        [("description", FText (CreateApplicationData.description data))]
        ++ [("resume", FFile file)]
    | None => [("description", FText (CreateApplicationData.description data))]
    end = application_parts_spec data).
  { unfold application_parts_spec. by destruct (CreateApplicationData.resume data). }
  rewrite Hparts.
  rewrite (request_run H _ _ s token Hget). fold req.
  destruct (settled H API_CONFIG_timeout (network H (sent s) req))
    as [response|error0] eqn:Hsettled.
  - destruct (handleResponse H response) as [v|error1] eqn:Hresp.
    + eexists; split; [reflexivity|]. intros elapsed ? ? Hnet Htime ?.
      rewrite Hnet, settled_in_time in Hsettled by done. congruence.
    + eexists; split; [reflexivity|]. intros elapsed ? ? Hnet Htime ?.
      rewrite Hnet, settled_in_time in Hsettled by done. congruence.
  - eexists; split; [reflexivity|]. intros elapsed ? ? Hnet Htime ?.
    rewrite Hnet, settled_in_time in Hsettled by done. congruence.
Qed.




(** ** [HttpClient.get] *)

Lemma str_set_fresh (obj : list (string * string)) (key value : string) :
  key ∉ obj.*1 → str_set obj key value = obj ++ [(key, value)].
Proof.
  induction obj as [|[k v] obj IH]; intros Hfresh; simpl; [done|].
  simpl in Hfresh. apply not_elem_of_cons in Hfresh as [Hne Hfresh].
  destruct (String.eqb_spec k key) as [->|_]; [done|].
  by rewrite IH.
Qed.

Lemma stringParams_fold (entries : list (string * JsVal))
    (acc : list (string * string)) :
  NoDup (acc.*1 ++ entries.*1) →
  fold_left
    (λ (acc : list (string * string)) '(key, value),
       if defined value then str_set acc key (js_String value) else acc)
    entries acc
  = acc ++ query_entries_spec entries.
Proof.
  revert acc. induction entries as [|[k v] entries IH]; intros acc Hnodup.
  - by rewrite app_nil_r.
  - simpl in Hnodup. unfold query_entries_spec. simpl.
    destruct (defined v) eqn:Hdef; simpl.
    + rewrite str_set_fresh.
      * rewrite IH.
        -- by rewrite <- app_assoc.
        -- by rewrite fmap_app, <- app_assoc.
      * apply NoDup_app in Hnodup as (_ & Hdisjoint & _).
        intros Hin. apply (Hdisjoint k Hin). by left.
    + rewrite IH; [done|].
      apply NoDup_app in Hnodup as (Hacc & Hdisjoint & Hrest).
      apply NoDup_cons in Hrest as [_ Hrest].
      apply NoDup_app. split; [done|]. split; [|done].
      intros x Hx Hin. apply (Hdisjoint x Hx). by right.
Qed.

Lemma entries_functional {A} (entries : list (string * A)) (k : string) (v1 v2 : A) :
  NoDup entries.*1 → (k, v1) ∈ entries → (k, v2) ∈ entries → v1 = v2.
Proof.
  induction entries as [|[k0 v0] entries IH]; intros Hnodup Hin1 Hin2.
  - by apply elem_of_nil in Hin1.
  - simpl in Hnodup. apply NoDup_cons in Hnodup as [Hfresh Hnodup].
    apply elem_of_cons in Hin1 as [Heq1|Hin1];
      apply elem_of_cons in Hin2 as [Heq2|Hin2].
    + congruence.
    + injection Heq1 as <- <-. exfalso. apply Hfresh.
      apply list_elem_of_fmap. by exists (k, v2).
    + injection Heq2 as <- <-. exfalso. apply Hfresh.
      apply list_elem_of_fmap. by exists (k, v1).
    + by apply IH.
Qed.

(** C6, as the code has it.  [get] with parameters hands one request to
    [fetch]; its URL is the base URL, the path, a question mark and the query
    string of exactly those entries whose value is neither [undefined] nor
    [null], each value converted by [String] (an entry with the empty string
    as value is kept). *)
Theorem httpClient_get_query (H : Host) (endpoint : string)
    (entries : list (string * JsVal)) (s : State) :
  NoDup entries.*1 →
  ∃ req : Request,
    sent (httpClient_get H endpoint (Some entries) s).2 = sent s ++ [req] ∧
    url req = API_BASE_URL H +:+ endpoint +:+ "?" +:+
              URLSearchParams.toString (query_entries_spec entries) ∧
    ∀ (key : string) (value : JsVal),
      (key, value) ∈ entries →
      ((key, js_String value) ∈ query_entries_spec entries
       ↔ value ≠ JUndefined ∧ value ≠ JNull).
Proof.
  intros Hnodup.
  destruct (storage_get_run H TOKEN s) as [token Hget].
  assert (Hfst : (storage_get H TOKEN s).1 = Ok token) by by rewrite Hget.
  unfold httpClient_get.
  rewrite (request_run H _ _ s token Hfst).
  eexists; split; [reflexivity|]. split.
  - simpl. by rewrite (stringParams_fold entries []).
  - intros key value Hin. unfold query_entries_spec. split.
    + intros Hkept. apply list_elem_of_fmap in Hkept as ([k v] & Heq & Hfil).
      simpl in Heq. injection Heq as <- Hstr.
      apply list_elem_of_In, filter_In in Hfil as [Hin' Hdef].
      apply list_elem_of_In in Hin'. simpl in Hdef.
      assert (v = value) as -> by by eapply entries_functional.
      by destruct value.
    + intros [Hu Hn]. apply list_elem_of_fmap. exists (key, value).
      split; [done|]. apply list_elem_of_In, filter_In. split.
      * by apply list_elem_of_In.
      * by destruct value.
Qed.

Lemma httpClient_get_query_witness :
  url <$> sent (httpClient_get (RefHost.host offline) "/jobs"
                 (Some example_filters) initial_state).2
  = [RefHost.API_BASE_URL +:+ "/jobs?search=dev+ops&page=2"].
Proof.
  assert (Hnodup : NoDup example_filters.*1).
  { apply (bool_decide_unpack _). reflexivity. }
  destruct (httpClient_get_query (RefHost.host offline) "/jobs" example_filters
              initial_state Hnodup) as (req & -> & Hurl & _).
  simpl. f_equal. exact Hurl.
Defined.

(** C6 as stated fails: an entry whose value is the empty string is not
    left out of the query string. *)
Lemma httpClient_get_empty_string_counterexample :
  url <$> sent (httpClient_get (RefHost.host offline) "/jobs"
                 (Some [("search", JStr ""); ("page", JNum 2)]) initial_state).2
  = [RefHost.API_BASE_URL +:+ "/jobs?search=&page=2"].
Proof. reflexivity. Qed.

(** ** [transformJob] *)

(** C7, as the code has it.  For every raw job object, [transformJob] returns
    a job whose [employerId] is the raw job's [userId] (no other field of the
    raw job is read for it), and whose [jobLocation] is [null] when the raw
    job has neither [jobLocation] nor [location]. *)
Theorem transformJob_owner_and_location (H : Host) (now : Z)
    (fields : list (string * JsVal)) :
  ∃ job : Job.t,
    transformJob H now (JObj fields) = Ok job ∧
    Job.employerId job = obj_lookup fields "userId" ∧
    Job.jobLocation job
    = js_or (obj_lookup fields "jobLocation")
        (js_or (obj_lookup fields "location") JNull) ∧
    (obj_lookup fields "jobLocation" = JUndefined →
     obj_lookup fields "location" = JUndefined →
     Job.jobLocation job = JNull).
Proof.
  eexists; split; [reflexivity|]. simpl.
  split; [done|]. split; [done|].
  by intros -> ->.
Qed.

Lemma transformJob_owner_and_location_witness :
  ∃ job : Job.t,
    transformJob (RefHost.host offline) 0 raw_job_userId = Ok job ∧
    Job.employerId job = JNum 42 ∧
    Job.jobLocation job = JNull.
Proof.
  destruct (transformJob_owner_and_location (RefHost.host offline) 0
              [("id", JNum 1); ("title", JStr "Developer"); ("userId", JNum 42)])
    as (job & Hrun & Howner & _ & Hlocation).
  exists job. split; [exact Hrun|]. split; [exact Howner|].
  exact (Hlocation eq_refl eq_refl).
Defined.

(** C7 as stated fails: an owner sent under [employerId] does not reach the
    [employerId] of the normalized job, which is [undefined]. *)
Lemma transformJob_employerId_counterexample :
  ∃ job : Job.t,
    transformJob (RefHost.host offline) 0 raw_job_employerId = Ok job ∧
    Job.employerId job = JUndefined ∧
    Job.employerId job ≠ JNum 42.
Proof. eexists; split; [reflexivity|]. by split. Qed.

(** Whatever other field carries the owner, it does not reach [employerId]. *)
Lemma transformJob_owner_other_field (H : Host) (now : Z) (name : string)
    (owner : JsVal) (fields : list (string * JsVal)) :
  name ≠ "userId" →
  obj_lookup fields "userId" = JUndefined →
  ∃ job : Job.t,
    transformJob H now (JObj ((name, owner) :: fields)) = Ok job ∧
    Job.employerId job = JUndefined.
Proof.
  intros Hname Hfields. eexists; split; [reflexivity|]. simpl.
  apply String.eqb_neq in Hname. by rewrite Hname.
Qed.

(** In a jobs list whose jobs have neither [jobLocation] nor [location],
    every job [jobsApi.getAll] returns has the location [null]. *)
Lemma js_map_transformJob_location (H : Host) (now : Z) (items : list JsVal) :
  Forall (λ item, ∃ fields, item = JObj fields ∧
                    obj_lookup fields "jobLocation" = JUndefined ∧
                    obj_lookup fields "location" = JUndefined) items →
  ∃ jobs : list Job.t,
    js_map H (transformJob H now) (JArr items) = Ok jobs ∧
    length jobs = length items ∧
    Forall (λ job, Job.jobLocation job = JNull) jobs.
Proof.
  induction 1 as [|item items (fields & -> & Hj & Hl) _ (jobs & Hjobs & Hlen & Hall)].
  - by exists [].
  - simpl in *. unfold mbind, Result_bind in *. rewrite Hjobs. simpl.
    eexists; split; [reflexivity|]. split; [simpl; by rewrite Hlen|].
    constructor; [|done]. simpl. by rewrite Hj, Hl.
Qed.

Lemma jobsApi_getAll_absent_location (H : Host) (now : Z)
    (filters : option (list (string * JsVal))) (s s' : State)
    (response : list (string * JsVal)) (items : list JsVal) :
  httpClient_get H "/jobs" filters s = (Ok (JObj response), s') →
  obj_lookup response "data" = JArr items →
  Forall (λ item, ∃ fields, item = JObj fields ∧
                    obj_lookup fields "jobLocation" = JUndefined ∧
                    obj_lookup fields "location" = JUndefined) items →
  ∃ r : ApiResponse.t (list Job.t),
    jobsApi_getAll H now filters s = (Ok r, s') ∧
    length (ApiResponse.data r) = length items ∧
    Forall (λ job, Job.jobLocation job = JNull) (ApiResponse.data r).
Proof.
  intros Hget Hdata Hitems.
  destruct (js_map_transformJob_location H now items Hitems)
    as (jobs & Hjobs & Hlen & Hall).
  unfold jobsApi_getAll. unfold_M. rewrite Hget. simpl.
  rewrite Hdata. unfold js_or at 1. simpl truthy. cbv iota.
  rewrite Hjobs. by eexists.
Qed.

(** ** [applicationsApi.getAll] *)

(** C8.  When the reply to [GET /applications] is a bare array, or an object
    whose [data] is the array, [applicationsApi.getAll] returns the array
    itself. *)
Theorem applicationsApi_getAll_bare_array (H : Host) (s s' : State)
    (response : JsVal) (items : list JsVal) :
  httpClient_get H "/applications" None s = (Ok response, s') →
  response = JArr items ∨
  (∃ fields, response = JObj fields ∧ obj_lookup fields "data" = JArr items) →
  applicationsApi_getAll H s = (Ok (JArr items), s') ∧
  Array_isArray (JArr items) = true.
Proof.
  intros Hget Hshape. split; [|done].
  unfold applicationsApi_getAll. unfold_M. rewrite Hget.
  destruct Hshape as [->|(fields & -> & Hdata)]; [done|].
  simpl. by rewrite Hdata.
Qed.

Lemma applicationsApi_getAll_bare_array_witness :
  (applicationsApi_getAll
     (RefHost.host (answering 120 wrapped_applications_response)) initial_state).1
  = Ok (JArr [JObj [("id", JNum 1)]]) ∧
  (applicationsApi_getAll
     (RefHost.host (answering 120 bare_applications_response)) initial_state).1
  = Ok (JArr [JObj [("id", JNum 1)]]).
Proof.
  split.
  - pose (H := RefHost.host (answering 120 wrapped_applications_response)).
    destruct (applicationsApi_getAll_bare_array H initial_state
                (httpClient_get H "/applications" None initial_state).2
                (JObj [("data", JArr [JObj [("id", JNum 1)]])])
                [JObj [("id", JNum 1)]]
                eq_refl
                (or_intror (ex_intro _ [("data", JArr [JObj [("id", JNum 1)]])]
                              (conj eq_refl eq_refl))))
      as [Hrun _].
    subst H. by rewrite Hrun.
  - pose (H := RefHost.host (answering 120 bare_applications_response)).
    destruct (applicationsApi_getAll_bare_array H initial_state
                (httpClient_get H "/applications" None initial_state).2
                (JArr [JObj [("id", JNum 1)]])
                [JObj [("id", JNum 1)]]
                eq_refl (or_introl eq_refl))
      as [Hrun _].
    subst H. by rewrite Hrun.
Defined.

(** ** [login] *)

Lemma authApi_login_run (H : Host) (credentials : LoginCredentials.t) (s : State) :
  ∃ (r : Result JsVal) (req : Request),
    authApi_login H credentials s = (r, with_sent (sent s ++ [req]) s).
Proof.
  destruct (storage_get_run H TOKEN s) as [token Hget].
  unfold authApi_login, httpClient_post.
  rewrite (request_run H _ _ s token) by by rewrite Hget.
  by eexists _, _.
Qed.

(** C9.  When the login call succeeds with a truthy access token whose
    decoding block throws, [login] returns
    [{success: false, message: "Invalid token received"}], and the state it
    leaves still has the token under the token key, written before the
    decoding was tried; the user is as before.  If the stored text reads back
    as the token, a later [initializeAuth] finds it, fails to decode it in
    the same way, and removes it. *)
Theorem login_undecodable_token_persists (H : Host)
    (credentials : LoginCredentials.t) (s s1 : State)
    (response accessToken : JsVal) (err : JsError) (text : string) :
  authApi_login H credentials (with_isLoading true s) = (Ok response, s1) →
  get_prop H response "accessToken" = Ok accessToken →
  truthy accessToken = true →
  parseToken H accessToken = Throw err →
  JSON_stringify H accessToken = Some text →
  ∃ s2 : State,
    login H credentials s
    = (Ok (ActionResult.mk false "Invalid token received"), s2) ∧
    localStorage s2 = <[TOKEN := text]> (localStorage s) ∧
    localStorage s2 !! TOKEN = Some text ∧
    user s2 = user s ∧
    (text ≠ "" → JSON_parse H text = Some accessToken →
     ∀ now : Z,
       ∃ s3 : State,
         initializeAuth H now s2 = (Ok (), s3) ∧
         localStorage s3 !! TOKEN = None ∧
         user s3 = None).
Proof.
  intros Hlogin Htoken Htruthy Hthrow Htext.
  destruct (authApi_login_run H credentials (with_isLoading true s))
    as (r & req & Hrun).
  rewrite Hlogin in Hrun. injection Hrun as <- ->.
  set (s1 := with_sent (sent (with_isLoading true s) ++ [req]) (with_isLoading true s))
    in *.
  set (s2 := with_isLoading false
               (with_localStorage (<[TOKEN := text]> (localStorage s)) s1)).
  assert (Hrun : login H credentials s
                 = (Ok (ActionResult.mk false "Invalid token received"), s2)).
  { unfold login. unfold try_finally, try_catch at 1.
    unfold mbind at 1, M_bind at 1. unfold setIsLoading at 1.
    unfold mbind at 1, M_bind at 1. rewrite Hlogin.
    unfold mbind at 1, M_bind at 1, await at 1. rewrite Htoken, Htruthy.
    unfold mbind at 1, M_bind at 1. rewrite storage_set_run, Htext.
    unfold try_catch at 1, mbind at 1, M_bind at 1, await at 1.
    rewrite Hthrow. reflexivity. }
  exists s2. split; [exact Hrun|]. split; [done|].
  split; [apply lookup_insert_eq|]. split; [done|].
  intros Hnonempty Hparse now.
  assert (Hget : (storage_get H TOKEN s2).1 = Ok accessToken).
  { unfold storage_get; unfold_M. simpl. rewrite lookup_insert_eq.
    apply String.eqb_neq in Hnonempty. rewrite Hnonempty. simpl.
    unfold js_JSON_parse. by rewrite Hparse. }
  rewrite (initializeAuth_token H now s2 accessToken Hget Htruthy), Hthrow.
  eexists; split; [reflexivity|]. split; [|done]. simpl.
  rewrite lookup_delete_ne by done. apply lookup_delete_eq.
Qed.

Lemma login_undecodable_token_persists_witness :
  ∃ s2 : State,
    login (RefHost.host (answering 120 bad_token_response))
      (LoginCredentials.mk "seeker@example.com" "Secret123") initial_state
    = (Ok (ActionResult.mk false "Invalid token received"), s2) ∧
    localStorage s2 !! TOKEN = Some (RefHost.quote "not-a-jwt") ∧
    ∃ s3 : State,
      initializeAuth (RefHost.host (answering 120 bad_token_response))
        1700000000000 s2 = (Ok (), s3) ∧
      localStorage s3 !! TOKEN = None ∧
      user s3 = None.
Proof.
  pose (H := RefHost.host (answering 120 bad_token_response)).
  pose (credentials := LoginCredentials.mk "seeker@example.com" "Secret123").
  destruct (login_undecodable_token_persists H credentials initial_state
              (authApi_login H credentials (with_isLoading true initial_state)).2
              (JObj [("accessToken", JStr "not-a-jwt")]) (JStr "not-a-jwt")
              (EError "InvalidCharacterError"
                 "The string to be decoded is not correctly encoded.")
              (RefHost.quote "not-a-jwt")
              eq_refl eq_refl eq_refl eq_refl eq_refl)
    as (s2 & Hrun & _ & Hstored & _ & Hlater).
  exists s2. split; [exact Hrun|]. split; [exact Hstored|].
  apply Hlater; [discriminate|reflexivity].
Defined.

(** * Further properties *)

#[local] Arguments handleApiError : simpl never.
#[local] Arguments parseToken : simpl never.
#[local] Arguments storage_get : simpl never.

(** ** Running a request *)

Lemma request_state (H : Host) (endpoint : string) (options : RequestInit.t)
    (s : State) :
  ∃ (r : Result JsVal) (req : Request),
    request H endpoint options s = (r, with_sent (sent s ++ [req]) s).
Proof.
  destruct (storage_get_run H TOKEN s) as [token Hget].
  rewrite (request_run H endpoint options s token) by by rewrite Hget.
  by eexists _, _.
Qed.

Lemma perform_state (H : Host) (c : Call) (s : State) :
  ∃ (r : Result JsVal) (req : Request),
    perform H c s = (r, with_sent (sent s ++ [req]) s).
Proof.
  destruct (perform_request H c) as (endpoint & options & -> & _).
  apply request_state.
Qed.

Lemma get_prop_other (H : Host) (v : JsVal) (k k' : string) (x : JsVal) :
  get_prop H v k = Ok x → ∃ y, get_prop H v k' = Ok y.
Proof. destruct v; simpl; intros [=]; eauto. Qed.

(** ** [login] *)

(** X1.  [login] never throws: whatever the backend does, it returns a
    result, has made exactly one request, and leaves [isLoading] false. *)
Theorem login_never_throws (H : Host) (credentials : LoginCredentials.t) (s : State) :
  ∃ (r : ActionResult.t) (s' : State) (req : Request),
    login H credentials s = (Ok r, s') ∧
    sent s' = sent s ++ [req] ∧
    isLoading s' = false.
Proof.
  destruct (authApi_login_run H credentials (with_isLoading true s))
    as (r & req & Hrun).
  unfold login. unfold_M. rewrite Hrun.
  destruct r as [response|error].
  - destruct (get_prop H response "accessToken") as [accessToken|error] eqn:Htoken.
    + destruct (truthy accessToken); [|by eexists _, _, _].
      rewrite storage_set_run.
      destruct (parseToken H accessToken) as [authUser|error]; [|by eexists _, _, _].
      destruct (get_prop_other H response "accessToken" "user" _ Htoken)
        as [responseUser ->].
      destruct (truthy responseUser); [rewrite storage_set_run|];
        by eexists _, _, _.
    + destruct (handleApiError_run error
                  (with_sent (sent (with_isLoading true s) ++ [req])
                     (with_isLoading true s)))
        as (message & ls & ->).
      by eexists _, _, _.
  - destruct (handleApiError_run error
                (with_sent (sent (with_isLoading true s) ++ [req])
                   (with_isLoading true s)))
      as (message & ls & ->).
    by eexists _, _, _.
Qed.

Lemma login_success_run (H : Host) (credentials : LoginCredentials.t) (s s1 : State)
    (response accessToken responseUser : JsVal) (authUser : AuthUser.t) :
  authApi_login H credentials (with_isLoading true s) = (Ok response, s1) →
  get_prop H response "accessToken" = Ok accessToken →
  truthy accessToken = true →
  parseToken H accessToken = Ok authUser →
  get_prop H response "user" = Ok responseUser →
  login H credentials s
  = (Ok (ActionResult.mk true "Login successful!"),
     mkState
       (if truthy responseUser
        then <[USER := stored_text H responseUser]>
               (<[TOKEN := stored_text H accessToken]> (localStorage s))
        else <[TOKEN := stored_text H accessToken]> (localStorage s))
       (sent s1) (Some authUser) false (loading s)).
Proof.
  intros Hlogin Htoken Htruthy Hparse Huser.
  destruct (authApi_login_run H credentials (with_isLoading true s))
    as (r & req & Hrun).
  rewrite Hlogin in Hrun. injection Hrun as <- ->.
  unfold login. unfold_M. rewrite Hlogin, Htoken, Htruthy, storage_set_run, Hparse.
  rewrite Huser.
  by destruct (truthy responseUser); [rewrite storage_set_run|].
Qed.

(** X2.  A login that succeeds: when the call returns a response with a
    truthy access token that decodes, [login] returns
    [{success: true, message: "Login successful!"}], the token is stored under
    the token key, the user is the decoded one, and the [user] of the
    response is cached under the user key exactly when it is truthy. *)
Theorem login_success (H : Host) (credentials : LoginCredentials.t) (s s1 : State)
    (response accessToken responseUser : JsVal) (authUser : AuthUser.t) :
  authApi_login H credentials (with_isLoading true s) = (Ok response, s1) →
  get_prop H response "accessToken" = Ok accessToken →
  truthy accessToken = true →
  parseToken H accessToken = Ok authUser →
  get_prop H response "user" = Ok responseUser →
  ∃ s2 : State,
    login H credentials s = (Ok (ActionResult.mk true "Login successful!"), s2) ∧
    user s2 = Some authUser ∧
    localStorage s2 !! TOKEN = Some (stored_text H accessToken) ∧
    localStorage s2
    = (if truthy responseUser
       then <[USER := stored_text H responseUser]>
              (<[TOKEN := stored_text H accessToken]> (localStorage s))
       else <[TOKEN := stored_text H accessToken]> (localStorage s)) ∧
    isLoading s2 = false.
Proof.
  intros Hlogin Htoken Htruthy Hparse Huser.
  rewrite (login_success_run H credentials s s1 response accessToken responseUser
             authUser Hlogin Htoken Htruthy Hparse Huser).
  eexists; split; [reflexivity|]. split; [done|]. split; [|done]. simpl.
  destruct (truthy responseUser).
  - rewrite lookup_insert_ne by done. apply lookup_insert_eq.
  - apply lookup_insert_eq.
Qed.

Lemma login_success_witness :
  ∃ s2 : State,
    login (RefHost.host (answering 120 login_response)) example_credentials
      initial_state
    = (Ok (ActionResult.mk true "Login successful!"), s2) ∧
    user s2 = Some example_user ∧
    localStorage s2 !! TOKEN = Some (RefHost.quote example_token) ∧
    localStorage s2 !! USER = Some ("{" +:+ RefHost.quote "id" +:+ ":7}").
Proof.
  pose (H := RefHost.host (answering 120 login_response)).
  destruct (login_success H example_credentials initial_state
              (authApi_login H example_credentials (with_isLoading true initial_state)).2
              (JObj [("accessToken", JStr example_token);
                     ("user", JObj [("id", JNum 7)])])
              (JStr example_token) (JObj [("id", JNum 7)]) example_user
              eq_refl eq_refl eq_refl eq_refl eq_refl)
    as (s2 & Hrun & Huser & Htoken & Hstorage & _).
  exists s2. split; [exact Hrun|]. split; [exact Huser|]. split; [exact Htoken|].
  rewrite Hstorage. reflexivity.
Defined.

(** X3.  A session outlives a reload.  After a login that succeeds, if the
    stored text reads back as the token and the token is not expired at the
    time of the reload, then the reloaded page, which starts without a user,
    ends its mount effect with the user of the login, the storage of the
    login, [isLoading] false, authenticated; and [refreshAuth] called on the
    state the login left changes nothing. *)
Theorem login_then_reload (H : Host) (credentials : LoginCredentials.t)
    (s s1 : State) (response accessToken responseUser : JsVal)
    (authUser : AuthUser.t) (now : Z) :
  authApi_login H credentials (with_isLoading true s) = (Ok response, s1) →
  get_prop H response "accessToken" = Ok accessToken →
  truthy accessToken = true →
  parseToken H accessToken = Ok authUser →
  get_prop H response "user" = Ok responseUser →
  stored_text H accessToken ≠ "" →
  JSON_parse H (stored_text H accessToken) = Some accessToken →
  isExpired H now (AuthUser.exp authUser) = false →
  ∃ s2 s3 : State,
    login H credentials s = (Ok (ActionResult.mk true "Login successful!"), s2) ∧
    user (reload_state s2) = None ∧
    reload H now s2 = (Ok (), s3) ∧
    user s3 = Some authUser ∧
    localStorage s3 = localStorage s2 ∧
    isLoading s3 = false ∧
    isAuthenticated H now s3 = true ∧
    refreshAuth H now s2 = (Ok (), s2).
Proof.
  intros Hlogin Htoken Htruthy Hparse Huser Hnonempty Hback Hvalid.
  rewrite (login_success_run H credentials s s1 response accessToken responseUser
             authUser Hlogin Htoken Htruthy Hparse Huser).
  set (s2 := mkState _ _ _ _ _).
  assert (Hstored : localStorage s2 !! TOKEN = Some (stored_text H accessToken)).
  { subst s2; simpl. destruct (truthy responseUser).
    - rewrite lookup_insert_ne by done. apply lookup_insert_eq.
    - apply lookup_insert_eq. }
  assert (Hget : ∀ s', localStorage s' = localStorage s2 →
                       (storage_get H TOKEN s').1 = Ok accessToken).
  { intros s' Hsame. unfold storage_get; unfold_M. rewrite Hsame, Hstored.
    apply String.eqb_neq in Hnonempty. rewrite Hnonempty. simpl.
    unfold js_JSON_parse. by rewrite Hback. }
  exists s2. eexists. split; [reflexivity|]. split; [done|].
  unfold reload, refreshAuth.
  rewrite (initializeAuth_token H now (reload_state s2) accessToken
             (Hget (reload_state s2) eq_refl) Htruthy), Hparse, Hvalid.
  split; [reflexivity|]. split; [done|]. split; [done|]. split; [done|].
  split.
  - unfold isAuthenticated. simpl. by rewrite Hvalid.
  - rewrite (initializeAuth_token H now s2 accessToken (Hget s2 eq_refl) Htruthy),
      Hparse, Hvalid.
    done.
Qed.

Lemma login_then_reload_witness :
  ∃ s2 s3 : State,
    login (RefHost.host (answering 120 login_response)) example_credentials
      initial_state
    = (Ok (ActionResult.mk true "Login successful!"), s2) ∧
    user (reload_state s2) = None ∧
    reload (RefHost.host (answering 120 login_response)) 1700000000000 s2
    = (Ok (), s3) ∧
    user s3 = Some example_user ∧
    localStorage s3 = localStorage s2 ∧
    isLoading s3 = false ∧
    isAuthenticated (RefHost.host (answering 120 login_response)) 1700000000000 s3
    = true ∧
    refreshAuth (RefHost.host (answering 120 login_response)) 1700000000000 s2
    = (Ok (), s2).
Proof.
  pose (H := RefHost.host (answering 120 login_response)).
  refine (login_then_reload H example_credentials initial_state
            (authApi_login H example_credentials (with_isLoading true initial_state)).2
            (JObj [("accessToken", JStr example_token);
                   ("user", JObj [("id", JNum 7)])])
            (JStr example_token) (JObj [("id", JNum 7)]) example_user
            1700000000000
            eq_refl eq_refl eq_refl eq_refl eq_refl _ eq_refl eq_refl).
  discriminate.
Defined.

(** ** [register], [forgotPassword], [resendVerificationEmail] *)

Lemma httpClient_post_state (H : Host) (endpoint : string) (data : Payload)
    (contentType : option string) (s : State) :
  ∃ (r : Result JsVal) (req : Request),
    httpClient_post H endpoint data contentType s
    = (r, with_sent (sent s ++ [req]) s).
Proof. apply request_state. Qed.

Lemma handleApiError_storage (error : JsError) (s : State) :
  ∃ message : string,
    handleApiError error s
    = (Ok message,
       with_localStorage
         (if unauthorized (Throw error : Result JsVal)
          then delete USER (delete TOKEN (localStorage s))
          else localStorage s) s) ∧
    (unauthorized (Throw error : Result JsVal) = true →
     message = "Your session has expired. Please log in again.").
Proof.
  destruct error as [e|name m|v]; simpl;
    [|eexists; (split; [by destruct s|done]) ..].
  unfold handleApiError. destruct (ApiError.status e =? 401) eqn:H401.
  - eexists. split; [|done]. by destruct s.
  - repeat
      (match goal with
       | |- context [ApiError.status e =? ?n] => destruct (ApiError.status e =? n)
       end;
       [eexists; (split; [by destruct s|done])|]).
    eexists. split; [by destruct s|done].
Qed.

(** The shape the three actions share: one call, the [message] of its
    response or a fallback text, [handleApiError] on failure, and [isLoading]
    reset in [finally]. *)
Lemma message_action_run (H : Host) (call : M JsVal) (fallback : string) (s : State)
    (r : Result JsVal) (req : Request) :
  fallback ≠ "" →
  call (with_isLoading true s)
  = (r, with_sent (sent s ++ [req]) (with_isLoading true s)) →
  ∃ (res : MessageResult.t) (s' : State),
    try_finally
      (try_catch
         (setIsLoading true;;
          response ← call;
          message ← await (get_prop H response "message");
          mret (MessageResult.mk true (js_or message (JStr fallback))))
         (λ error,
            message ← handleApiError error;
            mret (MessageResult.mk false (JStr message))))
      (setIsLoading false) s
    = (Ok res, s') ∧
    user s' = user s ∧ isLoading s' = false ∧ sent s' = sent s ++ [req] ∧
    localStorage s'
    = (if unauthorized r
       then delete USER (delete TOKEN (localStorage s))
       else localStorage s) ∧
    (unauthorized r = true →
     res = MessageResult.mk false
             (JStr "Your session has expired. Please log in again.")) ∧
    (MessageResult.success res = true →
     unauthorized r = false ∧ truthy (MessageResult.message res) = true).
Proof.
  intros Hfallback Hrun. apply String.eqb_neq in Hfallback.
  unfold_M. rewrite Hrun.
  destruct r as [response|error].
  - destruct (get_prop H response "message") as [message|error] eqn:Hmessage.
    + eexists _, _. split; [reflexivity|]. do 4 (split; [done|]).
      split; [done|]. intros _. split; [done|]. simpl. unfold js_or.
      destruct (truthy message) eqn:Hm; [done|]. simpl. by rewrite Hfallback.
    + assert (error = TypeError H) as -> by (destruct response; by inversion Hmessage).
      eexists _, _. split; [reflexivity|]. by do 4 (split; [done|]).
  - match goal with
    | |- context [handleApiError error ?st] =>
        destruct (handleApiError_storage error st) as (message & -> & Hexpired)
    end.
    eexists _, _. split; [reflexivity|]. do 3 (split; [done|]).
    split; [simpl; by destruct (unauthorized _)|].
    split; [|done]. intros H401. by rewrite (Hexpired H401).
Qed.

(** X4.  [register], [forgotPassword] and [resendVerificationEmail] never
    throw and never change the user: each returns a result after exactly one
    request, with [isLoading] false.  Storage stays as it was, with one
    exception: when the call ends in an [ApiError] of status 401,
    [handleApiError] removes the token key and the cached user key (the
    signed-in user stays in memory) and the result is the failure
    [Your session has expired. Please log in again.].  A success comes with a
    truthy message (that of the response, or the default text) and never with
    that exception. *)
Theorem account_actions_session (H : Host) (s : State) :
  (∀ data : RegisterData.t,
     ∃ (r : MessageResult.t) (s' : State) (req : Request),
       register H data s = (Ok r, s') ∧
       user s' = user s ∧ isLoading s' = false ∧ sent s' = sent s ++ [req] ∧
       localStorage s'
       = (if unauthorized (authApi_register H data (with_isLoading true s)).1
          then delete USER (delete TOKEN (localStorage s))
          else localStorage s) ∧
       (unauthorized (authApi_register H data (with_isLoading true s)).1 = true →
        r = MessageResult.mk false
              (JStr "Your session has expired. Please log in again.")) ∧
       (MessageResult.success r = true →
        unauthorized (authApi_register H data (with_isLoading true s)).1 = false ∧
        truthy (MessageResult.message r) = true)) ∧
  (∀ email : string,
     ∃ (r : MessageResult.t) (s' : State) (req : Request),
       forgotPassword H email s = (Ok r, s') ∧
       user s' = user s ∧ isLoading s' = false ∧ sent s' = sent s ++ [req] ∧
       localStorage s'
       = (if unauthorized (authApi_forgotPassword H email (with_isLoading true s)).1
          then delete USER (delete TOKEN (localStorage s))
          else localStorage s) ∧
       (unauthorized (authApi_forgotPassword H email (with_isLoading true s)).1 = true →
        r = MessageResult.mk false
              (JStr "Your session has expired. Please log in again.")) ∧
       (MessageResult.success r = true →
        unauthorized (authApi_forgotPassword H email (with_isLoading true s)).1 = false ∧
        truthy (MessageResult.message r) = true)) ∧
  (∀ email : string,
     ∃ (r : MessageResult.t) (s' : State) (req : Request),
       resendVerificationEmail H email s = (Ok r, s') ∧
       user s' = user s ∧ isLoading s' = false ∧ sent s' = sent s ++ [req] ∧
       localStorage s'
       = (if unauthorized
               (authApi_resendVerificationEmail H email (with_isLoading true s)).1
          then delete USER (delete TOKEN (localStorage s))
          else localStorage s) ∧
       (unauthorized
          (authApi_resendVerificationEmail H email (with_isLoading true s)).1 = true →
        r = MessageResult.mk false
              (JStr "Your session has expired. Please log in again.")) ∧
       (MessageResult.success r = true →
        unauthorized
          (authApi_resendVerificationEmail H email (with_isLoading true s)).1 = false ∧
        truthy (MessageResult.message r) = true)).
Proof.
  split; [|split].
  - intros data.
    destruct (httpClient_post_state H "/auth/register"
                (PRecord [("firstName", JStr (RegisterData.firstName data));
                          ("lastName", JStr (RegisterData.lastName data));
                          ("email", JStr (RegisterData.email data));
                          ("password", JStr (RegisterData.password data));
                          ("role", JStr (RegisterData.role data))])
                urlencoded (with_isLoading true s)) as (r & req & Hrun).
    destruct (message_action_run H (authApi_register H data)
                "Registration successful! Please check your email to verify your account."
                s r req) as (res & s' & Haction & Hrest); [done|exact Hrun|].
    exists res, s', req. split; [exact Haction|].
    unfold authApi_register. by rewrite Hrun.
  - intros email.
    destruct (httpClient_post_state H "/auth/forget-password"
                (PRecord [("email", JStr email)]) urlencoded (with_isLoading true s))
      as (r & req & Hrun).
    destruct (message_action_run H (authApi_forgotPassword H email)
                "Password reset email sent successfully!" s r req)
      as (res & s' & Haction & Hrest); [done|exact Hrun|].
    exists res, s', req. split; [exact Haction|].
    unfold authApi_forgotPassword. by rewrite Hrun.
  - intros email.
    destruct (httpClient_post_state H "/auth/resend-verification-email"
                (PRecord [("email", JStr email)]) urlencoded (with_isLoading true s))
      as (r & req & Hrun).
    destruct (message_action_run H (authApi_resendVerificationEmail H email)
                "Verification email sent successfully!" s r req)
      as (res & s' & Haction & Hrest); [done|exact Hrun|].
    exists res, s', req. split; [exact Haction|].
    unfold authApi_resendVerificationEmail. by rewrite Hrun.
Qed.

(** A signed-in user asks for a password reset and the backend answers 401:
    the stored token is gone, the user in memory stays. *)
Lemma account_actions_session_witness :
  let H := RefHost.host (answering 120 unauthorized_response) in
  ∃ s' : State,
    forgotPassword H "ada@example.com" signed_in_session
    = (Ok (MessageResult.mk false
             (JStr "Your session has expired. Please log in again.")), s') ∧
    localStorage signed_in_session !! TOKEN = Some (RefHost.quote example_token) ∧
    localStorage s' !! TOKEN = None ∧
    user s' = Some example_user.
Proof.
  intros H.
  destruct (account_actions_session H signed_in_session) as (_ & Hforgot & _).
  destruct (Hforgot "ada@example.com")
    as (r & s' & req & Hrun & Huser & _ & _ & Hstorage & Hexpired & _).
  exists s'. rewrite Hrun, (Hexpired eq_refl), Huser, Hstorage.
  split; [done|]. split; [reflexivity|]. split; [reflexivity|done].
Defined.

(** ** Edge cases of [initializeAuth] and the expiry effects *)

(** X5.  What [initializeAuth] leaves alone.  When the token key is absent,
    or holds the empty text, a text that is no JSON, or the JSON of a falsy
    value, [initializeAuth] only sets [isLoading] to false: the stored item
    stays, and so does a user that is signed in. *)
Theorem initializeAuth_unreadable_item_kept (H : Host) (now : Z) (s : State) :
  match localStorage s !! TOKEN with
  | None => True
  | Some text =>
      text = "" ∨ JSON_parse H text = None ∨
      ∃ v, JSON_parse H text = Some v ∧ truthy v = false
  end →
  initializeAuth H now s = (Ok (), with_isLoading false s).
Proof.
  intros Hitem.
  assert (Hget : ∃ token, (storage_get H TOKEN s).1 = Ok token ∧ truthy token = false).
  { unfold storage_get; unfold_M.
    destruct (localStorage s !! TOKEN) as [text|]; [|by exists JNull].
    destruct Hitem as [->|[Hnone|(v & Hsome & Hfalsy)]].
    - by exists JNull.
    - destruct (String.eqb text ""); simpl; [by exists JNull|].
      unfold js_JSON_parse. rewrite Hnone. by exists JNull.
    - destruct (String.eqb text ""); simpl; [by exists JNull|].
      unfold js_JSON_parse. rewrite Hsome. by exists v. }
  destruct Hget as (token & Hget & Hfalsy).
  by apply (initializeAuth_no_token H now s token).
Qed.

Lemma initializeAuth_unreadable_item_kept_witness :
  initializeAuth (RefHost.host offline) 1700000000000 stale_session
  = (Ok (), stale_session) ∧
  initializeAuth (RefHost.host offline) 1700000000000 tokenless_session
  = (Ok (), tokenless_session).
Proof.
  split.
  - exact (initializeAuth_unreadable_item_kept (RefHost.host offline)
             1700000000000 stale_session (or_intror (or_introl eq_refl))).
  - exact (initializeAuth_unreadable_item_kept (RefHost.host offline)
             1700000000000 tokenless_session I).
Defined.

(** X6.  A token without a usable expiry never expires.  When the decoded
    payload's [exp] converts to [NaN] (it is missing, for instance),
    [initializeAuth] signs the user in at any time, and from then on the
    session is authenticated at every time and the expiry check never ends
    it. *)
Theorem initializeAuth_no_expiry (H : Host) (s : State) (token : JsVal)
    (authUser : AuthUser.t) :
  (storage_get H TOKEN s).1 = Ok token → truthy token = true →
  parseToken H token = Ok authUser →
  ToNumber H (AuthUser.exp authUser) = None →
  ∀ now : Z,
    ∃ s' : State,
      initializeAuth H now s = (Ok (), s') ∧
      user s' = Some authUser ∧
      localStorage s' = localStorage s ∧
      ∀ later : Z,
        isAuthenticated H later s' = true ∧
        expiryCheck H later s' = (Ok (), s').
Proof.
  intros Hget Htruthy Hparse Hnan now.
  assert (Hnever : ∀ t, isExpired H t (AuthUser.exp authUser) = false).
  { intros t. unfold isExpired. by rewrite Hnan. }
  rewrite (initializeAuth_token H now s token Hget Htruthy), Hparse, Hnever.
  eexists; split; [reflexivity|]. split; [done|]. split; [done|].
  intros later. unfold isAuthenticated, expiryCheck. simpl.
  by rewrite Hnever.
Qed.

Lemma initializeAuth_no_expiry_witness :
  ∃ s' : State,
    initializeAuth (RefHost.host offline) 1700000000000 session_without_exp
    = (Ok (), s') ∧
    user s' = Some (AuthUser.mk (JNum 7) (JStr "SEEKER") JUndefined) ∧
    isAuthenticated (RefHost.host offline) 99999999999999 s' = true.
Proof.
  destruct (initializeAuth_no_expiry (RefHost.host offline) session_without_exp
              (JStr token_without_exp)
              (AuthUser.mk (JNum 7) (JStr "SEEKER") JUndefined)
              eq_refl eq_refl eq_refl eq_refl 1700000000000)
    as (s' & Hrun & Huser & _ & Hlater).
  exists s'. split; [exact Hrun|]. split; [exact Huser|].
  exact (proj1 (Hlater 99999999999999)).
Defined.

(** X7.  The expiry check ([if (user && isExpired(user.exp)) logout()], run
    when the user changes and every minute) never throws; it leaves a state
    with a valid session or without a user untouched, and turns an expired
    session into no user and no stored token.  Afterwards a user is present
    exactly when the session is authenticated, which is what
    [checkTokenExpiry] reports. *)
Theorem expiryCheck_invariant (H : Host) (now : Z) (s : State) :
  ∃ s' : State,
    expiryCheck H now s = (Ok (), s') ∧
    (isAuthenticated H now s = true ∨ user s = None → s' = s) ∧
    (isAuthenticated H now s = false → user s ≠ None →
     user s' = None ∧
     localStorage s' = delete USER (delete TOKEN (localStorage s))) ∧
    isAuthenticated H now s' = isAuthenticated H now s ∧
    checkTokenExpiry H now s' = isAuthenticated H now s' ∧
    (is_Some (user s') ↔ isAuthenticated H now s' = true).
Proof.
  unfold expiryCheck, isAuthenticated, checkTokenExpiry, logout.
  destruct (user s) as [u|] eqn:Huser.
  - destruct (isExpired H now (AuthUser.exp u)) eqn:Hexpired.
    + rewrite clearAuthData_run. eexists; split; [reflexivity|]. simpl.
      split; [by intros [|]|]. split; [done|]. split; [done|]. split; [done|].
      split; [by intros [? ?]|done].
    + eexists; split; [reflexivity|]. rewrite Huser, Hexpired. simpl.
      split; [done|]. split; [done|]. split; [done|]. split; [done|].
      split; [done|by eexists].
  - eexists; split; [reflexivity|]. rewrite Huser.
    split; [done|]. split; [done|]. split; [done|]. split; [done|].
    split; [by intros [? ?]|done].
Qed.

(** ** A 401 tears the stored session down *)

Lemma createApplication_error_run (H : Host) (jobId : Z)
    (data : CreateApplicationData.t) (s : State) (token : JsVal) (elapsed : Z)
    (response : Response.t) (error : JsError) :
  (storage_get H TOKEN s).1 = Ok token →
  let req :=
    sent_request H ("/applications/jobs/" +:+ js_String (JNum jobId))
      (RequestInit.mk "POST" ∅ (BodyFormData (application_parts_spec data))) token in
  network H (sent s) req = (elapsed, Responded response) →
  elapsed < API_CONFIG_timeout →
  handleResponse H response = Throw error →
  createApplication H jobId data s
  = match handleApiError error (with_sent (sent s ++ [req]) (with_loading true s)) with
    | (Ok errorMessage, s') =>
        (Ok (MutationResult.mk false errorMessage JUndefined), with_loading false s')
    | (Throw e, s') => (Throw e, with_loading false s')
    end.
Proof.
  intros Hget req Hnet Htime Hresp.
  assert (Hget' : (storage_get H TOKEN (with_loading true s)).1 = Ok token).
  { by rewrite <- (storage_get_frame H TOKEN s (with_loading true s)). }
  destruct (applicationsApi_create_run H jobId data _ token Hget')
    as (r & Hrun & Hthrow).
  simpl in Hrun, Hthrow. fold req in Hrun, Hthrow.
  rewrite (Hthrow elapsed response error Hnet Htime Hresp) in Hrun.
  unfold createApplication. unfold_M. rewrite Hrun.
  by destruct (handleApiError error _) as [[?|?] ?].
Qed.

(** X8.  A 401 answer tears the stored session down, not the one in memory.
    When the backend answers a [createApplication] call with status 401, the
    caller gets [Your session has expired. Please log in again.], the token
    key and the cached user key are removed, and every later request goes
    out without an [Authorization] header; the [user] state of the
    [AuthProvider] is not touched. *)
Theorem createApplication_unauthorized (H : Host) (jobId : Z)
    (data : CreateApplicationData.t) (s : State) :
  ∃ req : Request,
    sent (createApplication H jobId data s).2 = sent s ++ [req] ∧
    ∀ (elapsed : Z) (response : Response.t) (errorData m : JsVal),
      network H (sent s) req = (elapsed, Responded response) →
      elapsed < API_CONFIG_timeout →
      Response.status response = 401 →
      errorData = match JSON_parse H (Response.body response) with
                  | Some v => v
                  | None => JObj []
                  end →
      get_prop H errorData "message" = Ok m →
      let s' := (createApplication H jobId data s).2 in
      (createApplication H jobId data s).1
      = Ok (MutationResult.mk false "Your session has expired. Please log in again."
              JUndefined) ∧
      localStorage s' = delete USER (delete TOKEN (localStorage s)) ∧
      user s' = user s ∧
      ∀ c : Call,
        ∃ req' : Request,
          sent (perform H c s').2 = sent s' ++ [req'] ∧
          RequestInit.headers (config req') !! "Authorization" = None.
Proof.
  destruct (storage_get_run H TOKEN s) as [token Hget].
  assert (Hfst : (storage_get H TOKEN s).1 = Ok token) by by rewrite Hget.
  set (req := sent_request H ("/applications/jobs/" +:+ js_String (JNum jobId))
                (RequestInit.mk "POST" ∅ (BodyFormData (application_parts_spec data)))
                token).
  exists req. split.
  - assert (Hfst' : (storage_get H TOKEN (with_loading true s)).1 = Ok token).
    { by rewrite <- (storage_get_frame H TOKEN s (with_loading true s)). }
    destruct (applicationsApi_create_run H jobId data _ token Hfst')
      as (r & Hrun & _).
    simpl in Hrun. fold req in Hrun.
    unfold createApplication. unfold_M. rewrite Hrun.
    destruct r as [response|error]; [done|].
    match goal with
    | |- context [handleApiError error ?st] =>
        by destruct (handleApiError_run error st) as (message & ls & ->)
    end.
  - intros elapsed response errorData m Hnet Htime Hstatus HerrorData Hm.
    assert (Hok : Response.ok response = false).
    { unfold Response.ok. by rewrite Hstatus. }
    pose proof (handleResponse_error H response errorData m Hok HerrorData Hm)
      as Hresp.
    rewrite (createApplication_error_run H jobId data s token elapsed response _
               Hfst Hnet Htime Hresp).
    fold req. unfold handleApiError. simpl ApiError.status. rewrite Hstatus.
    simpl. split; [done|]. split; [done|]. split; [done|].
    intros c.
    destruct (perform_request H c) as (endpoint & options & -> & Hnone).
    match goal with
    | |- context [request H endpoint options ?st] => set (s' := st)
    end.
    assert (Habsent : localStorage s' !! TOKEN = None).
    { subst s'; simpl. rewrite lookup_delete_ne by done. apply lookup_delete_eq. }
    rewrite (request_run H endpoint options s' JNull)
      by by rewrite (storage_get_absent H TOKEN s' Habsent).
    eexists; split; [reflexivity|]. simpl.
    by rewrite (sent_headers_Authorization options JNull Hnone).
Qed.

Lemma createApplication_unauthorized_witness :
  let H := RefHost.host (answering 120 unauthorized_response) in
  let run := createApplication H 12
               (CreateApplicationData.mk "I would like to apply" None)
               signed_in_session in
  run.1 = Ok (MutationResult.mk false "Your session has expired. Please log in again."
                JUndefined) ∧
  localStorage run.2 = ∅ ∧
  user run.2 = Some example_user.
Proof.
  intros H run.
  destruct (createApplication_unauthorized H 12
              (CreateApplicationData.mk "I would like to apply" None)
              signed_in_session)
    as (req & _ & Hunauthorized).
  destruct (Hunauthorized 120 unauthorized_response
              (JObj [("message", JStr "jwt expired")]) (JStr "jwt expired")
              eq_refl eq_refl eq_refl eq_refl eq_refl)
    as (Hresult & Hstorage & Huser & _).
  split; [exact Hresult|]. split; [|exact Huser].
  subst run H. rewrite Hstorage. reflexivity.
Defined.

(** ** What [request] returns and raises *)

(** X9.  A success response is returned parsed when its content type
    contains [application/json] and its body is JSON, and as raw text when
    the content type is absent or does not contain [application/json],
    whatever the body looks like. *)
Theorem request_success_body (H : Host) (endpoint : string)
    (options : RequestInit.t) (s : State) (elapsed : Z) (response : Response.t) :
  (∀ req, network H (sent s) req = (elapsed, Responded response)) →
  elapsed < API_CONFIG_timeout →
  Response.ok response = true →
  (∀ (contentType : string) (v : JsVal),
     Response.contentType response = Some contentType →
     includes "application/json" contentType = true →
     JSON_parse H (Response.body response) = Some v →
     (request H endpoint options s).1 = Ok v) ∧
  (match Response.contentType response with
   | Some contentType => includes "application/json" contentType = false
   | None => True
   end →
   (request H endpoint options s).1 = Ok (JStr (Response.body response))).
Proof.
  intros Hnet Htime Hok.
  destruct (storage_get_run H TOKEN s) as [token Hget].
  rewrite (request_run H endpoint options s token) by by rewrite Hget.
  rewrite Hnet, settled_in_time by done.
  unfold handleResponse, Response_json, Response_text, js_JSON_parse.
  rewrite Hok. simpl. split.
  - intros contentType v -> Hjson ->.
    by rewrite (includes_nonempty "application/json" contentType), Hjson.
  - destruct (Response.contentType response) as [contentType|]; [|done].
    intros ->. by rewrite andb_false_r.
Qed.

Lemma request_success_body_witness :
  (request (RefHost.host (answering 120 bare_applications_response))
     "/applications" (RequestInit.mk "GET" ∅ BodyNone) initial_state).1
  = Ok (JArr [JObj [("id", JNum 1)]]) ∧
  (request
     (RefHost.host (answering 120 (Response.mk 200 "OK" (Some "text/plain") "[1]")))
     "/applications" (RequestInit.mk "GET" ∅ BodyNone) initial_state).1
  = Ok (JStr "[1]").
Proof.
  split.
  - exact (proj1 (request_success_body
                    (RefHost.host (answering 120 bare_applications_response))
                    "/applications" (RequestInit.mk "GET" ∅ BodyNone) initial_state
                    120 bare_applications_response (λ _, eq_refl) eq_refl eq_refl)
             "application/json; charset=utf-8" (JArr [JObj [("id", JNum 1)]])
             eq_refl eq_refl eq_refl).
  - exact (proj2 (request_success_body
                    (RefHost.host
                       (answering 120 (Response.mk 200 "OK" (Some "text/plain") "[1]")))
                    "/applications" (RequestInit.mk "GET" ∅ BodyNone) initial_state
                    120 (Response.mk 200 "OK" (Some "text/plain") "[1]")
                    (λ _, eq_refl) eq_refl eq_refl)
             eq_refl).
Defined.

(** X10.  A call of [fetch] that brings no response is raised as an
    [ApiError] and as nothing else: with the status 408 and the message
    [Request timed out] when nothing arrives within the ten seconds of
    [API_CONFIG.timeout], and with the status 0 when [fetch] fails earlier,
    the message then being the one of the failure. *)
Theorem request_no_response (H : Host) (endpoint : string)
    (options : RequestInit.t) (s : State) :
  ((∀ req, API_CONFIG_timeout < (network H (sent s) req).1) →
   (request H endpoint options s).1
   = Throw (EApi (ApiError.mk 408 "Request Timeout" "Request timed out" JUndefined))) ∧
  (∀ (elapsed : Z) (error : JsError),
     (∀ req, network H (sent s) req = (elapsed, Rejected error)) →
     elapsed < API_CONFIG_timeout →
     match error with
     | EApi _ => False
     | EError name _ => name ≠ "AbortError"
     | EValue _ => True
     end →
     ∃ e : ApiError.t,
       (request H endpoint options s).1 = Throw (EApi e) ∧
       ApiError.status e = 0 ∧
       ApiError.data e = JUndefined ∧
       match error with
       | EError _ m => ApiError.statusText e = "Network Error" ∧ ApiError.message e = m
       | _ => ApiError.statusText e = "Unknown Error" ∧
              ApiError.message e = "An unknown error occurred"
       end).
Proof.
  split.
  - apply request_timeout_408.
  - intros elapsed error. apply request_network_failure_0.
Qed.

Lemma request_no_response_witness :
  (request
     (RefHost.host (answering 15000 (Response.mk 200 "OK" (Some "application/json") "[]")))
     "/jobs" (RequestInit.mk "GET" ∅ BodyNone) initial_state).1
  = Throw (EApi (ApiError.mk 408 "Request Timeout" "Request timed out" JUndefined)) ∧
  ∃ e : ApiError.t,
    (request (RefHost.host offline) "/jobs" (RequestInit.mk "GET" ∅ BodyNone)
       initial_state).1 = Throw (EApi e) ∧
    ApiError.status e = 0 ∧
    ApiError.statusText e = "Network Error" ∧
    ApiError.message e = "Failed to fetch".
Proof.
  split.
  - exact (proj1 (request_no_response
                    (RefHost.host
                       (answering 15000
                          (Response.mk 200 "OK" (Some "application/json") "[]")))
                    "/jobs" (RequestInit.mk "GET" ∅ BodyNone) initial_state)
             (λ _, eq_refl)).
  - destruct (proj2 (request_no_response (RefHost.host offline) "/jobs"
                       (RequestInit.mk "GET" ∅ BodyNone) initial_state)
                3 (EError "TypeError" "Failed to fetch") (λ _, eq_refl) eq_refl)
      as (e & Hrun & Hstatus & _ & Htext & Hmessage).
    { discriminate. }
    by exists e.
Defined.

(** X11.  A response with a non-success status.  It is raised as an
    [ApiError] with the status and status text of the response, the parsed
    error body as data (the empty object when the body is no JSON) and, as
    message, the [message] of the error body when it is truthy and the status
    text otherwise.  An error body that is the JSON [null] is the exception:
    reading its [message] throws, and the caller receives that [TypeError]
    instead of an [ApiError]. *)
Theorem request_error_response (H : Host) (endpoint : string)
    (options : RequestInit.t) (s : State) (elapsed : Z) (response : Response.t) :
  (∀ req, network H (sent s) req = (elapsed, Responded response)) →
  elapsed < API_CONFIG_timeout →
  Response.ok response = false →
  (∀ errorData m : JsVal,
     errorData = match JSON_parse H (Response.body response) with
                 | Some v => v
                 | None => JObj []
                 end →
     get_prop H errorData "message" = Ok m →
     (request H endpoint options s).1
     = Throw (EApi (ApiError.mk (Response.status response)
                      (Response.statusText response)
                      (js_String (js_or m (JStr (Response.statusText response))))
                      errorData)) ∧
     (JSON_parse H (Response.body response) = None →
      js_String (js_or m (JStr (Response.statusText response)))
      = Response.statusText response)) ∧
  (JSON_parse H (Response.body response) = Some JNull →
   (request H endpoint options s).1 = Throw (TypeError H)).
Proof.
  intros Hnet Htime Hok. split.
  - intros errorData m.
    by apply (request_error_status H endpoint options s elapsed response).
  - by apply (request_error_body_null H endpoint options s elapsed response).
Qed.

Lemma request_error_response_witness :
  (request (RefHost.host (answering 120 server_error_response)) "/jobs"
     (RequestInit.mk "GET" ∅ BodyNone) initial_state).1
  = Throw (EApi (ApiError.mk 500 "Internal Server Error" "Internal Server Error"
                   (JObj []))) ∧
  (request (RefHost.host (answering 120 conflict_response)) "/jobs"
     (RequestInit.mk "GET" ∅ BodyNone) initial_state).1
  = Throw (EApi (ApiError.mk 409 "Conflict" "Application already exists"
                   (JObj [("message", JStr "Application already exists")]))) ∧
  (request (RefHost.host (answering 120 null_error_response)) "/jobs"
     (RequestInit.mk "GET" ∅ BodyNone) initial_state).1
  = Throw (EError "TypeError" "Cannot read properties of undefined").
Proof.
  split; [|split].
  - exact (proj1 (proj1 (request_error_response
                    (RefHost.host (answering 120 server_error_response)) "/jobs"
                    (RequestInit.mk "GET" ∅ BodyNone) initial_state 120
                    server_error_response (λ _, eq_refl) eq_refl eq_refl)
                   (JObj []) JUndefined eq_refl eq_refl)).
  - exact (proj1 (proj1 (request_error_response
                    (RefHost.host (answering 120 conflict_response)) "/jobs"
                    (RequestInit.mk "GET" ∅ BodyNone) initial_state 120
                    conflict_response (λ _, eq_refl) eq_refl eq_refl)
                   (JObj [("message", JStr "Application already exists")])
                   (JStr "Application already exists") eq_refl eq_refl)).
  - exact (proj2 (request_error_response
                    (RefHost.host (answering 120 null_error_response)) "/jobs"
                    (RequestInit.mk "GET" ∅ BodyNone) initial_state 120
                    null_error_response (λ _, eq_refl) eq_refl eq_refl)
             eq_refl).
Defined.

(** ** The content type of a request *)

Lemma sent_headers_ContentType (options : RequestInit.t) (token : JsVal) :
  sent_headers options token !! "Content-Type"
  = if is_FormData (RequestInit.body options) then None
    else match RequestInit.headers options !! "Content-Type" with
         | Some ct => Some ct
         | None => Some "application/json"
         end.
Proof.
  unfold sent_headers, API_CONFIG_headers.
  destruct (is_FormData _); [apply lookup_delete_eq|].
  destruct (RequestInit.headers options !! "Content-Type") as [ct|] eqn:Hct.
  - apply lookup_union_Some_l. by apply lookup_union_Some_l.
  - rewrite lookup_union_r; [apply lookup_singleton_eq|].
    apply lookup_union_None. split; [done|].
    destruct (truthy token); [by rewrite lookup_singleton_ne|done].
Qed.

Lemma json_body_not_FormData (H : Host) (data : Payload) :
  is_FormData (json_body H data) = false.
Proof. destruct data; simpl; try done. by destruct (JSON_stringify H _). Qed.

Lemma body_options_spec (H : Host) (method : string) (data : Payload)
    (contentType : option string) (token : JsVal) :
  RequestInit.method (body_options H method data contentType) = method ∧
  RequestInit.body (body_options H method data contentType)
  = body_spec H data contentType ∧
  sent_headers (body_options H method data contentType) token !! "Content-Type"
  = contentType_spec data contentType.
Proof.
  rewrite sent_headers_ContentType.
  unfold body_options, contentType_spec, body_spec.
  destruct (decide (contentType = Some "application/x-www-form-urlencoded"))
    as [->|Hne].
  - rewrite bool_decide_eq_true_2 by done.
    destruct data; simpl; try done.
  - rewrite bool_decide_eq_false_2 by done.
    assert (Hjson : ∀ d, match contentType with
                         | Some ct =>
                             if String.eqb ct "application/x-www-form-urlencoded"
                             then RequestInit.mk method {[ "Content-Type" := ct ]}
                                    (form_body d)
                             else RequestInit.mk method ∅ (json_body H d)
                         | None => RequestInit.mk method ∅ (json_body H d)
                         end = RequestInit.mk method ∅ (json_body H d)).
    { intros d. destruct contentType as [ct|]; [|done].
      destruct (String.eqb_spec ct "application/x-www-form-urlencoded"); congruence. }
    destruct data; try rewrite Hjson; simpl;
      rewrite ?json_body_not_FormData; try done.
    all: by destruct (JSON_stringify H _).
Qed.

(** X12.  The content type [post] and [patch] send.  A [FormData] goes out
    as the body with no [Content-Type] header, whatever content type was
    asked for; otherwise a call that asks for
    [application/x-www-form-urlencoded] sends that header with a
    [URLSearchParams] body, and every other call sends
    [application/json] with the [JSON.stringify] of the data. *)
Theorem post_patch_content_type (H : Host) (endpoint : string) (data : Payload)
    (contentType : option string) (s : State) :
  (∃ req : Request,
     sent (httpClient_post H endpoint data contentType s).2 = sent s ++ [req] ∧
     RequestInit.method (config req) = "POST" ∧
     RequestInit.headers (config req) !! "Content-Type"
     = contentType_spec data contentType ∧
     RequestInit.body (config req) = body_spec H data contentType) ∧
  (∃ req : Request,
     sent (httpClient_patch H endpoint data contentType s).2 = sent s ++ [req] ∧
     RequestInit.method (config req) = "PATCH" ∧
     RequestInit.headers (config req) !! "Content-Type"
     = contentType_spec data contentType ∧
     RequestInit.body (config req) = body_spec H data contentType).
Proof.
  destruct (storage_get_run H TOKEN s) as [token Hget].
  assert (Hfst : (storage_get H TOKEN s).1 = Ok token) by by rewrite Hget.
  split.
  - unfold httpClient_post. rewrite (request_run H _ _ s token Hfst).
    eexists; split; [reflexivity|]. simpl.
    by destruct (body_options_spec H "POST" data contentType token) as (? & ? & ?).
  - unfold httpClient_patch. rewrite (request_run H _ _ s token Hfst).
    eexists; split; [reflexivity|]. simpl.
    by destruct (body_options_spec H "PATCH" data contentType token) as (? & ? & ?).
Qed.

(** ** The requests of [jobsApi.create] and [jobsApi.update] *)

Lemma bind_await_run {A B} (m : M A) (k : A → Result B) (s s' : State)
    (r : Result A) :
  m s = (r, s') →
  (m ≫= λ a, await (k a)) s
  = (match r with Ok a => k a | Throw e => Throw e end, s').
Proof. intros Hm. unfold_M. rewrite Hm. by destruct r. Qed.

Lemma entry_if_given_informative (key : string) (o : option string) :
  Forall (λ entry, informative entry.2 = true) (entry_if_given key o).
Proof.
  unfold entry_if_given. destruct o as [str|]; [|constructor].
  destruct (String.eqb str "") eqn:E; simpl; [constructor|].
  constructor; [|constructor]. simpl. by rewrite E.
Qed.

Lemma entry_if_given_lookup (key : string) (o : option string)
    (rest : list (string * JsVal)) (k : string) :
  obj_lookup (entry_if_given key o ++ rest) k
  = if given o && String.eqb key k
    then match o with Some str => JStr str | None => JUndefined end
    else obj_lookup rest k.
Proof.
  unfold entry_if_given, given. destruct o as [str|]; [|done].
  destruct (String.eqb str ""); simpl; [done|].
  by destruct (String.eqb key k).
Qed.

Lemma informative_fields (fields : list (string * JsVal)) :
  informative (JObj fields) = true ↔
  Forall (λ entry, informative entry.2 = true) fields.
Proof.
  induction fields as [|[k v] fields IH]; simpl.
  - split; [constructor|done].
  - rewrite andb_true_iff. simpl in IH. rewrite IH. split.
    + intros [? ?]. by constructor.
    + by inversion 1.
Qed.

Lemma location_entries_informative (city street alley : option string) :
  Forall (λ entry, informative entry.2 = true) (location_entries city street alley).
Proof.
  unfold location_entries.
  destruct (given city || given street || given alley); [|constructor].
  constructor; [|constructor]. cbn [snd]. apply informative_fields.
  repeat (apply Forall_app; split); apply entry_if_given_informative.
Qed.

(** X13.  What [jobsApi.create] sends: one POST to [/jobs] with the JSON
    content type, whose body is the JSON text of an object with the title and
    the description, the salary exactly when one is given (a salary of 0 is
    sent), and a [location] exactly when the city, the street or the alley is
    non-empty; the location then holds the non-empty ones among them and
    nothing else. *)
Theorem jobsApi_create_request (H : Host) (now : Z) (data : CreateJobData.t)
    (s : State) :
  let requestData := create_requestData data in
  (∃ req : Request,
     sent (jobsApi_create H now data s).2 = sent s ++ [req] ∧
     url req = API_BASE_URL H +:+ "/jobs" ∧
     RequestInit.method (config req) = "POST" ∧
     RequestInit.headers (config req) !! "Content-Type" = Some "application/json" ∧
     RequestInit.body (config req) = json_body H (PRecord requestData)) ∧
  obj_lookup requestData "title" = JStr (CreateJobData.title data) ∧
  obj_lookup requestData "description" = JStr (CreateJobData.description data) ∧
  obj_lookup requestData "salary"
  = match CreateJobData.salary data with Some n => JNum n | None => JUndefined end ∧
  obj_lookup requestData "location"
  = (if given (CreateJobData.city data) || given (CreateJobData.street data)
        || given (CreateJobData.alley data)
     then JObj (entry_if_given "city" (CreateJobData.city data)
                ++ entry_if_given "street" (CreateJobData.street data)
                ++ entry_if_given "alley" (CreateJobData.alley data))
     else JUndefined) ∧
  (obj_lookup requestData "location" = JUndefined ∨
   informative (obj_lookup requestData "location") = true).
Proof.
  intros requestData.
  assert (Hlocation : obj_lookup requestData "location"
    = (if given (CreateJobData.city data) || given (CreateJobData.street data)
          || given (CreateJobData.alley data)
       then JObj (entry_if_given "city" (CreateJobData.city data)
                  ++ entry_if_given "street" (CreateJobData.street data)
                  ++ entry_if_given "alley" (CreateJobData.alley data))
       else JUndefined)).
  { subst requestData. unfold create_requestData, location_entries.
    destruct (CreateJobData.salary data);
      by destruct (given (CreateJobData.city data) || given (CreateJobData.street data)
                   || given (CreateJobData.alley data)). }
  split; [|split; [done|split; [done|split; [|split; [done|]]]]].
  - destruct (storage_get_run H TOKEN s) as [token Hget].
    assert (Hfst : (storage_get H TOKEN s).1 = Ok token) by by rewrite Hget.
    unfold jobsApi_create, httpClient_post.
    rewrite (bind_await_run _ _ s _ _
               (request_run H "/jobs" (body_options H "POST" (PRecord requestData) None)
                  s token Hfst)).
    destruct (body_options_spec H "POST" (PRecord requestData) None token)
      as (Hmethod & Hbody & Hct).
    eexists; split; [reflexivity|]. cbn [url config sent_request RequestInit.method
      RequestInit.headers RequestInit.body].
    split; [done|]. split; [exact Hmethod|]. split; [exact Hct|exact Hbody].
  - subst requestData. unfold create_requestData, location_entries.
    destruct (CreateJobData.salary data); [done|].
    by destruct (given (CreateJobData.city data) || given (CreateJobData.street data)
                 || given (CreateJobData.alley data)).
  - rewrite Hlocation.
    destruct (given (CreateJobData.city data) || given (CreateJobData.street data)
              || given (CreateJobData.alley data)); [right|by left].
    apply informative_fields.
    repeat (apply Forall_app; split); apply entry_if_given_informative.
Qed.

(** X14.  What [jobsApi.update] sends: one PATCH to [/jobs/:id] with the
    JSON content type, whose body is the JSON text of an object in which
    every value says something: an empty title, description or status is left
    out, a [location] is there exactly when the city, the street or the alley
    is non-empty and then holds the non-empty ones, while a salary is sent
    whenever one is given, 0 included. *)
Theorem jobsApi_update_request (H : Host) (now : Z) (id : Z) (data : UpdateJobData.t)
    (s : State) :
  let requestData := update_requestData data in
  (∃ req : Request,
     sent (jobsApi_update H now id data s).2 = sent s ++ [req] ∧
     url req = API_BASE_URL H +:+ "/jobs/" +:+ pretty id ∧
     RequestInit.method (config req) = "PATCH" ∧
     RequestInit.headers (config req) !! "Content-Type" = Some "application/json" ∧
     RequestInit.body (config req) = json_body H (PRecord requestData)) ∧
  Forall (λ entry, informative entry.2 = true) requestData ∧
  (∀ n : Z, UpdateJobData.salary data = Some n →
            obj_lookup requestData "salary" = JNum n) ∧
  obj_lookup requestData "title"
  = (if given (UpdateJobData.title data)
     then match UpdateJobData.title data with Some t => JStr t | None => JUndefined end
     else JUndefined) ∧
  obj_lookup requestData "location"
  = (if given (UpdateJobData.city data) || given (UpdateJobData.street data)
        || given (UpdateJobData.alley data)
     then JObj (entry_if_given "city" (UpdateJobData.city data)
                ++ entry_if_given "street" (UpdateJobData.street data)
                ++ entry_if_given "alley" (UpdateJobData.alley data))
     else JUndefined).
Proof.
  intros requestData. split; [|split; [|split; [|split]]].
  - destruct (storage_get_run H TOKEN s) as [token Hget].
    assert (Hfst : (storage_get H TOKEN s).1 = Ok token) by by rewrite Hget.
    unfold jobsApi_update, httpClient_patch.
    rewrite (bind_await_run _ _ s _ _
               (request_run H ("/jobs/" +:+ js_String (JNum id))
                  (body_options H "PATCH" (PRecord requestData) None)
                  s token Hfst)).
    destruct (body_options_spec H "PATCH" (PRecord requestData) None token)
      as (Hmethod & Hbody & Hct).
    eexists; split; [reflexivity|]. cbn [url config sent_request RequestInit.method
      RequestInit.headers RequestInit.body].
    split; [done|]. split; [exact Hmethod|]. split; [exact Hct|exact Hbody].
  - subst requestData. unfold update_requestData.
    repeat (apply Forall_app; split);
      try apply entry_if_given_informative;
      try apply location_entries_informative.
    destruct (UpdateJobData.salary data); repeat constructor.
  - intros n Hsalary. subst requestData. unfold update_requestData.
    rewrite Hsalary, !entry_if_given_lookup. simpl.
    by rewrite !andb_false_r.
  - subst requestData. unfold update_requestData.
    rewrite entry_if_given_lookup. simpl. rewrite andb_true_r.
    destruct (given (UpdateJobData.title data)); [done|].
    rewrite entry_if_given_lookup. simpl. rewrite andb_false_r.
    destruct (UpdateJobData.salary data); simpl;
      rewrite entry_if_given_lookup; simpl; rewrite andb_false_r;
      unfold location_entries;
      by destruct (given (UpdateJobData.city data) || given (UpdateJobData.street data)
                   || given (UpdateJobData.alley data)).
  - subst requestData. unfold update_requestData.
    rewrite !entry_if_given_lookup. simpl. rewrite !andb_false_r.
    destruct (UpdateJobData.salary data); simpl;
      rewrite entry_if_given_lookup; simpl; rewrite andb_false_r;
      unfold location_entries;
      by destruct (given (UpdateJobData.city data) || given (UpdateJobData.street data)
                   || given (UpdateJobData.alley data)).
Qed.

Example jobsApi_create_example :
  create_requestData example_job
  = [("title", JStr "Developer"); ("description", JStr "Builds the portal");
     ("salary", JNum 0); ("location", JObj [("city", JStr "Isfahan")])] ∧
  update_requestData empty_update = [].
Proof. done. Qed.

(** ** Status updates *)

(** X15.  The two status updates go out as URL-encoded forms:
    [applicationsApi.update] and [jobsApi.updateAdmin] each send one PATCH,
    to [/applications/:id] and [/admin/jobs/:id], with the content type
    [application/x-www-form-urlencoded] and the single pair [status]. *)
Theorem status_updates_urlencoded (H : Host) (now : Z) (id : Z) (status : string)
    (s : State) :
  (∃ req : Request,
     sent (applicationsApi_update H id status s).2 = sent s ++ [req] ∧
     url req = API_BASE_URL H +:+ "/applications/" +:+ pretty id ∧
     RequestInit.method (config req) = "PATCH" ∧
     RequestInit.headers (config req) !! "Content-Type"
     = Some "application/x-www-form-urlencoded" ∧
     RequestInit.body (config req) = BodyURLSearchParams [("status", status)]) ∧
  (∃ req : Request,
     sent (jobsApi_updateAdmin H now id status s).2 = sent s ++ [req] ∧
     url req = API_BASE_URL H +:+ "/admin/jobs/" +:+ pretty id ∧
     RequestInit.method (config req) = "PATCH" ∧
     RequestInit.headers (config req) !! "Content-Type"
     = Some "application/x-www-form-urlencoded" ∧
     RequestInit.body (config req) = BodyURLSearchParams [("status", status)]).
Proof.
  destruct (storage_get_run H TOKEN s) as [token Hget].
  assert (Hfst : (storage_get H TOKEN s).1 = Ok token) by by rewrite Hget.
  destruct (body_options_spec H "PATCH" (PRecord [("status", JStr status)])
              urlencoded token) as (Hmethod & Hbody & Hct).
  split.
  - unfold applicationsApi_update, httpClient_patch.
    rewrite (bind_await_run _ _ s _ _
               (request_run H ("/applications/" +:+ js_String (JNum id))
                  (body_options H "PATCH" (PRecord [("status", JStr status)]) urlencoded)
                  s token Hfst)).
    eexists; split; [reflexivity|]. cbn [url config sent_request RequestInit.method
      RequestInit.headers RequestInit.body].
    split; [done|]. split; [exact Hmethod|]. split; [exact Hct|exact Hbody].
  - unfold jobsApi_updateAdmin, httpClient_patch.
    rewrite (bind_await_run _ _ s _ _
               (request_run H ("/admin/jobs/" +:+ js_String (JNum id))
                  (body_options H "PATCH" (PRecord [("status", JStr status)]) urlencoded)
                  s token Hfst)).
    eexists; split; [reflexivity|]. cbn [url config sent_request RequestInit.method
      RequestInit.headers RequestInit.body].
    split; [done|]. split; [exact Hmethod|]. split; [exact Hct|exact Hbody].
Qed.

(** ** Replies without [data] *)

(** X16.  A reply that is an object without [data]: the three job lists
    ([jobsApi.getAll], [getUserJobs], [getAllAdmin]) return the empty list,
    with the status [success] when the reply has none, while
    [jobsApi.getById] throws a [TypeError], because [transformJob] reads the
    fields of [undefined]. *)
Theorem jobs_reply_without_data (H : Host) (now : Z) (s : State)
    (fields : list (string * JsVal)) :
  defined (obj_lookup fields "data") = false →
  (∀ filters s',
     httpClient_get H "/jobs" filters s = (Ok (JObj fields), s') →
     ∃ r, jobsApi_getAll H now filters s = (Ok r, s') ∧
          ApiResponse.data r = [] ∧
          ApiResponse.status r = js_or (obj_lookup fields "status") (JStr "success")) ∧
  (∀ s',
     httpClient_get H "/jobs/my-jobs" None s = (Ok (JObj fields), s') →
     ∃ r, jobsApi_getUserJobs H now s = (Ok r, s') ∧
          ApiResponse.data r = [] ∧
          ApiResponse.status r = js_or (obj_lookup fields "status") (JStr "success")) ∧
  (∀ filters s',
     httpClient_get H "/admin/jobs" filters s = (Ok (JObj fields), s') →
     ∃ r, jobsApi_getAllAdmin H now filters s = (Ok r, s') ∧
          ApiResponse.data r = [] ∧
          ApiResponse.status r = js_or (obj_lookup fields "status") (JStr "success")) ∧
  (∀ id s',
     httpClient_get H ("/jobs/" +:+ js_String (JNum id)) None s
     = (Ok (JObj fields), s') →
     jobsApi_getById H now id s = (Throw (TypeError H), s')).
Proof.
  intros Hmissing.
  assert (Hfalsy : js_or (obj_lookup fields "data") (JArr []) = JArr []).
  { unfold js_or. by destruct (obj_lookup fields "data"). }
  split; [|split; [|split]].
  - intros filters s' Hget. unfold jobsApi_getAll. unfold_M. rewrite Hget. simpl.
    rewrite Hfalsy. by eexists.
  - intros s' Hget. unfold jobsApi_getUserJobs.
    rewrite (bind_await_run _ _ s _ _ Hget).
    unfold apiResponse, jobs_of. simpl. rewrite Hfalsy. by eexists.
  - intros filters s' Hget. unfold jobsApi_getAllAdmin.
    rewrite (bind_await_run _ _ s _ _ Hget).
    unfold apiResponse, jobs_of. simpl. rewrite Hfalsy. by eexists.
  - intros id s' Hget. unfold jobsApi_getById.
    rewrite (bind_await_run _ _ s _ _ Hget).
    unfold apiResponse. simpl.
    by destruct (obj_lookup fields "data").
Qed.

Lemma jobs_reply_without_data_witness :
  let H := RefHost.host (answering 120 message_only_response) in
  (∃ r, (jobsApi_getAll H 0 None initial_state).1 = Ok r ∧ ApiResponse.data r = []) ∧
  (jobsApi_getById H 0 5 initial_state).1
  = Throw (EError "TypeError" "Cannot read properties of undefined").
Proof.
  intros H.
  destruct (jobs_reply_without_data H 0 initial_state
              [("message", JStr "ok")] eq_refl)
    as (Hall & _ & _ & Hone).
  split.
  - destruct (Hall None _ eq_refl) as (r & Hrun & Hdata & _).
    exists r. by rewrite Hrun.
  - by rewrite (Hone 5 _ eq_refl).
Defined.

(** ** The hooks of useApplications *)

Lemma applicationsApi_getUserApplications_state (H : Host) (s : State) :
  ∃ (r : Result (ApiResponse.t JsVal)) (req : Request),
    applicationsApi_getUserApplications H s = (r, with_sent (sent s ++ [req]) s).
Proof.
  destruct (request_state H "/applications/my-applications"
              (RequestInit.mk "GET" ∅ BodyNone) s) as (r & req & Hrun).
  unfold applicationsApi_getUserApplications, httpClient_get.
  rewrite (bind_await_run _ _ s _ _ Hrun). by eexists _, _.
Qed.

Lemma applicationsApi_update_state (H : Host) (id : Z) (status : string) (s : State) :
  ∃ (r : Result (ApiResponse.t JsVal)) (req : Request),
    applicationsApi_update H id status s = (r, with_sent (sent s ++ [req]) s).
Proof.
  destruct (request_state H ("/applications/" +:+ js_String (JNum id))
              (body_options H "PATCH" (PRecord [("status", JStr status)]) urlencoded) s)
    as (r & req & Hrun).
  unfold applicationsApi_update, httpClient_patch.
  rewrite (bind_await_run _ _ s _ _ Hrun). by eexists _, _.
Qed.

Lemma applicationsApi_create_state (H : Host) (jobId : Z)
    (data : CreateApplicationData.t) (s : State) :
  ∃ (r : Result (ApiResponse.t JsVal)) (req : Request),
    applicationsApi_create H jobId data s = (r, with_sent (sent s ++ [req]) s).
Proof.
  destruct (storage_get_run H TOKEN s) as [token Hget].
  destruct (applicationsApi_create_run H jobId data s token) as (r & Hrun & _);
    [by rewrite Hget|].
  by eexists _, _.
Qed.

Lemma js_or_array_truthy (v : JsVal) : truthy (js_or v (JArr [])) = true.
Proof. unfold js_or. by destruct (truthy v) eqn:Hv. Qed.

Lemma applicationsApi_getAll_state (H : Host) (s : State) :
  ∃ (r : Result JsVal) (req : Request),
    applicationsApi_getAll H s = (r, with_sent (sent s ++ [req]) s).
Proof.
  destruct (request_state H "/applications" (RequestInit.mk "GET" ∅ BodyNone) s)
    as (r & req & Hrun).
  unfold applicationsApi_getAll, httpClient_get. unfold_M. rewrite Hrun.
  destruct r as [response|error]; [|by eexists _, _].
  destruct (Array_isArray response) eqn:Harray; [by eexists _, _|].
  destruct (get_prop H response "data") as [data|error]; by eexists _, _.
Qed.

(** X17.  The hooks never throw.  [createApplication] and
    [updateApplicationStatus] (which is [updateApplication]) return a result after exactly one request, with
    [loading] false and the signed-in user as before; [fetchAllApplications]
    and [fetchUserApplications] leave a state cell that is not loading and
    holds either data that is not null and no error, or an error message and
    no data. *)
Theorem application_hooks_never_throw (H : Host) (s : State) :
  (∀ jobId data,
     ∃ (r : MutationResult.t) (s' : State) (req : Request),
       createApplication H jobId data s = (Ok r, s') ∧
       loading s' = false ∧ user s' = user s ∧ sent s' = sent s ++ [req]) ∧
  (∀ id status,
     ∃ (r : MutationResult.t) (s' : State) (req : Request),
       updateApplicationStatus H id status s = (Ok r, s') ∧
       loading s' = false ∧ user s' = user s ∧ sent s' = sent s ++ [req]) ∧
  (∃ (cell : AsyncState.t) (s' : State) (req : Request),
     fetchAllApplications H s = (Ok cell, s') ∧
     AsyncState.loading cell = false ∧ user s' = user s ∧
     sent s' = sent s ++ [req] ∧
     match AsyncState.error cell with
     | None => truthy (AsyncState.data cell) = true
     | Some _ => AsyncState.data cell = JNull
     end) ∧
  (∃ (cell : AsyncState.t) (s' : State) (req : Request),
     fetchUserApplications H s = (Ok cell, s') ∧
     AsyncState.loading cell = false ∧ user s' = user s ∧
     sent s' = sent s ++ [req] ∧
     match AsyncState.error cell with
     | None => truthy (AsyncState.data cell) = true
     | Some _ => AsyncState.data cell = JNull
     end).
Proof.
  split; [|split; [|split]].
  - intros jobId data.
    destruct (applicationsApi_create_state H jobId data (with_loading true s))
      as (r & req & Hrun).
    unfold createApplication. unfold_M. rewrite Hrun.
    destruct r as [response|error]; [by eexists _, _, _|].
    match goal with
    | |- context [handleApiError error ?st] =>
        destruct (handleApiError_run error st) as (message & ls & ->)
    end.
    by eexists _, _, _.
  - intros id status.
    destruct (applicationsApi_update_state H id status (with_loading true s))
      as (r & req & Hrun).
    unfold updateApplicationStatus, updateApplication. unfold_M. rewrite Hrun.
    destruct r as [response|error]; [by eexists _, _, _|].
    match goal with
    | |- context [handleApiError error ?st] =>
        destruct (handleApiError_run error st) as (message & ls & ->)
    end.
    by eexists _, _, _.
  - destruct (applicationsApi_getAll_state H s) as (r & req & Hrun).
    unfold fetchAllApplications. unfold_M. rewrite Hrun.
    destruct r as [response|error].
    { eexists _, _, _. split; [reflexivity|]. do 3 (split; [done|]).
      apply js_or_array_truthy. }
    match goal with
    | |- context [handleApiError error ?st] =>
        destruct (handleApiError_run error st) as (message & ls & ->)
    end.
    by eexists _, _, _.
  - destruct (applicationsApi_getUserApplications_state H s) as (r & req & Hrun).
    unfold fetchUserApplications. unfold_M. rewrite Hrun.
    destruct r as [response|error].
    + eexists _, _, _. split; [reflexivity|]. do 3 (split; [done|]).
      apply js_or_array_truthy.
    + match goal with
      | |- context [handleApiError error ?st] =>
          destruct (handleApiError_run error st) as (message & ls & ->)
      end.
      by eexists _, _, _.
Qed.

Lemma find_application_spec (H : Host) (items : list JsVal) (currentJobId : Z) :
  Forall (λ app, defined app = true) items →
  find_application H items currentJobId
  = Ok (default JUndefined (first_application_spec items currentJobId)).
Proof.
  induction 1 as [|app items Happ _ IH]; [done|].
  unfold first_application_spec in *. simpl.
  destruct app; try done; simpl; try exact IH.
  unfold mbind, Result_bind.
  by destruct (strict_eq_num (obj_lookup fields "jobId") currentJobId).
Qed.

Lemma first_application_truthy (items : list JsVal) (currentJobId : Z) (app : JsVal) :
  first_application_spec items currentJobId = Some app → truthy app = true.
Proof.
  intros Hfind. apply find_some in Hfind as [_ Hmatch].
  by destruct app.
Qed.

(** X18.  [checkApplicationStatus] swallows every failure: it never throws,
    ends not loading, and changes nothing but the log of requests.  In
    particular a 401 answer to it does not remove the stored token (it does
    not go through [handleApiError]). *)
Theorem checkApplicationStatus_frame (H : Host) (currentJobId : Z) (s : State) :
  ∃ (cells : ApplicationStatusCells.t) (req : Request),
    checkApplicationStatus H currentJobId s
    = (Ok cells, with_sent (sent s ++ [req]) s) ∧
    ApplicationStatusCells.loading cells = false ∧
    (ApplicationStatusCells.hasApplied cells = false →
     ApplicationStatusCells.applicationId cells = JNull).
Proof.
  destruct (applicationsApi_getUserApplications_state H s) as (r & req & Hrun).
  unfold checkApplicationStatus. unfold_M. rewrite Hrun.
  destruct r as [response|error]; [|by eexists _, _].
  destruct (js_find_application H _ currentJobId) as [existing|error];
    [|by eexists _, _].
  eexists _, _. split; [reflexivity|]. split; [done|]. simpl.
  intros Hfalsy. by destruct existing.
Qed.

(** X19.  What [checkApplicationStatus] reports.  When the applications of
    the user arrive as an array of values other than [null], [hasApplied]
    says whether one of them has the job as its [jobId], and
    [applicationId] is the [id] of the first such application, or [null] when
    there is none or when that id is falsy (0, say). *)
Theorem checkApplicationStatus_found (H : Host) (currentJobId : Z) (s s1 : State)
    (response : ApiResponse.t JsVal) (items : list JsVal) :
  applicationsApi_getUserApplications H s = (Ok response, s1) →
  ApiResponse.data response = JArr items →
  Forall (λ app, defined app = true) items →
  (checkApplicationStatus H currentJobId s).1
  = Ok (ApplicationStatusCells.mk
          (bool_decide (is_Some (first_application_spec items currentJobId)))
          (match first_application_spec items currentJobId with
           | Some app => js_or (opt_chain app "id") JNull
           | None => JNull
           end)
          false).
Proof.
  intros Hrun Hdata Hitems.
  unfold checkApplicationStatus. unfold_M. rewrite Hrun, Hdata. simpl.
  rewrite (find_application_spec H items currentJobId Hitems).
  destruct (first_application_spec items currentJobId) as [app|] eqn:Hfind; simpl.
  - by rewrite (first_application_truthy items currentJobId app Hfind).
  - done.
Qed.

Lemma checkApplicationStatus_found_witness :
  let H := RefHost.host (answering 120 my_applications_response) in
  (checkApplicationStatus H 4 initial_state).1
  = Ok (ApplicationStatusCells.mk true (JNum 31) false) ∧
  (checkApplicationStatus H 9 initial_state).1
  = Ok (ApplicationStatusCells.mk true JNull false) ∧
  (checkApplicationStatus H 5 initial_state).1
  = Ok (ApplicationStatusCells.mk false JNull false).
Proof.
  intros H.
  pose (items := [JObj [("id", JNum 31); ("jobId", JNum 4)];
                  JObj [("id", JNum 0); ("jobId", JNum 9)]]).
  assert (Hitems : Forall (λ app, defined app = true) items)
    by (repeat constructor).
  pose (response := ApiResponse.mk (JStr "success") (JStr "") (JArr items)
                      JUndefined JUndefined JUndefined).
  split; [|split].
  - exact (checkApplicationStatus_found H 4 initial_state _ response items
             eq_refl eq_refl Hitems).
  - exact (checkApplicationStatus_found H 9 initial_state _ response items
             eq_refl eq_refl Hitems).
  - exact (checkApplicationStatus_found H 5 initial_state _ response items
             eq_refl eq_refl Hitems).
Defined.

(** ** Utilities *)

Lemma strip_leading_slashes_spec (m : nat) (rest : string) :
  starts_with_slash rest = false →
  strip_leading_slashes (slashes m +:+ rest) = rest.
Proof.
  intros Hrest. induction m as [|m IH]; simpl.
  - destruct rest as [|c r]; [done|]. simpl in *. by rewrite Hrest.
  - exact IH.
Qed.

Lemma strip_trailing_slashes_slashes (n : nat) :
  strip_trailing_slashes (slashes n) = "".
Proof. induction n as [|n IH]; [done|]. simpl. by rewrite IH. Qed.

Lemma strip_trailing_slashes_spec (n : nat) (base : string) :
  ends_with_slash base = false →
  strip_trailing_slashes (base +:+ slashes n) = base.
Proof.
  induction base as [|c r IH]; intros Hbase.
  - apply strip_trailing_slashes_slashes.
  - destruct r as [|c' r'].
    + change (strip_trailing_slashes (String c (slashes n)) = String c "").
      cbn [strip_trailing_slashes]. rewrite strip_trailing_slashes_slashes.
      simpl in Hbase. by rewrite Hbase.
    + change (strip_trailing_slashes (String c (String c' r' +:+ slashes n))
              = String c (String c' r')).
      cbn [strip_trailing_slashes]. cbn [strip_trailing_slashes] in IH.
      by rewrite (IH Hbase).
Qed.

(** X20.  [getApiUrl] joins the base URL and the endpoint with exactly one
    slash, however many slashes end the one and begin the other; so the two
    Google sign-in URLs are the base URL without its trailing slashes
    followed by [/auth/google/seeker] and [/auth/google/employer]. *)
Theorem getApiUrl_one_slash (H : Host) (base : string) (n : nat) :
  API_BASE_URL H = base +:+ slashes n →
  ends_with_slash base = false →
  (∀ (m : nat) (rest : string),
     starts_with_slash rest = false →
     getApiUrl H (slashes m +:+ rest) = base +:+ "/" +:+ rest) ∧
  authApi_getGoogleSeekerUrl H = base +:+ "/auth/google/seeker" ∧
  authApi_getGoogleEmployerUrl H = base +:+ "/auth/google/employer".
Proof.
  intros Hurl Hbase.
  assert (Hjoin : ∀ (m : nat) (rest : string),
            starts_with_slash rest = false →
            getApiUrl H (slashes m +:+ rest) = base +:+ "/" +:+ rest).
  { intros m rest Hrest. unfold getApiUrl.
    by rewrite Hurl, strip_trailing_slashes_spec, strip_leading_slashes_spec. }
  split; [exact Hjoin|]. split.
  - exact (Hjoin 1%nat "auth/google/seeker" eq_refl).
  - exact (Hjoin 1%nat "auth/google/employer" eq_refl).
Qed.

Lemma getApiUrl_one_slash_witness :
  let H := mkHost (λ _, None) (λ _, None) (λ _, None) (λ _, None) (λ _, "")
             (λ _, "") "https://api.example.com//" (λ _ _, (0, Rejected (EValue JNull))) in
  getApiUrl H "///jobs/5" = "https://api.example.com/jobs/5" ∧
  authApi_getGoogleSeekerUrl H = "https://api.example.com/auth/google/seeker".
Proof.
  intros H.
  destruct (getApiUrl_one_slash H "https://api.example.com" 2 eq_refl eq_refl)
    as (Hjoin & Hseeker & _).
  split; [exact (Hjoin 3%nat "jobs/5" eq_refl)|exact Hseeker].
Defined.




Lemma nested_floor (d a b : Z) : 0 < a → 0 < b → d / a / b = d / (a * b).
Proof. intros Ha Hb. apply Z.div_div; lia. Qed.

(** X22.  [formatRelative] in terms of the elapsed milliseconds [d]: below
    one minute (also for a date in the future) it says [just now]; from there
    on it counts whole minutes up to an hour, whole hours up to a day, whole
    days up to 30 days, periods of 30 days up to 365 days and periods of 365
    days after that.  The count is at least 1, and the unit is always in the
    plural. *)
Theorem formatRelative_units (now t : Z) :
  let d := now - t in
  (d < 60000 → formatRelative now (Some t) = "just now") ∧
  (60000 <= d →
   ∃ (n : Z) (unit : string),
     formatRelative now (Some t) = pretty n +:+ unit ∧ 1 <= n ∧
     if d <? 3600000 then n = d / 60000 ∧ n <= 59 ∧ unit = " minutes ago"
     else if d <? 86400000 then n = d / 3600000 ∧ n <= 23 ∧ unit = " hours ago"
     else if d <? 2592000000 then n = d / 86400000 ∧ n <= 29 ∧ unit = " days ago"
     else if d <? 31536000000
          then n = d / 2592000000 ∧ n <= 12 ∧ unit = " months ago"
     else n = d / 31536000000 ∧ unit = " years ago").
Proof.
  intros d. unfold formatRelative. fold d. change (1000 * 60) with 60000.
  assert (Hminutes : 60000 * (d / 60000) <= d < 60000 * (d / 60000) + 60000).
  { pose proof (Z.mul_div_le d 60000). pose proof (Z.mul_succ_div_gt d 60000). lia. }
  split.
  - intros Hd. destruct (Z.ltb_spec (d / 60000) 1); [done|lia].
  - intros Hd.
    assert (Hhours : d / 60000 / 60 = d / 3600000) by by rewrite nested_floor.
    assert (Hdays : d / 60000 / 1440 = d / 86400000) by by rewrite nested_floor.
    assert (Hmonths : d / 60000 / 1440 / 30 = d / 2592000000)
      by by rewrite !nested_floor.
    assert (Hyears : d / 60000 / 1440 / 365 = d / 31536000000)
      by by rewrite !nested_floor.
    assert (Hh : 3600000 * (d / 3600000) <= d < 3600000 * (d / 3600000) + 3600000).
    { pose proof (Z.mul_div_le d 3600000). pose proof (Z.mul_succ_div_gt d 3600000).
      lia. }
    assert (Hd' : 86400000 * (d / 86400000) <= d
                  < 86400000 * (d / 86400000) + 86400000).
    { pose proof (Z.mul_div_le d 86400000). pose proof (Z.mul_succ_div_gt d 86400000).
      lia. }
    assert (Hm : 2592000000 * (d / 2592000000) <= d
                 < 2592000000 * (d / 2592000000) + 2592000000).
    { pose proof (Z.mul_div_le d 2592000000).
      pose proof (Z.mul_succ_div_gt d 2592000000). lia. }
    assert (Hy : 31536000000 * (d / 31536000000) <= d
                 < 31536000000 * (d / 31536000000) + 31536000000).
    { pose proof (Z.mul_div_le d 31536000000).
      pose proof (Z.mul_succ_div_gt d 31536000000). lia. }
    rewrite Hmonths, Hyears, Hdays, Hhours.
    destruct (Z.ltb_spec (d / 60000) 1); [lia|].
    destruct (Z.ltb_spec (d / 60000) 60), (Z.ltb_spec d 3600000); try lia.
    { eexists _, _. split; [reflexivity|]. repeat split; (reflexivity || lia). }
    destruct (Z.ltb_spec (d / 60000) 1440), (Z.ltb_spec d 86400000); try lia.
    { eexists _, _. split; [reflexivity|]. repeat split; (reflexivity || lia). }
    destruct (Z.ltb_spec (d / 86400000) 30), (Z.ltb_spec d 2592000000); try lia.
    { eexists _, _. split; [reflexivity|]. repeat split; (reflexivity || lia). }
    destruct (Z.ltb_spec (d / 86400000) 365), (Z.ltb_spec d 31536000000); try lia.
    { eexists _, _. split; [reflexivity|]. repeat split; (reflexivity || lia). }
    eexists _, _. split; [reflexivity|]. repeat split; (reflexivity || lia).
Qed.

Lemma formatRelative_units_witness :
  formatRelative example_now (Some (example_now + 5000)) = "just now" ∧
  ∃ (n : Z) (unit : string),
    formatRelative example_now (Some (example_now - 31190400000))
    = pretty n +:+ unit ∧ n = 12 ∧ unit = " months ago".
Proof.
  split.
  - apply (formatRelative_units example_now (example_now + 5000)). reflexivity.
  - destruct (formatRelative_units example_now (example_now - 31190400000))
      as [_ Hlong].
    destruct Hlong as (n & unit & Heq & _ & Hcase); [done|].
    exists n, unit. split; [exact Heq|].
    change (example_now - (example_now - 31190400000)) with 31190400000 in Hcase.
    simpl in Hcase. destruct Hcase as (-> & _ & ->). done.
Defined.

Section UniqueBy.
Context {T K : Type} `{EqDecision K} (getKey : T → K).

Lemma uniqueBy_from_elem (seen : list K) (array : list T) (x : T) :
  x ∈ uniqueBy_from getKey seen array → x ∈ array ∧ getKey x ∉ seen.
Proof.
  revert seen. induction array as [|item rest IH]; intros seen Hin; simpl in Hin.
  - by apply elem_of_nil in Hin.
  - destruct (bool_decide_reflect (getKey item ∈ seen)) as [Hseen|Hfresh].
    + destruct (IH _ Hin) as [Hrest Hnot]. split; [by right|done].
    + apply elem_of_cons in Hin as [->|Hin]; [split; [by left|done]|].
      destruct (IH _ Hin) as [Hrest Hnot]. split; [by right|].
      intros Hseen. apply Hnot. by right.
Qed.

Lemma uniqueBy_from_NoDup (seen : list K) (array : list T) :
  NoDup (getKey <$> uniqueBy_from getKey seen array).
Proof.
  revert seen. induction array as [|item rest IH]; intros seen; simpl.
  - constructor.
  - destruct (bool_decide_reflect (getKey item ∈ seen)) as [Hseen|Hfresh]; [done|].
    rewrite fmap_cons. apply NoDup_cons. split; [|done].
    intros Hin. apply list_elem_of_fmap in Hin as (y & Hkey & Hy).
    apply uniqueBy_from_elem in Hy as [_ Hnot]. apply Hnot. rewrite Hkey. by left.
Qed.

Lemma uniqueBy_from_sublist (seen : list K) (array : list T) :
  sublist (uniqueBy_from getKey seen array) array.
Proof.
  revert seen. induction array as [|item rest IH]; intros seen; simpl.
  - constructor.
  - destruct (bool_decide (getKey item ∈ seen)).
    + by apply sublist_cons.
    + by apply sublist_skip.
Qed.

Lemma uniqueBy_from_first (seen : list K) (before after : list T) (x : T) :
  getKey x ∉ seen → getKey x ∉ getKey <$> before →
  x ∈ uniqueBy_from getKey seen (before ++ x :: after).
Proof.
  revert seen. induction before as [|item rest IH]; intros seen Hseen Hbefore; simpl.
  - rewrite bool_decide_false by done. by left.
  - rewrite fmap_cons in Hbefore. apply not_elem_of_cons in Hbefore as [Hne Hrest].
    destruct (bool_decide (getKey item ∈ seen)); [by apply IH|].
    right. apply IH; [|done]. by apply not_elem_of_cons.
Qed.

Lemma uniqueBy_from_fixed (seen : list K) (array : list T) :
  NoDup (getKey <$> array) → (∀ x, x ∈ array → getKey x ∉ seen) →
  uniqueBy_from getKey seen array = array.
Proof.
  revert seen. induction array as [|item rest IH]; intros seen Hnodup Hseen; [done|].
  simpl. rewrite fmap_cons in Hnodup. apply NoDup_cons in Hnodup as [Hitem Hnodup].
  rewrite bool_decide_false by (apply Hseen; by left).
  f_equal. apply IH; [done|]. intros x Hx. apply not_elem_of_cons. split.
  - intros Heq. apply Hitem. rewrite <- Heq. by apply list_elem_of_fmap_2.
  - apply Hseen. by right.
Qed.

End UniqueBy.

(** X23.  [uniqueBy] keeps, in their order, exactly the first item of each
    key: the result is a subsequence of the array with no key twice, an item
    before which no item has its key is kept, an array without repeated keys
    is returned as it is, and applying [uniqueBy] twice changes nothing. *)
Theorem uniqueBy_first_of_each_key {T K : Type} `{EqDecision K}
    (array : list T) (getKey : T → K) :
  sublist (uniqueBy array getKey) array ∧
  NoDup (getKey <$> uniqueBy array getKey) ∧
  (∀ before x after,
     array = before ++ x :: after → getKey x ∉ getKey <$> before →
     x ∈ uniqueBy array getKey) ∧
  (NoDup (getKey <$> array) → uniqueBy array getKey = array) ∧
  uniqueBy (uniqueBy array getKey) getKey = uniqueBy array getKey.
Proof.
  unfold uniqueBy. split; [apply uniqueBy_from_sublist|].
  split; [apply uniqueBy_from_NoDup|]. split; [|split].
  - intros before x after -> Hfirst. apply uniqueBy_from_first; [|done].
    apply not_elem_of_nil.
  - intros Hnodup. apply uniqueBy_from_fixed; [done|].
    intros x _. apply not_elem_of_nil.
  - apply uniqueBy_from_fixed; [apply uniqueBy_from_NoDup|].
    intros x _. apply not_elem_of_nil.
Qed.

Lemma uniqueBy_first_of_each_key_witness :
  uniqueBy [(1, "a"); (2, "b"); (1, "c"); (3, "d"); (2, "e")] fst
  = [(1, "a"); (2, "b"); (3, "d")] ∧
  (3, "d") ∈ uniqueBy [(1, "a"); (2, "b"); (1, "c"); (3, "d"); (2, "e")] fst ∧
  uniqueBy [(1, "a"); (2, "b"); (3, "d")] fst = [(1, "a"); (2, "b"); (3, "d")].
Proof.
  split; [reflexivity|]. split.
  - destruct (uniqueBy_first_of_each_key
                [(1, "a"); (2, "b"); (1, "c"); (3, "d"); (2, "e")] fst)
      as (_ & _ & Hfirst & _).
    apply (Hfirst [(1, "a"); (2, "b"); (1, "c")] (3, "d") [(2, "e")] eq_refl).
    apply (bool_decide_unpack _). reflexivity.
  - destruct (uniqueBy_first_of_each_key [(1, "a"); (2, "b"); (3, "d")] fst)
      as (_ & _ & _ & Hfixed & _).
    apply Hfixed. apply (bool_decide_unpack _). reflexivity.
Defined.

(** ** The stored items *)

(** X24.  What [storage] gives back.  A value whose JSON text is not empty
    and parses back to it is returned by [get] after [set]; [set] on one key
    does not change what [get] returns for another; after [remove] of the key,
    or after [clear], [get] returns [null]. *)
Theorem storage_round_trip (H : Host) (key : string) (value : JsVal) (s : State)
    (text : string) :
  JSON_stringify H value = Some text →
  text ≠ "" →
  JSON_parse H text = Some value →
  (storage_set H key value;; storage_get H key) s
  = (Ok value, with_localStorage (<[key := text]> (localStorage s)) s) ∧
  (∀ other : string,
     other ≠ key →
     (storage_get H other (storage_set H key value s).2).1
     = (storage_get H other s).1) ∧
  ((storage_set H key value;; storage_remove key;; storage_get H key) s).1
  = Ok JNull ∧
  ((storage_set H key value;; storage_clear;; storage_get H key) s).1 = Ok JNull.
Proof.
  intros Hstringify Hnonempty Hparse.
  assert (Heqb : String.eqb text "" = false)
    by by destruct (String.eqb_spec text "").
  split; [|split; [|split]].
  - unfold storage_set, storage_get, js_JSON_parse. unfold_M. rewrite Hstringify.
    destruct s; simpl. rewrite lookup_insert_eq. simpl.
    by rewrite Heqb, Hparse.
  - intros other Hother. unfold storage_set, storage_get, js_JSON_parse. unfold_M.
    destruct s; simpl. rewrite lookup_insert_ne by done.
    destruct (_ !! other) as [item|]; [|done].
    destruct (negb _); [|done]. by destruct (JSON_parse H item).
  - unfold storage_set, storage_remove, storage_get. unfold_M.
    destruct s; simpl. by rewrite lookup_delete_eq.
  - unfold storage_set, storage_clear, storage_get. unfold_M.
    by destruct s.
Qed.

Lemma storage_round_trip_witness :
  let H := RefHost.host offline in
  (storage_set H USER (JObj [("id", JNum 7); ("role", JStr "SEEKER")]);;
   storage_get H USER) initial_state
  = (Ok (JObj [("id", JNum 7); ("role", JStr "SEEKER")]),
     with_localStorage
       {[ USER := "{" +:+ RefHost.quote "id" +:+ ":7," +:+ RefHost.quote "role" +:+ ":"
                  +:+ RefHost.quote "SEEKER" +:+ "}" ]}
       initial_state).
Proof.
  intros H.
  destruct (storage_round_trip H USER (JObj [("id", JNum 7); ("role", JStr "SEEKER")])
              initial_state _ eq_refl) as [Hget _]; [done|reflexivity|].
  exact Hget.
Defined.

(** X25.  A value without a JSON text is stored as the text [undefined] and
    is lost: where [JSON.parse] rejects that text (as every engine does),
    [get] after [set] returns [null] although the item exists. *)
Theorem storage_set_undefined (H : Host) (key : string) (value : JsVal) (s : State) :
  JSON_stringify H value = None →
  JSON_parse H "undefined" = None →
  localStorage (storage_set H key value s).2 !! key = Some "undefined" ∧
  ((storage_set H key value;; storage_get H key) s).1 = Ok JNull.
Proof.
  intros Hstringify Hparse.
  unfold storage_set, storage_get, js_JSON_parse. unfold_M. rewrite Hstringify.
  destruct s; simpl. rewrite lookup_insert_eq. simpl. by rewrite Hparse.
Qed.

Lemma storage_set_undefined_witness :
  let H := RefHost.host offline in
  ((storage_set H USER JUndefined;; storage_get H USER) initial_state).1 = Ok JNull.
Proof.
  intros H.
  exact (proj2 (storage_set_undefined H USER JUndefined initial_state eq_refl eq_refl)).
Defined.

(** ** The applications of an employer *)

(** X26.  [getEmployerApplications] takes the paging fields from
    [response.pagination] and nowhere else, and never leaves one undefined: a
    reply that is [null] or [undefined] makes it throw a [TypeError]; for
    every other reply it returns data that is never empty-handed ([[]] for a
    missing list), and [hasPrev], [hasNext] and [totalPages] are [false],
    [false] and [0] when the reply has no [pagination], whatever it carries
    at the top. *)
Theorem getEmployerApplications_pagination (H : Host)
    (filters : option (list (string * JsVal))) (s s' : State) (response : JsVal) :
  httpClient_get H "/applications/employer" filters s = (Ok response, s') →
  (defined response = false →
   applicationsApi_getEmployerApplications H filters s = (Throw (TypeError H), s')) ∧
  (defined response = true →
   ∃ r : ApiResponse.t JsVal,
     applicationsApi_getEmployerApplications H filters s = (Ok r, s') ∧
     truthy (ApiResponse.data r) = true ∧
     defined (ApiResponse.hasPrev r) = true ∧
     defined (ApiResponse.hasNext r) = true ∧
     defined (ApiResponse.totalPages r) = true ∧
     (defined (opt_chain response "pagination") = false →
      ApiResponse.hasPrev r = JBool false ∧
      ApiResponse.hasNext r = JBool false ∧
      ApiResponse.totalPages r = JNum 0)).
Proof.
  intros Hget. unfold applicationsApi_getEmployerApplications.
  rewrite (bind_await_run _ _ s _ _ Hget).
  assert (Hor : ∀ v d, defined d = true → defined (js_or v d) = true).
  { intros v d Hd. unfold js_or. destruct (truthy v) eqn:Hv; [by destruct v|done]. }
  split.
  - intros Hnull. by destruct response.
  - intros Hdef.
    assert (Hprop : ∀ k, get_prop H response k = Ok (opt_chain response k))
      by (intros k; by destruct response).
    rewrite !Hprop. simpl. eexists. split; [reflexivity|]. simpl.
    split; [apply js_or_array_truthy|].
    do 3 (split; [by apply Hor|]).
    intros Hmissing. by destruct (opt_chain response "pagination").
Qed.

Lemma getEmployerApplications_pagination_witness :
  (∃ r, (applicationsApi_getEmployerApplications
           (RefHost.host (answering 120 unpaged_response)) None initial_state).1 = Ok r ∧
        ApiResponse.hasNext r = JBool false) ∧
  (applicationsApi_getEmployerApplications
     (RefHost.host (answering 120 null_response)) None initial_state).1
  = Throw (EError "TypeError" "Cannot read properties of undefined").
Proof.
  split.
  - destruct (getEmployerApplications_pagination
                (RefHost.host (answering 120 unpaged_response)) None initial_state _
                (JObj [("data", JArr []); ("hasNext", JBool true)]) eq_refl)
      as [_ Hobject].
    destruct (Hobject eq_refl) as (r & Hrun & _ & _ & _ & _ & Hpages).
    exists r. rewrite Hrun. split; [done|]. by destruct (Hpages eq_refl) as (_ & -> & _).
  - destruct (getEmployerApplications_pagination
                (RefHost.host (answering 120 null_response)) None initial_state _
                JNull eq_refl)
      as [Hnull _].
    by rewrite (Hnull eq_refl).
Defined.

Lemma apiResponse_object {T} (H : Host) (fields : list (string * JsVal))
    (data : JsVal → Result T) (d : T) :
  data (obj_lookup fields "data") = Ok d →
  apiResponse H (JObj fields) data
  = Ok (ApiResponse.mk (js_or (obj_lookup fields "status") (JStr "success"))
          (js_or (obj_lookup fields "message") (JStr "")) d
          (obj_lookup fields "hasPrev") (obj_lookup fields "hasNext")
          (obj_lookup fields "totalPages")).
Proof. intros Hdata. unfold apiResponse. simpl. by rewrite Hdata. Qed.

(** X27.  An object reply never makes an applications call throw, with or
    without [data]: [getForJob] and [getUserApplications] return the [data]
    of the reply when it is truthy and [[]] when it is not, [getById] returns
    [data] as it came (possibly [undefined]); each returns a status that is
    truthy and a message that is not [undefined]. *)
Theorem applications_reply_object (H : Host) (s : State)
    (fields : list (string * JsVal)) :
  (∀ jobId s',
     httpClient_get H ("/applications/jobs/" +:+ js_String (JNum jobId)) None s
     = (Ok (JObj fields), s') →
     ∃ r, applicationsApi_getForJob H jobId s = (Ok r, s') ∧
          truthy (ApiResponse.data r) = true ∧
          (truthy (obj_lookup fields "data") = true →
           ApiResponse.data r = obj_lookup fields "data") ∧
          (truthy (obj_lookup fields "data") = false →
           ApiResponse.data r = JArr []) ∧
          truthy (ApiResponse.status r) = true ∧
          defined (ApiResponse.message r) = true) ∧
  (∀ id s',
     httpClient_get H ("/applications/" +:+ js_String (JNum id)) None s
     = (Ok (JObj fields), s') →
     ∃ r, applicationsApi_getById H id s = (Ok r, s') ∧
          ApiResponse.data r = obj_lookup fields "data" ∧
          truthy (ApiResponse.status r) = true ∧
          defined (ApiResponse.message r) = true) ∧
  (∀ s',
     httpClient_get H "/applications/my-applications" None s = (Ok (JObj fields), s') →
     ∃ r, applicationsApi_getUserApplications H s = (Ok r, s') ∧
          truthy (ApiResponse.data r) = true ∧
          (truthy (obj_lookup fields "data") = true →
           ApiResponse.data r = obj_lookup fields "data") ∧
          (truthy (obj_lookup fields "data") = false →
           ApiResponse.data r = JArr []) ∧
          truthy (ApiResponse.status r) = true ∧
          defined (ApiResponse.message r) = true).
Proof.
  assert (Hstatus : truthy (js_or (obj_lookup fields "status") (JStr "success")) = true).
  { unfold js_or. by destruct (truthy (obj_lookup fields "status")) eqn:Hs. }
  assert (Hmessage : defined (js_or (obj_lookup fields "message") (JStr "")) = true).
  { unfold js_or. destruct (truthy (obj_lookup fields "message")) eqn:Hm; [|done].
    by destruct (obj_lookup fields "message"). }
  split; [|split].
  - intros jobId s' Hget. unfold applicationsApi_getForJob.
    rewrite (bind_await_run _ _ s _ _ Hget).
    rewrite (apiResponse_object H fields data_or_empty _ eq_refl).
    eexists. split; [reflexivity|]. simpl. split; [apply js_or_array_truthy|].
    split; [intros Hdata; unfold js_or; by rewrite Hdata|].
    split; [intros Hdata; unfold js_or; by rewrite Hdata|done].
  - intros id s' Hget. unfold applicationsApi_getById.
    rewrite (bind_await_run _ _ s _ _ Hget).
    rewrite (apiResponse_object H fields Ok _ eq_refl).
    by eexists.
  - intros s' Hget. unfold applicationsApi_getUserApplications.
    rewrite (bind_await_run _ _ s _ _ Hget).
    rewrite (apiResponse_object H fields data_or_empty _ eq_refl).
    eexists. split; [reflexivity|]. simpl. split; [apply js_or_array_truthy|].
    split; [intros Hdata; unfold js_or; by rewrite Hdata|].
    split; [intros Hdata; unfold js_or; by rewrite Hdata|done].
Qed.

Lemma applications_reply_object_witness :
  let H := RefHost.host (answering 120 message_only_response) in
  (∃ r, (applicationsApi_getForJob H 4 initial_state).1 = Ok r ∧
        ApiResponse.data r = JArr []) ∧
  (∃ r, (applicationsApi_getById H 31 initial_state).1 = Ok r ∧
        ApiResponse.data r = JUndefined).
Proof.
  intros H.
  destruct (applications_reply_object H initial_state [("message", JStr "ok")])
    as (Hjob & Hone & _).
  split.
  - destruct (Hjob 4 _ eq_refl) as (r & Hrun & _ & _ & Hempty & _).
    exists r. rewrite Hrun. split; [done|]. exact (Hempty eq_refl).
  - destruct (Hone 31 _ eq_refl) as (r & Hrun & Hdata & _).
    exists r. by rewrite Hrun.
Defined.

(** ** The requests of [authApi] *)

Lemma append_cancel_l (a b c : string) : a +:+ b = a +:+ c → b = c.
Proof.
  induction a as [|ch a IH]; simpl; [done|].
  intros [=]. by apply IH.
Qed.

(** The URL [verifyEmail] requests and the one [get] requests for the token
    as a parameter. *)
Lemma authApi_verifyEmail_urls (H : Host) (token : string) (s : State) :
  url <$> sent (authApi_verifyEmail H token s).2
  = (url <$> sent s) ++ [API_BASE_URL H +:+ "/auth/verify-email?token=" +:+ token] ∧
  url <$> sent (httpClient_get H "/auth/verify-email"
                  (Some [("token", JStr token)]) s).2
  = (url <$> sent s)
    ++ [API_BASE_URL H +:+ "/auth/verify-email?token=" +:+ URLSearchParams.encode token].
Proof.
  destruct (storage_get_run H TOKEN s) as [stored Hget].
  assert (Hfst : (storage_get H TOKEN s).1 = Ok stored) by by rewrite Hget.
  unfold authApi_verifyEmail, httpClient_get.
  rewrite !(request_run H _ _ s stored Hfst). simpl.
  by rewrite !fmap_app.
Qed.

Lemma authApi_verifyEmail_plain (H : Host) (token : string) :
  authApi_verifyEmail H token
  = httpClient_get H "/auth/verify-email" (Some [("token", JStr token)])
  ↔ URLSearchParams.encode token = token.
Proof.
  split.
  - intros Hsame.
    destruct (authApi_verifyEmail_urls H token (mkState ∅ [] None true false))
      as [Hraw Hencoded].
    rewrite Hsame, Hencoded in Hraw. simpl in Hraw.
    injection Hraw as Hraw.
    apply append_cancel_l in Hraw.
    by apply (append_cancel_l "/auth/verify-email?token=") in Hraw.
  - intros Hplain. unfold authApi_verifyEmail, httpClient_get. simpl.
    by rewrite Hplain.
Qed.


(** X28.  The requests of [authApi].  [register], [forgotPassword] and
    [resendVerificationEmail] each send one POST and [resetPassword] one
    PATCH, with the content type [application/x-www-form-urlencoded] and a
    [URLSearchParams] body holding the texts of the data under its keys, in
    the order of its fields.  [verifyEmail] sends one GET without a body
    whose URL ends in the token as it is, for every token, where [get] with
    the token as a parameter would put the escaped token; the two are the
    same request exactly when escaping leaves the token unchanged. *)
Theorem authApi_requests (H : Host) (s : State) :
  (∀ data,
     ∃ req : Request,
       sent (authApi_register H data s).2 = sent s ++ [req] ∧
       url req = API_BASE_URL H +:+ "/auth/register" ∧
       RequestInit.method (config req) = "POST" ∧
       RequestInit.headers (config req) !! "Content-Type"
       = Some "application/x-www-form-urlencoded" ∧
       RequestInit.body (config req)
       = BodyURLSearchParams
           [("firstName", RegisterData.firstName data);
            ("lastName", RegisterData.lastName data);
            ("email", RegisterData.email data);
            ("password", RegisterData.password data);
            ("role", RegisterData.role data)]) ∧
  (∀ email,
     ∃ req : Request,
       sent (authApi_forgotPassword H email s).2 = sent s ++ [req] ∧
       url req = API_BASE_URL H +:+ "/auth/forget-password" ∧
       RequestInit.method (config req) = "POST" ∧
       RequestInit.headers (config req) !! "Content-Type"
       = Some "application/x-www-form-urlencoded" ∧
       RequestInit.body (config req) = BodyURLSearchParams [("email", email)]) ∧
  (∀ email,
     ∃ req : Request,
       sent (authApi_resendVerificationEmail H email s).2 = sent s ++ [req] ∧
       url req = API_BASE_URL H +:+ "/auth/resend-verification-email" ∧
       RequestInit.method (config req) = "POST" ∧
       RequestInit.headers (config req) !! "Content-Type"
       = Some "application/x-www-form-urlencoded" ∧
       RequestInit.body (config req) = BodyURLSearchParams [("email", email)]) ∧
  (∀ token newPassword,
     ∃ req : Request,
       sent (authApi_resetPassword H token newPassword s).2 = sent s ++ [req] ∧
       url req = API_BASE_URL H +:+ "/auth/reset-password" ∧
       RequestInit.method (config req) = "PATCH" ∧
       RequestInit.headers (config req) !! "Content-Type"
       = Some "application/x-www-form-urlencoded" ∧
       RequestInit.body (config req)
       = BodyURLSearchParams [("token", token); ("newPassword", newPassword)]) ∧
  (∀ token,
     ∃ req : Request,
       sent (authApi_verifyEmail H token s).2 = sent s ++ [req] ∧
       url req = API_BASE_URL H +:+ "/auth/verify-email?token=" +:+ token ∧
       RequestInit.method (config req) = "GET" ∧
       RequestInit.body (config req) = BodyNone) ∧
  (∀ token,
     ∃ req : Request,
       sent (httpClient_get H "/auth/verify-email" (Some [("token", JStr token)]) s).2
       = sent s ++ [req] ∧
       url req = API_BASE_URL H +:+ "/auth/verify-email?token="
                 +:+ URLSearchParams.encode token) ∧
  (∀ token,
     authApi_verifyEmail H token
     = httpClient_get H "/auth/verify-email" (Some [("token", JStr token)])
     ↔ URLSearchParams.encode token = token).
Proof.
  destruct (storage_get_run H TOKEN s) as [stored Hget].
  assert (Hfst : (storage_get H TOKEN s).1 = Ok stored) by by rewrite Hget.
  assert (Hform : ∀ endpoint method fields,
            ∃ req : Request,
              sent (request H endpoint
                      (body_options H method (PRecord fields) urlencoded) s).2
              = sent s ++ [req] ∧
              url req = API_BASE_URL H +:+ endpoint ∧
              RequestInit.method (config req) = method ∧
              RequestInit.headers (config req) !! "Content-Type"
              = Some "application/x-www-form-urlencoded" ∧
              RequestInit.body (config req)
              = BodyURLSearchParams (map (λ '(k, v), (k, js_String v)) fields)).
  { intros endpoint method fields.
    destruct (body_options_spec H method (PRecord fields) urlencoded stored)
      as (Hmethod & Hbody & Hct).
    rewrite (request_run H _ _ s stored Hfst).
    eexists; split; [reflexivity|].
    cbn [url config sent_request RequestInit.method RequestInit.headers
         RequestInit.body].
    split; [done|]. split; [exact Hmethod|]. split; [exact Hct|exact Hbody]. }
  split; [|split; [|split; [|split; [|split; [|split]]]]].
  - intros data. apply (Hform "/auth/register" "POST").
  - intros email. apply (Hform "/auth/forget-password" "POST").
  - intros email. apply (Hform "/auth/resend-verification-email" "POST").
  - intros token newPassword. apply (Hform "/auth/reset-password" "PATCH").
  - intros token. unfold authApi_verifyEmail, httpClient_get.
    rewrite (request_run H _ _ s stored Hfst). by eexists.
  - intros token. unfold httpClient_get.
    rewrite (request_run H _ _ s stored Hfst). by eexists.
  - apply authApi_verifyEmail_plain.
Qed.

Lemma authApi_requests_witness :
  authApi_verifyEmail (RefHost.host offline) "abc-123"
  = httpClient_get (RefHost.host offline) "/auth/verify-email"
      (Some [("token", JStr "abc-123")]) ∧
  url <$> sent (authApi_verifyEmail (RefHost.host offline) "a+b/c" initial_state).2
  = [RefHost.API_BASE_URL +:+ "/auth/verify-email?token=a+b/c"] ∧
  url <$> sent (httpClient_get (RefHost.host offline) "/auth/verify-email"
                 (Some [("token", JStr "a+b/c")]) initial_state).2
  = [RefHost.API_BASE_URL +:+ "/auth/verify-email?token=a%2Bb%2Fc"].
Proof.
  split; [|split; reflexivity].
  destruct (authApi_requests (RefHost.host offline) initial_state)
    as (_ & _ & _ & _ & _ & _ & Hverify).
  exact (proj2 (Hverify "abc-123") eq_refl).
Defined.

(** ** The hooks of useJobs *)

(** X29.  [fetchJob] never throws and leaves a cell that is not loading and
    holds either a job or an error message.  A 404 gives the message of
    [handleApiError]; a reply that is an object without [data] gives the
    message of the engine for the [TypeError] of [transformJob]. *)
Theorem fetchJob_outcomes (H : Host) (now : Z) (jobId : Z) (s : State) :
  (∃ (cell : JobState.t) (s' : State),
     fetchJob H now jobId s = (Ok cell, s') ∧
     JobState.loading cell = false ∧ user s' = user s ∧
     match JobState.data cell with
     | Some _ => JobState.error cell = None
     | None => JobState.error cell ≠ None
     end) ∧
  (∀ fields s',
     httpClient_get H ("/jobs/" +:+ js_String (JNum jobId)) None s
     = (Ok (JObj fields), s') →
     defined (obj_lookup fields "data") = false →
     fetchJob H now jobId s
     = (Ok (JobState.mk None false (Some (engine_message H "TypeError"))), s')) ∧
  (∀ e s',
     httpClient_get H ("/jobs/" +:+ js_String (JNum jobId)) None s
     = (Throw (EApi e), s') →
     ApiError.status e = 404 →
     fetchJob H now jobId s
     = (Ok (JobState.mk None false (Some "The requested resource was not found.")),
        s')).
Proof.
  split; [|split].
  - destruct (request_state H ("/jobs/" +:+ js_String (JNum jobId))
                (RequestInit.mk "GET" ∅ BodyNone) s) as (r & req & Hrun).
    unfold fetchJob, jobsApi_getById, httpClient_get. unfold_M. rewrite Hrun.
    destruct r as [response|error].
    + destruct (apiResponse H response (transformJob H now)) as [ok|error].
      * by eexists _, _.
      * match goal with
        | |- context [handleApiError error ?st] =>
            destruct (handleApiError_run error st) as (message & ls & ->)
        end.
        by eexists _, _.
    + match goal with
      | |- context [handleApiError error ?st] =>
          destruct (handleApiError_run error st) as (message & ls & ->)
      end.
      by eexists _, _.
  - intros fields s' Hget Hmissing.
    unfold fetchJob, jobsApi_getById. unfold_M. rewrite Hget.
    unfold apiResponse. simpl.
    destruct (obj_lookup fields "data"); try done; by destruct s'.
  - intros e s' Hget Hstatus.
    unfold fetchJob, jobsApi_getById. unfold_M. rewrite Hget.
    unfold handleApiError. rewrite Hstatus. by destruct s'.
Qed.

Lemma fetchJob_outcomes_witness :
  (fetchJob (RefHost.host (answering 120 message_only_response)) 0 5 initial_state).1
  = Ok (JobState.mk None false (Some "Cannot read properties of undefined")) ∧
  (fetchJob (RefHost.host (answering 120 not_found_response)) 0 5 initial_state).1
  = Ok (JobState.mk None false (Some "The requested resource was not found.")).
Proof.
  split.
  - destruct (fetchJob_outcomes (RefHost.host (answering 120 message_only_response))
                0 5 initial_state) as (_ & Hmissing & _).
    by rewrite (Hmissing [("message", JStr "ok")] _ eq_refl eq_refl).
  - destruct (fetchJob_outcomes (RefHost.host (answering 120 not_found_response))
                0 5 initial_state) as (_ & _ & Hnotfound).
    by rewrite (Hnotfound _ _ eq_refl eq_refl).
Defined.

(** X30.  [deleteJob] never throws.  It sends one DELETE to [/jobs/:id]
    without a body, ends with [loading] false and the signed-in user as
    before, and reports success exactly when the request returned, whatever
    the reply held; on success the stored items are untouched. *)
Theorem deleteJob_outcomes (H : Host) (id : Z) (s : State) :
  ∃ (r : MessageResult.t) (s' : State) (req : Request),
    deleteJob H id s = (Ok r, s') ∧
    loading s' = false ∧ user s' = user s ∧
    sent s' = sent s ++ [req] ∧
    url req = API_BASE_URL H +:+ "/jobs/" +:+ pretty id ∧
    RequestInit.method (config req) = "DELETE" ∧
    RequestInit.body (config req) = BodyNone ∧
    (MessageResult.success r = true →
     MessageResult.message r = JStr "Job deleted successfully!" ∧
     localStorage s' = localStorage s) ∧
    (MessageResult.success r = true
     ↔ ∃ v, (httpClient_delete H ("/jobs/" +:+ js_String (JNum id))
               (with_loading true s)).1 = Ok v).
Proof.
  destruct (storage_get_run H TOKEN (with_loading true s)) as [token Hget].
  assert (Hfst : (storage_get H TOKEN (with_loading true s)).1 = Ok token)
    by by rewrite Hget.
  pose proof (request_run H ("/jobs/" +:+ js_String (JNum id))
                (RequestInit.mk "DELETE" ∅ BodyNone) _ token Hfst) as Hrun.
  unfold deleteJob, jobsApi_delete, httpClient_delete. unfold_M. rewrite Hrun.
  destruct (match settled H API_CONFIG_timeout _ with
            | Responded response => handleResponse H response
            | Rejected error => Throw (request_catch error)
            end) as [v|error].
  - eexists _, _, _. split; [reflexivity|]. simpl.
    do 6 (split; [done|]). split; [done|]. split; [by eexists|done].
  - match goal with
    | |- context [handleApiError error ?st] =>
        destruct (handleApiError_run error st) as (message & ls & ->)
    end.
    eexists _, _, _. split; [reflexivity|]. simpl.
    do 6 (split; [done|]). split; [done|]. split; [done|].
    by intros [v Hv].
Qed.

Lemma deleteJob_outcomes_witness :
  ∃ r : MessageResult.t,
    (deleteJob (RefHost.host (answering 120 no_content_response)) 5
       signed_in_session).1 = Ok r ∧
    MessageResult.message r = JStr "Job deleted successfully!".
Proof.
  destruct (deleteJob_outcomes (RefHost.host (answering 120 no_content_response)) 5
              signed_in_session)
    as (r & s' & req & Hrun & _ & _ & _ & _ & _ & _ & Hsuccess & Hreturned).
  exists r. rewrite Hrun. split; [done|].
  apply Hsuccess, Hreturned. by exists (JStr "").
Defined.
